(** * stock-notes: the 28hse property scraper ([PropertyScraper])

    A shallow embedding of the asynchronous property scraper and of the
    statements its specification makes about it, and of the country
    extraction of the trade analysis in the same file.

    Conventions of the embedding:
    - a Python [str] is a [string]; a character stands for the code point
      of the same number (0..255);
    - [Optional[T]] is [option T];
    - a Python [float] is an IEEE-754 binary64 value, [spec_float] with
      [prec = 53] and [emax = 1024];
    - a call that may raise returns an [outcome]. *)

From Stdlib Require Import ZArith NArith String Ascii List Bool Lia SpecFloat.
From Stdlib Require Import DecimalString.
From stdpp Require Import base list relations.
Import ListNotations.

Local Open Scope string_scope.
Local Open Scope Z_scope.

(** ** Exceptions *)

Inductive exn : Type :=
| ValueError (what : string)
| AttributeError (what : string)
| TypeError (what : string).

Inductive outcome (A : Type) : Type :=
| Returns (a : A)
| Raises (e : exn).
Arguments Returns {A} a.
Arguments Raises {A} e.

#[global] Instance outcome_ret : MRet outcome := fun _ a => Returns a.
#[global] Instance outcome_bind : MBind outcome := fun _ _ k x =>
  match x with
  | Returns a => k a
  | Raises e => Raises e
  end.

(** ** The Python built-ins the scraper relies on *)

Module Py.

(** [str.isspace] on one character, for code points below 256. *)
Definition isspace (c : ascii) : bool :=
  let n := N_of_ascii c in
  ((9 <=? n) && (n <=? 13) || (28 <=? n) && (n <=? 32)
   || (n =? 133) || (n =? 160))%N.

(** [\d] on one character, for code points below 256. *)
Definition isdigit (c : ascii) : bool :=
  let n := N_of_ascii c in ((48 <=? n) && (n <=? 57))%N.

Fixpoint lstrip (s : string) : string :=
  match s with
  | String c r => if isspace c then lstrip r else s
  | EmptyString => EmptyString
  end.

Fixpoint rstrip (s : string) : string :=
  match s with
  | String c r =>
      match rstrip r with
      | EmptyString => if isspace c then EmptyString else String c EmptyString
      | r' => String c r'
      end
  | EmptyString => EmptyString
  end.

(** [s.strip()] *)
Definition strip (s : string) : string := rstrip (lstrip s).

(** Truthiness of an [Optional[str]]: [None] and [""] are falsy. *)
Definition truthy (s : option string) : bool :=
  match s with
  | Some (String _ _) => true
  | _ => false
  end.

(** [s.isdigit()], for code points below 256: the ten digits and the
    superscript digits. *)
Definition isdigit_char (c : ascii) : bool :=
  let n := N_of_ascii c in
  (isdigit c || (n =? 178) || (n =? 179) || (n =? 185))%N.

Fixpoint all_chars (p : ascii -> bool) (s : string) : bool :=
  match s with
  | String c r => p c && all_chars p r
  | EmptyString => true
  end.

Definition str_isdigit (s : string) : bool :=
  match s with
  | EmptyString => false
  | _ => all_chars isdigit_char s
  end.

(** [s.split(sep)] for a one-character separator. *)
Fixpoint split (sep : ascii) (s : string) : list string :=
  match s with
  | String c r =>
      if Ascii.eqb c sep then EmptyString :: split sep r
      else match split sep r with
           | p :: ps => String c p :: ps
           | [] => [String c EmptyString]
           end
  | EmptyString => [EmptyString]
  end.

(** [sep.join(parts)] *)
Fixpoint join (sep : string) (parts : list string) : string :=
  match parts with
  | [] => EmptyString
  | [p] => p
  | p :: ps => p ++ sep ++ join sep ps
  end.

(** [sub in s] *)
Fixpoint contains (sub s : string) : bool :=
  String.prefix sub s
  || match s with
     | String _ r => contains sub r
     | EmptyString => false
     end.

(** [s.replace(old, '')]: the occurrences of [old] are deleted from the
    left, [skip] counting the characters of the current one still to drop;
    an empty [old] leaves [s] as it is. *)
Fixpoint delete_from (skip : nat) (old s : string) : string :=
  match s with
  | String c r =>
      match skip with
      | S k => delete_from k old r
      | O =>
          if String.prefix old s then delete_from (String.length old - 1) old r
          else String c (delete_from 0 old r)
      end
  | EmptyString => EmptyString
  end.

Definition delete (old s : string) : string :=
  match old with
  | EmptyString => s
  | _ => delete_from 0 old s
  end.

(** *** binary64 *)

Definition prec : Z := 53.
Definition emax : Z := 1024.

Definition float := spec_float.

(** The binary64 nearest to the integer [n], ties to even: [float(n)], and
    the value of [n] in an operation with a float.  Beyond the range of
    the finite floats it is an infinity, as for a numeral that [float]
    reads; [float(n)] itself raises [OverflowError] there. *)
Definition float_of_int (n : Z) : float := binary_normalize prec emax n 0 false.

(** [x / y] on floats.  Python raises [ZeroDivisionError] on a zero
    divisor; the scraper only divides by [1_000_000]. *)
Definition fdiv (x y : float) : float := SFdiv prec emax x y.

(** The value of a plain decimal numeral. *)
Definition digit_val (c : ascii) : Z := Z.of_N (N_of_ascii c) - 48.

Fixpoint digits_val (acc : Z) (s : string) : Z :=
  match s with
  | String c r => digits_val (10 * acc + digit_val c) r
  | EmptyString => acc
  end.

Definition all_digits : string -> bool := all_chars isdigit.

(** Splits at the first dot: the text before it and, when there is a dot,
    the text after it. *)
Fixpoint split_dot (s : string) : string * option string :=
  match s with
  | String c r =>
      if Ascii.eqb c "." then (EmptyString, Some r)
      else let '(i, f) := split_dot r in (String c i, f)
  | EmptyString => (EmptyString, None)
  end.

(** The correctly rounded binary64 of [n / 10^k], as [float()] computes it. *)
Definition float_of_ratio10 (n : Z) (k : nat) : float :=
  match n with
  | Zpos p => SFdiv prec emax (S754_finite false p 0)
                (S754_finite false (Pos.pow 10 (Pos.of_nat k)) 0)
  | _ => S754_zero false
  end.

(** [float(s)] for a string [s] over [0-9.]: digits with at most one dot
    and at least one digit; anything else raises [ValueError]. *)
Definition float_of_str (s : string) : outcome float :=
  let '(i, f) := split_dot s in
  let f' := match f with Some f' => f' | None => EmptyString end in
  if all_digits i && all_digits f'
     && negb (Nat.eqb (String.length i + String.length f') 0)
  then Returns (match f' with
                | EmptyString => float_of_int (digits_val 0 i)
                | _ => float_of_ratio10 (digits_val 0 (i ++ f')) (String.length f')
                end)
  else Raises (ValueError ("could not convert string to float: '" ++ s ++ "'")).

Definition str_of_pos (p : positive) : string :=
  DecimalString.NilZero.string_of_uint (Pos.to_uint p).

(** [str(n)] for an [int]. *)
Definition str_of_int (n : Z) : string :=
  match n with
  | Z0 => "0"
  | Zpos p => str_of_pos p
  | Zneg p => "-" ++ str_of_pos p
  end.

(** [int(s)]: surrounding white space, one sign, then digits, where single
    underscores may stand between digits; from Python 3.11 on, no more than
    [sys.get_int_max_str_digits()] digits, 4300 unless it is set. *)
Fixpoint int_digits (acc : Z) (s : string) : option Z :=
  match s with
  | String c r =>
      if isdigit c then
        let acc := 10 * acc + digit_val c in
        match r with
        | EmptyString => Some acc
        | String "_" (String d _ as r') =>
            if isdigit d then int_digits acc r' else None
        | _ => int_digits acc r
        end
      else None
  | EmptyString => None
  end.

(** The digits and underscores that [s] begins with, and the number of
    digits among them: the conversion looks at this run first. *)
Fixpoint digit_run (s : string) : string :=
  match s with
  | String c r =>
      if isdigit c || Ascii.eqb c "_" then String c (digit_run r) else EmptyString
  | EmptyString => EmptyString
  end.

Fixpoint count_digits (s : string) : nat :=
  match s with
  | String c r => if isdigit c then S (count_digits r) else count_digits r
  | EmptyString => O
  end.

Definition int_max_str_digits : nat := 4300.

Definition int_of_str (s : string) : outcome Z :=
  let body := strip s in
  let '(negative, digits) :=
    match body with
    | String "-" r => (true, r)
    | String "+" r => (false, r)
    | _ => (false, body)
    end in
  let invalid :=
    Raises (ValueError ("invalid literal for int() with base 10: '" ++ s ++ "'")) in
  let run := digit_run digits in
  match int_digits 0 run with
  | Some _ =>
      if (int_max_str_digits <? count_digits run)%nat then
        Raises (ValueError
                  ("Exceeds the limit (4300 digits) for integer string conversion: value has "
                   ++ str_of_int (Z.of_nat (count_digits run))
                   ++ " digits; use sys.set_int_max_str_digits() to increase the limit"))
      else
        match int_digits 0 digits with
        | Some n => Returns (if negative then - n else n)
        | None => invalid
        end
  | None => invalid
  end.

(** *** [repr] of a float

    [str(x)] and [repr(x)] give the shortest decimal numeral that reads
    back as [x] and, among those, the one nearest to [x]; it is written
    in exponent notation when the decimal point would stand more than 16
    digits to the right of the first digit, or 4 or more to its left. *)

Definition float_same (x y : float) : bool :=
  match x, y with
  | S754_zero a, S754_zero b => Bool.eqb a b
  | S754_infinity a, S754_infinity b => Bool.eqb a b
  | S754_nan, S754_nan => true
  | S754_finite a m e, S754_finite b m' e' =>
      Bool.eqb a b && Pos.eqb m m' && Z.eqb e e'
  | _, _ => false
  end.

(** [num / den < 10^t] *)
Definition lt_pow10 (num den t : Z) : bool :=
  if 0 <=? t then num <? den * 10 ^ t else num * 10 ^ (- t) <? den.

Fixpoint find_decpt (fuel : nat) (num den t : Z) : Z :=
  match fuel with
  | S f => if lt_pow10 num den t then t else find_decpt f num den (t + 1)
  | O => t
  end.

(** The least [t] with [num / den < 10^t]. *)
Definition decpt_of (num den : Z) : Z :=
  let b := Z.log2 num - Z.log2 den in
  find_decpt 8 num den ((b - 1) * 30103 / 100000 - 1).

(** [n * 10^q] read as a float. *)
Definition float_of_decimal (n q : Z) : float :=
  if 0 <=? q then float_of_int (n * 10 ^ q)
  else float_of_ratio10 n (Z.to_nat (- q)).

(** The two integers around [num / (den * 10^q)], the nearer one first. *)
Definition candidates (num den q : Z) : list Z :=
  let '(a, b) := if 0 <=? q then (num, den * 10 ^ q)
                 else (num * 10 ^ (- q), den) in
  let lo := a / b in
  let r := a mod b in
  if r =? 0 then [lo]
  else match 2 * r ?= b with
       | Lt => [lo; lo + 1]
       | Gt => [lo + 1; lo]
       | Eq => if Z.even lo then [lo; lo + 1] else [lo + 1; lo]
       end.

Fixpoint shortest (fuel : nat) (x : float) (num den decpt k : Z)
  : option (Z * Z) :=
  match fuel with
  | S f =>
      let q := decpt - k in
      match List.find (fun n => float_same (float_of_decimal n q) x)
                      (candidates num den q) with
      | Some n => Some (n, q)
      | None => shortest f x num den decpt (k + 1)
      end
  | O => None
  end.

Fixpoint rstrip_zeros (s : string) : string :=
  match s with
  | String c r =>
      match rstrip_zeros r with
      | EmptyString => if Ascii.eqb c "0" then EmptyString else String c EmptyString
      | r' => String c r'
      end
  | EmptyString => EmptyString
  end.

Fixpoint zeros (n : nat) : string :=
  match n with
  | S k => String "0" (zeros k)
  | O => EmptyString
  end.

Definition format_digits (ds : string) (decpt : Z) : string :=
  let n := Z.of_nat (String.length ds) in
  if (decpt <=? -4) || (16 <? decpt) then
    let e := decpt - 1 in
    let mant := match ds with
                | String d EmptyString => ds
                | String d r => String d ("." ++ r)
                | EmptyString => ds
                end in
    let ex := str_of_int (Z.abs e) in
    mant ++ "e" ++ (if e <? 0 then "-" else "+")
         ++ (if Z.abs e <? 10 then "0" ++ ex else ex)
  else if decpt <=? 0 then "0." ++ zeros (Z.to_nat (- decpt)) ++ ds
  else if decpt <? n then
    substring 0 (Z.to_nat decpt) ds ++ "."
      ++ substring (Z.to_nat decpt) (Z.to_nat (n - decpt)) ds
  else ds ++ zeros (Z.to_nat (decpt - n)) ++ ".0".

Definition float_repr (x : float) : string :=
  match x with
  | S754_nan => "nan"
  | S754_infinity s => if s then "-inf" else "inf"
  | S754_zero s => if s then "-0.0" else "0.0"
  | S754_finite s m e =>
      let '(num, den) := if 0 <=? e then (Zpos m * 2 ^ e, 1)
                         else (Zpos m, 2 ^ (- e)) in
      let decpt := decpt_of num den in
      match shortest 17 (S754_finite false m e) num den decpt 1 with
      | Some (n, q) =>
          let ds := str_of_int n in
          (if s then "-" else "")
            ++ format_digits (rstrip_zeros ds) (Z.of_nat (String.length ds) + q)
      | None => EmptyString
      end
  end.

End Py.

(** ** Regular expressions

    The patterns that the scraper applies to a price string, as terms, and
    the matcher of [re]: it tries the alternatives from the left and the
    repetitions from the longest, and goes back when what follows fails. *)

Module Regex.

Inductive t : Type :=
| Eps
| Chr (p : ascii -> bool)
| Seq (r1 r2 : t)
| Alt (r1 r2 : t)
| Star (r : t)
| Group (i : nat) (r : t).

(** [r+] and [r?] *)
Definition Plus (r : t) : t := Seq r (Star r).
Definition Opt (r : t) : t := Alt r Eps.

Definition lower (c : ascii) : ascii :=
  let n := N_of_ascii c in
  if ((65 <=? n) && (n <=? 90))%N then ascii_of_N (n + 32) else c.

(** One character of a pattern, under [re.IGNORECASE] or not. *)
Definition same_char (ignorecase : bool) (c d : ascii) : bool :=
  if ignorecase then Ascii.eqb (lower c) (lower d) else Ascii.eqb c d.

(** A text that stands for itself. *)
Fixpoint Lit (ignorecase : bool) (s : string) : t :=
  match s with
  | String c r => Seq (Chr (same_char ignorecase c)) (Lit ignorecase r)
  | EmptyString => Eps
  end.

(** The groups that have matched, the latest first. *)
Definition groups : Type := list (nat * string).

(** [m.group(i)], [None] for a group that took no part in the match *)
Definition group (i : nat) (m : groups) : option string :=
  snd <$> List.find (fun g => Nat.eqb (fst g) i) m.

(** What a match has taken of [s] when [rest] is left. *)
Definition taken (s rest : string) : string :=
  String.substring 0 (String.length s - String.length rest) s.

(** What is to be done with the rest of the text and the groups so far. *)
Definition cont (R : Type) : Type := string -> groups -> option R.

(** [body] as many times as it will go, the most first, and then [k]; a
    round that takes nothing is not gone into again. *)
Fixpoint iterate {R} (body : string -> groups -> cont R -> option R)
    (fuel : nat) (s : string) (m : groups) (k : cont R) : option R :=
  match fuel with
  | S fuel' =>
      match body s m
              (fun rest m' =>
                 if (String.length rest <? String.length s)%nat
                 then iterate body fuel' rest m' k else None) with
      | Some x => Some x
      | None => k s m
      end
  | O => k s m
  end.

(** [r] matched at the start of [s], and then [k] on what is left. *)
Fixpoint matches {R} (r : t) (s : string) (m : groups) (k : cont R)
  : option R :=
  match r with
  | Eps => k s m
  | Chr p =>
      match s with
      | String c rest => if p c then k rest m else None
      | EmptyString => None
      end
  | Seq r1 r2 => matches r1 s m (fun rest m' => matches r2 rest m' k)
  | Alt r1 r2 =>
      match matches r1 s m k with
      | Some x => Some x
      | None => matches r2 s m k
      end
  | Star r' => iterate (matches r') (String.length s) s m k
  | Group i r' =>
      matches r' s m (fun rest m' => k rest ((i, taken s rest) :: m'))
  end.

(** [re.search(r, s)]: the match at the leftmost place that has one. *)
Fixpoint search (r : t) (s : string) : option groups :=
  match matches r s [] (fun _ m => Some m) with
  | Some m => Some m
  | None =>
      match s with
      | String _ rest => search r rest
      | EmptyString => None
      end
  end.

(** [re.sub(r, '', s)] for an [r] that matches no empty text: the matches
    are deleted from the left, [skip] counting the characters of the
    current one still to drop. *)
Fixpoint delete_from (skip : nat) (r : t) (s : string) : string :=
  match s with
  | String c rest =>
      match skip with
      | S k => delete_from k r rest
      | O =>
          match matches r s [] (fun left _ => Some (String.length (taken s left))) with
          | Some (S n) => delete_from n r rest
          | _ => String c (delete_from 0 r rest)
          end
      end
  | EmptyString => EmptyString
  end.

Definition delete (r : t) (s : string) : string := delete_from 0 r s.

End Regex.

(** ** The records

    The two dataclasses, field for field; [set_f v r] is [r.f = v]. *)

(** One transaction of a property (the child record). *)
Module Transaction.

Record t : Type := mk {
  property_full_name : string;
  estate_name : string;
  flat_info : string;
  location : string;
  sold_price : option string;
  sold_price_millions : option Py.float;
  registry_date : option string;
  gross_area_sqft : option Z;
  saleable_area_sqft : option Z;
  building_unit_price : option string;
  unit_price : option string;
  bedrooms : option Z;
  transaction_format : option string;
  url : option string;
}.

Definition set_property_full_name (v : string) (r : t) : t :=
  let 'mk _ f2 f3 f4 f5 f6 f7 f8 f9 f10 f11 f12 f13 f14 := r in
  mk v f2 f3 f4 f5 f6 f7 f8 f9 f10 f11 f12 f13 f14.

Definition set_estate_name (v : string) (r : t) : t :=
  let 'mk f1 _ f3 f4 f5 f6 f7 f8 f9 f10 f11 f12 f13 f14 := r in
  mk f1 v f3 f4 f5 f6 f7 f8 f9 f10 f11 f12 f13 f14.

Definition set_flat_info (v : string) (r : t) : t :=
  let 'mk f1 f2 _ f4 f5 f6 f7 f8 f9 f10 f11 f12 f13 f14 := r in
  mk f1 f2 v f4 f5 f6 f7 f8 f9 f10 f11 f12 f13 f14.

Definition set_location (v : string) (r : t) : t :=
  let 'mk f1 f2 f3 _ f5 f6 f7 f8 f9 f10 f11 f12 f13 f14 := r in
  mk f1 f2 f3 v f5 f6 f7 f8 f9 f10 f11 f12 f13 f14.

Definition set_sold_price (v : option string) (r : t) : t :=
  let 'mk f1 f2 f3 f4 _ f6 f7 f8 f9 f10 f11 f12 f13 f14 := r in
  mk f1 f2 f3 f4 v f6 f7 f8 f9 f10 f11 f12 f13 f14.

Definition set_sold_price_millions (v : option Py.float) (r : t) : t :=
  let 'mk f1 f2 f3 f4 f5 _ f7 f8 f9 f10 f11 f12 f13 f14 := r in
  mk f1 f2 f3 f4 f5 v f7 f8 f9 f10 f11 f12 f13 f14.

Definition set_registry_date (v : option string) (r : t) : t :=
  let 'mk f1 f2 f3 f4 f5 f6 _ f8 f9 f10 f11 f12 f13 f14 := r in
  mk f1 f2 f3 f4 f5 f6 v f8 f9 f10 f11 f12 f13 f14.

Definition set_gross_area_sqft (v : option Z) (r : t) : t :=
  let 'mk f1 f2 f3 f4 f5 f6 f7 _ f9 f10 f11 f12 f13 f14 := r in
  mk f1 f2 f3 f4 f5 f6 f7 v f9 f10 f11 f12 f13 f14.

Definition set_saleable_area_sqft (v : option Z) (r : t) : t :=
  let 'mk f1 f2 f3 f4 f5 f6 f7 f8 _ f10 f11 f12 f13 f14 := r in
  mk f1 f2 f3 f4 f5 f6 f7 f8 v f10 f11 f12 f13 f14.

Definition set_building_unit_price (v : option string) (r : t) : t :=
  let 'mk f1 f2 f3 f4 f5 f6 f7 f8 f9 _ f11 f12 f13 f14 := r in
  mk f1 f2 f3 f4 f5 f6 f7 f8 f9 v f11 f12 f13 f14.

Definition set_unit_price (v : option string) (r : t) : t :=
  let 'mk f1 f2 f3 f4 f5 f6 f7 f8 f9 f10 _ f12 f13 f14 := r in
  mk f1 f2 f3 f4 f5 f6 f7 f8 f9 f10 v f12 f13 f14.

Definition set_bedrooms (v : option Z) (r : t) : t :=
  let 'mk f1 f2 f3 f4 f5 f6 f7 f8 f9 f10 f11 _ f13 f14 := r in
  mk f1 f2 f3 f4 f5 f6 f7 f8 f9 f10 f11 v f13 f14.

Definition set_transaction_format (v : option string) (r : t) : t :=
  let 'mk f1 f2 f3 f4 f5 f6 f7 f8 f9 f10 f11 f12 _ f14 := r in
  mk f1 f2 f3 f4 f5 f6 f7 f8 f9 f10 f11 f12 v f14.

End Transaction.

(** One listed property (the parent record), with its transactions. *)
Module Property.

Record t : Type := mk {
  url : string;
  property_id : string;
  location_breadcrumb : option string;
  estate_name : option string;
  full_address : option string;
  block_unit : option string;
  floor_info : option string;
  sell_price : option string;
  sell_price_millions : option Py.float;
  valuation : option string;
  valuation_millions : option Py.float;
  gross_area_sqft : option Z;
  gross_area_unit_price : option Z;
  saleable_area_sqft : option Z;
  saleable_area_unit_price : option Z;
  building_age_years : option Z;
  bedrooms : option Z;
  bathrooms : option Z;
  pri_school_net : option string;
  sec_school_net : option string;
  transactions : list Transaction.t;
  scraped_at : string;
}.

Definition set_location_breadcrumb (v : option string) (r : t) : t :=
  let 'mk f1 f2 _ f4 f5 f6 f7 f8 f9 f10 f11 f12 f13 f14 f15 f16 f17 f18
      f19 f20 f21 f22 := r in
  mk f1 f2 v f4 f5 f6 f7 f8 f9 f10 f11 f12 f13 f14 f15 f16 f17 f18 f19 f20
    f21 f22.

Definition set_estate_name (v : option string) (r : t) : t :=
  let 'mk f1 f2 f3 _ f5 f6 f7 f8 f9 f10 f11 f12 f13 f14 f15 f16 f17 f18
      f19 f20 f21 f22 := r in
  mk f1 f2 f3 v f5 f6 f7 f8 f9 f10 f11 f12 f13 f14 f15 f16 f17 f18 f19 f20
    f21 f22.

Definition set_full_address (v : option string) (r : t) : t :=
  let 'mk f1 f2 f3 f4 _ f6 f7 f8 f9 f10 f11 f12 f13 f14 f15 f16 f17 f18
      f19 f20 f21 f22 := r in
  mk f1 f2 f3 f4 v f6 f7 f8 f9 f10 f11 f12 f13 f14 f15 f16 f17 f18 f19 f20
    f21 f22.

Definition set_block_unit (v : option string) (r : t) : t :=
  let 'mk f1 f2 f3 f4 f5 _ f7 f8 f9 f10 f11 f12 f13 f14 f15 f16 f17 f18
      f19 f20 f21 f22 := r in
  mk f1 f2 f3 f4 f5 v f7 f8 f9 f10 f11 f12 f13 f14 f15 f16 f17 f18 f19 f20
    f21 f22.

Definition set_floor_info (v : option string) (r : t) : t :=
  let 'mk f1 f2 f3 f4 f5 f6 _ f8 f9 f10 f11 f12 f13 f14 f15 f16 f17 f18
      f19 f20 f21 f22 := r in
  mk f1 f2 f3 f4 f5 f6 v f8 f9 f10 f11 f12 f13 f14 f15 f16 f17 f18 f19 f20
    f21 f22.

Definition set_sell_price (v : option string) (r : t) : t :=
  let 'mk f1 f2 f3 f4 f5 f6 f7 _ f9 f10 f11 f12 f13 f14 f15 f16 f17 f18
      f19 f20 f21 f22 := r in
  mk f1 f2 f3 f4 f5 f6 f7 v f9 f10 f11 f12 f13 f14 f15 f16 f17 f18 f19 f20
    f21 f22.

Definition set_sell_price_millions (v : option Py.float) (r : t) : t :=
  let 'mk f1 f2 f3 f4 f5 f6 f7 f8 _ f10 f11 f12 f13 f14 f15 f16 f17 f18
      f19 f20 f21 f22 := r in
  mk f1 f2 f3 f4 f5 f6 f7 f8 v f10 f11 f12 f13 f14 f15 f16 f17 f18 f19 f20
    f21 f22.

Definition set_valuation (v : option string) (r : t) : t :=
  let 'mk f1 f2 f3 f4 f5 f6 f7 f8 f9 _ f11 f12 f13 f14 f15 f16 f17 f18 f19
      f20 f21 f22 := r in
  mk f1 f2 f3 f4 f5 f6 f7 f8 f9 v f11 f12 f13 f14 f15 f16 f17 f18 f19 f20
    f21 f22.

Definition set_valuation_millions (v : option Py.float) (r : t) : t :=
  let 'mk f1 f2 f3 f4 f5 f6 f7 f8 f9 f10 _ f12 f13 f14 f15 f16 f17 f18 f19
      f20 f21 f22 := r in
  mk f1 f2 f3 f4 f5 f6 f7 f8 f9 f10 v f12 f13 f14 f15 f16 f17 f18 f19 f20
    f21 f22.

Definition set_gross_area_sqft (v : option Z) (r : t) : t :=
  let 'mk f1 f2 f3 f4 f5 f6 f7 f8 f9 f10 f11 _ f13 f14 f15 f16 f17 f18 f19
      f20 f21 f22 := r in
  mk f1 f2 f3 f4 f5 f6 f7 f8 f9 f10 f11 v f13 f14 f15 f16 f17 f18 f19 f20
    f21 f22.

Definition set_gross_area_unit_price (v : option Z) (r : t) : t :=
  let 'mk f1 f2 f3 f4 f5 f6 f7 f8 f9 f10 f11 f12 _ f14 f15 f16 f17 f18 f19
      f20 f21 f22 := r in
  mk f1 f2 f3 f4 f5 f6 f7 f8 f9 f10 f11 f12 v f14 f15 f16 f17 f18 f19 f20
    f21 f22.

Definition set_saleable_area_sqft (v : option Z) (r : t) : t :=
  let 'mk f1 f2 f3 f4 f5 f6 f7 f8 f9 f10 f11 f12 f13 _ f15 f16 f17 f18 f19
      f20 f21 f22 := r in
  mk f1 f2 f3 f4 f5 f6 f7 f8 f9 f10 f11 f12 f13 v f15 f16 f17 f18 f19 f20
    f21 f22.

Definition set_saleable_area_unit_price (v : option Z) (r : t) : t :=
  let 'mk f1 f2 f3 f4 f5 f6 f7 f8 f9 f10 f11 f12 f13 f14 _ f16 f17 f18 f19
      f20 f21 f22 := r in
  mk f1 f2 f3 f4 f5 f6 f7 f8 f9 f10 f11 f12 f13 f14 v f16 f17 f18 f19 f20
    f21 f22.

Definition set_building_age_years (v : option Z) (r : t) : t :=
  let 'mk f1 f2 f3 f4 f5 f6 f7 f8 f9 f10 f11 f12 f13 f14 f15 _ f17 f18 f19
      f20 f21 f22 := r in
  mk f1 f2 f3 f4 f5 f6 f7 f8 f9 f10 f11 f12 f13 f14 f15 v f17 f18 f19 f20
    f21 f22.

Definition set_bedrooms (v : option Z) (r : t) : t :=
  let 'mk f1 f2 f3 f4 f5 f6 f7 f8 f9 f10 f11 f12 f13 f14 f15 f16 _ f18 f19
      f20 f21 f22 := r in
  mk f1 f2 f3 f4 f5 f6 f7 f8 f9 f10 f11 f12 f13 f14 f15 f16 v f18 f19 f20
    f21 f22.

Definition set_bathrooms (v : option Z) (r : t) : t :=
  let 'mk f1 f2 f3 f4 f5 f6 f7 f8 f9 f10 f11 f12 f13 f14 f15 f16 f17 _ f19
      f20 f21 f22 := r in
  mk f1 f2 f3 f4 f5 f6 f7 f8 f9 f10 f11 f12 f13 f14 f15 f16 f17 v f19 f20
    f21 f22.

Definition set_pri_school_net (v : option string) (r : t) : t :=
  let 'mk f1 f2 f3 f4 f5 f6 f7 f8 f9 f10 f11 f12 f13 f14 f15 f16 f17 f18 _
      f20 f21 f22 := r in
  mk f1 f2 f3 f4 f5 f6 f7 f8 f9 f10 f11 f12 f13 f14 f15 f16 f17 f18 v f20
    f21 f22.

Definition set_sec_school_net (v : option string) (r : t) : t :=
  let 'mk f1 f2 f3 f4 f5 f6 f7 f8 f9 f10 f11 f12 f13 f14 f15 f16 f17 f18
      f19 _ f21 f22 := r in
  mk f1 f2 f3 f4 f5 f6 f7 f8 f9 f10 f11 f12 f13 f14 f15 f16 f17 f18 f19 v
    f21 f22.

Definition set_transactions (v : list Transaction.t) (r : t) : t :=
  let 'mk f1 f2 f3 f4 f5 f6 f7 f8 f9 f10 f11 f12 f13 f14 f15 f16 f17 f18
      f19 f20 _ f22 := r in
  mk f1 f2 f3 f4 f5 f6 f7 f8 f9 f10 f11 f12 f13 f14 f15 f16 f17 f18 f19
    f20 v f22.

End Property.

(** ** The libraries behind the parser

    The parser reads a page through BeautifulSoup and the [re] module.
    Both are outside the repository; they enter as interfaces, and what is
    proved of the parser holds for every implementation of them.  A regular
    expression is named by its source text. *)

Inductive matcher : Type :=
| Equals (s : string)
| Regex (pattern : string) (ignorecase : bool).

(** The filters of [find] and [find_all]: the tag name, one attribute, the
    [text] argument. *)
Record query : Type := {
  by_name : option string;
  by_attr : option (string * matcher);
  by_text : option matcher;
}.

Module bs4.

Class api : Type := {
  (** a [Tag], a [NavigableString], or the document itself *)
  element : Type;
  (** [BeautifulSoup(html, 'html.parser')] *)
  BeautifulSoup : string -> element;
  find : element -> query -> option element;
  find_all : element -> query -> list element;
  find_next_sibling : element -> string -> option element;
  find_parent : element -> string -> option element;
  (** [e.parent] *)
  parent : element -> option element;
  (** [e.name] *)
  tag_name : element -> string;
  (** [e.get_text(sep, strip=...)] *)
  get_text : element -> string -> bool -> string;
  (** [e[key]], for an [e] that was found through its attribute [key] *)
  attr : element -> string -> string;
  (** [isinstance(e, str)], and the text of such an [e] *)
  is_str : element -> bool;
  str_of : element -> string;
  (** [e1 == e2] *)
  eqb : element -> element -> bool;
}.

End bs4.

Module re.

Class api : Type := {
  (** [re.search(pattern, s, flags)]: group 1 of the first match *)
  search : string -> bool -> string -> option string;
  (** [re.split(pattern, s)] *)
  split : string -> string -> list string;
}.

End re.

(** ** The numeric projection of a price string *)

Module PropertyScraper.
Import Py.

(** [r'HKD\$?'] *)
Definition hkd_pattern : Regex.t :=
  Regex.Seq (Regex.Lit false "HKD") (Regex.Opt (Regex.Chr (Ascii.eqb "$"))).

(** [[\d.]] *)
Definition is_num_char (c : ascii) : bool := isdigit c || Ascii.eqb c ".".

(** [r'(M|Million|Millions)?'], under [re.IGNORECASE] *)
Definition magnitude_pattern : Regex.t :=
  Regex.Opt
    (Regex.Group 2
       (Regex.Alt (Regex.Lit true "M")
          (Regex.Alt (Regex.Lit true "Million")
             (Regex.Lit true "Millions")))).

(** [r'([\d.]+)\s*(M|Million|Millions)?'], under [re.IGNORECASE] *)
Definition price_pattern : Regex.t :=
  Regex.Seq (Regex.Group 1 (Regex.Plus (Regex.Chr is_num_char)))
    (Regex.Seq (Regex.Star (Regex.Chr isspace)) magnitude_pattern).

Definition million : float := float_of_int 1000000.

(** [float(match.group(1))] *)
Definition float_of_group (g : option string) : outcome float :=
  match g with
  | Some s => float_of_str s
  | None =>
      Raises (TypeError "float() argument must be a string or a real number, not 'NoneType'")
  end.

Definition parse_price_to_millions (price_str : option string)
  : outcome (option float) :=
  match price_str with
  | Some (String _ _ as price_str) =>
      let price_str := strip (Regex.delete hkd_pattern price_str) in
      match Regex.search price_pattern price_str with
      | Some m =>
          value ← float_of_group (Regex.group 1 m);
          if truthy (Regex.group 2 m) then Returns (Some value)
          else Returns (Some (fdiv value million))
      | None => Returns None
      end
  | _ => Returns None
  end.

(** *** The two patterns read by hand

    What the matcher comes to on these two patterns, as plain recursions on
    the string; the matcher is shown to agree with them on every input. *)

(** Every occurrence of [HKD], with the dollar sign that may follow it, is
    deleted, scanning from the left; [skip] counts the characters of the
    current occurrence still to drop. *)
Fixpoint remove_hkd_from (skip : nat) (s : string) : string :=
  match s with
  | String c r =>
      match skip with
      | S k => remove_hkd_from k r
      | O =>
          if String.prefix "HKD$" s then remove_hkd_from 3 r
          else if String.prefix "HKD" s then remove_hkd_from 2 r
          else String c (remove_hkd_from 0 r)
      end
  | EmptyString => EmptyString
  end.

Definition remove_hkd (s : string) : string := remove_hkd_from 0 s.

(** The longest prefix of characters satisfying [p], and what follows. *)
Fixpoint span (p : ascii -> bool) (s : string) : string * string :=
  match s with
  | String c r =>
      if p c then let '(a, b) := span p r in (String c a, b)
      else (EmptyString, s)
  | EmptyString => (EmptyString, EmptyString)
  end.

(** The optional second group, tried after the greedy [\s*]: the first
    alternative, one letter [M] in either case, is taken whenever that
    letter is next; otherwise the group does not take part in the match. *)
Definition magnitude_group (rest : string) : option string :=
  match lstrip rest with
  | String c _ =>
      if Ascii.eqb c "M" || Ascii.eqb c "m" then Some (String c EmptyString)
      else None
  | EmptyString => None
  end.

(** The leftmost place where a digit or a dot stands; group 1 is the longest
    run of digits and dots from there, group 2 the magnitude letter. *)
Fixpoint price_search (s : string) : option (string * option string) :=
  match s with
  | String c r =>
      if is_num_char c
      then let '(g1, rest) := span is_num_char s in
           Some (g1, magnitude_group rest)
      else price_search r
  | EmptyString => None
  end.

(** The groups of a match of the price pattern, as the matcher lists them. *)
Definition price_groups (g : string * option string) : Regex.groups :=
  match g with
  | (g1, Some g2) => [(2%nat, g2); (1%nat, g1)]
  | (g1, None) => [(1%nat, g1)]
  end.

(** *** What is kept while a page is parsed *)

(** A price string and the number kept beside it agree when the number is
    what the projection makes of the string. *)
Definition projected (s : option string) (m : option float) : Prop :=
  parse_price_to_millions s = Returns m.

Definition priced (p : Property.t) : Prop :=
  projected (Property.sell_price p) (Property.sell_price_millions p)
  /\ projected (Property.valuation p) (Property.valuation_millions p).

(** What a step of the parser leaves as it is: the address, the
    identifier, the transactions. *)
Definition same_frame (p p' : Property.t) : Prop :=
  Property.url p' = Property.url p
  /\ Property.property_id p' = Property.property_id p
  /\ Property.transactions p' = Property.transactions p.

Definition keeps (p p' : Property.t) : Prop :=
  same_frame p p' /\ (priced p -> priced p').

(** A setter of a field that is neither framed nor a price. *)
Definition plain {A} (set : A -> Property.t -> Property.t) : Prop :=
  forall v p, keeps p (set v p).

(** The same for a transaction: its address, and its price. *)
Definition tkeeps (t t' : Transaction.t) : Prop :=
  Transaction.url t' = Transaction.url t
  /\ (projected (Transaction.sold_price t) (Transaction.sold_price_millions t) ->
      projected (Transaction.sold_price t') (Transaction.sold_price_millions t')).

Definition tplain {A} (set : A -> Transaction.t -> Transaction.t) : Prop :=
  forall v t, tkeeps t (set v t).


(** ** The page parser *)

Section Parser.
Context `{bs4.api} `{re.api}.
(** [urllib.parse.urljoin]; it raises [ValueError] on an address that it
    cannot take apart *)
Variable urljoin : string -> string -> outcome string.
(** [datetime.now().isoformat()], read when a record is created *)
Variable now : string.

Import bs4.

Definition tag (name : string) : query :=
  {| by_name := Some name; by_attr := None; by_text := None |}.
Definition tag_text (name : string) (m : matcher) : query :=
  {| by_name := Some name; by_attr := None; by_text := Some m |}.
Definition tag_attr (name key : string) (m : matcher) : query :=
  {| by_name := Some name; by_attr := Some (key, m); by_text := None |}.
Definition any_text (m : matcher) : query :=
  {| by_name := None; by_attr := None; by_text := Some m |}.

(** [a or b] on values that are false only when [None] *)
Definition or_else {A} (a b : option A) : option A :=
  match a with Some _ => a | None => b end.

Definition extract_property_id (url : string) : string :=
  match re.search "property-(\d+)" false url with
  | Some g1 => g1
  | None => EmptyString
  end.

Definition exclude : list string :=
  ["Home"; "Buy Property"; "Property Info"; "Buy"; "Property"; "Sell"].

Definition keep_part (part : string) : bool :=
  truthy (Some part)
  && negb (existsb (String.eqb part) exclude)
  && (1 <? String.length part)%nat
  && negb (str_isdigit part).

Definition extract_breadcrumb_location (soup : element)
  : option string * option string :=
  let breadcrumb :=
    or_else (find soup (tag_attr "div" "class" (Equals "c_breadcrumb")))
   (or_else (find soup (tag_attr "div" "class" (Equals "ui c_breadcrumb container")))
   (or_else (find soup (tag_attr "nav" "class" (Equals "breadcrumb")))
            (find soup (tag_attr "div" "class" (Regex "breadcrumb" true))))) in
  match breadcrumb with
  | Some breadcrumb =>
      let breadcrumb_text := get_text breadcrumb " " true in
      let parts := re.split "[>›/]|\s{2,}" breadcrumb_text in
      let filtered_parts := List.filter keep_part (List.map strip parts) in
      match filtered_parts with
      | _ :: _ =>
          (Some (join "/" filtered_parts), List.last (List.map Some filtered_parts) None)
      | [] => (None, None)
      end
  | None => (None, None)
  end.

(** The helper of this name that the class keeps: the second of its two
    definitions, which replaces the first. *)
Definition _extract_value_from_row (e : element) : outcome string :=
  let fallback :=
    match parent e with
    | Some par =>
        let parent_text := get_text par EmptyString true in
        let label_text :=
          if is_str e then strip (str_of e) else get_text e EmptyString true in
        Returns (strip (Py.delete label_text parent_text))
    | None => Raises (AttributeError "'NoneType' object has no attribute 'get_text'")
    end in
  match or_else (find_parent e "tr") (find_parent e "td") with
  | Some par =>
      if String.eqb (tag_name par) "td" then
        match find_next_sibling par "td" with
        | Some next_cell => Returns (get_text next_cell EmptyString true)
        | None => fallback
        end
      else if String.eqb (tag_name par) "tr" then
        match find_all par (tag "td") with
        | _ :: cell :: _ => Returns (get_text cell EmptyString true)
        | _ => fallback
        end
      else fallback
  | None => fallback
  end.

(** The text of the cell that follows the first [td] whose text matches. *)
Definition cell_after (soup : element) (label : matcher) : option string :=
  match find soup (tag_text "td" label) with
  | Some td =>
      match find_next_sibling td "td" with
      | Some cell => Some (get_text cell EmptyString true)
      | None => None
      end
  | None => None
  end.

(** *** The sell price: three methods in turn *)

(** Method 1: the table row. *)
Definition sell_price_method1 (soup : element) (p : Property.t)
  : outcome Property.t :=
  match cell_after soup (Regex "Sell\s*Price" false) with
  | Some price_text =>
      let p := Property.set_sell_price (Some price_text) p in
      m ← parse_price_to_millions (Some price_text);
      Returns (Property.set_sell_price_millions m p)
  | None => Returns p
  end.

(** Method 2: any text that matches, then the value of its row. *)
Definition sell_price_method2 (soup : element) (p : Property.t)
  : outcome Property.t :=
  if truthy (Property.sell_price p) then Returns p
  else
    match find soup (any_text (Regex "Sell\s*Price" false)) with
    | Some sell_price_elem =>
        price_text ← _extract_value_from_row sell_price_elem;
        if truthy (Some price_text) then
          let p := Property.set_sell_price (Some price_text) p in
          m ← parse_price_to_millions (Some price_text);
          Returns (Property.set_sell_price_millions m p)
        else Returns p
    | None => Returns p
    end.

Definition price_patterns : list string :=
  ["Sell\s*(?:Price:?\s*)?HKD\$?([\d.,]+\s*(?:M|Million|Millions))";
   "Price[:\s]+HKD\$?([\d.,]+\s*(?:M|Million|Millions))";
   "HKD\$?([\d.,]+\s*(?:M|Million|Millions))"].

Fixpoint first_price_match (patterns : list string) (page_text : string)
  : option string :=
  match patterns with
  | pattern :: rest =>
      match re.search pattern true page_text with
      | Some g1 => Some g1
      | None => first_price_match rest page_text
      end
  | [] => None
  end.

(** Method 3: a price anywhere in the text of the page. *)
Definition sell_price_method3 (soup : element) (p : Property.t)
  : outcome Property.t :=
  if truthy (Property.sell_price p) then Returns p
  else
    let page_text := get_text soup EmptyString false in
    match first_price_match price_patterns page_text with
    | Some g1 =>
        let p := Property.set_sell_price (Some ("HKD$" ++ g1)) p in
        m ← parse_price_to_millions (Some g1);
        Returns (Property.set_sell_price_millions m p)
    | None => Returns p
    end.

Definition extract_sell_price (soup : element) (p : Property.t)
  : outcome Property.t :=
  p ← sell_price_method1 soup p;
  p ← sell_price_method2 soup p;
  sell_price_method3 soup p.

(** *** The other fields of a property page *)

(** [Property(url=url, property_id=...)]: every other field at its default. *)
Definition new_property (url property_id : string) : Property.t :=
  {| Property.url := url; Property.property_id := property_id;
     Property.location_breadcrumb := None; Property.estate_name := None;
     Property.full_address := None; Property.block_unit := None;
     Property.floor_info := None; Property.sell_price := None;
     Property.sell_price_millions := None; Property.valuation := None;
     Property.valuation_millions := None; Property.gross_area_sqft := None;
     Property.gross_area_unit_price := None;
     Property.saleable_area_sqft := None;
     Property.saleable_area_unit_price := None;
     Property.building_age_years := None; Property.bedrooms := None;
     Property.bathrooms := None; Property.pri_school_net := None;
     Property.sec_school_net := None; Property.transactions := [];
     Property.scraped_at := now |}.

(** The breadcrumb, the estate row as a fallback, the address. *)
Definition extract_location (soup : element) (p : Property.t) : Property.t :=
  let '(location_breadcrumb, estate_from_breadcrumb) :=
    extract_breadcrumb_location soup in
  let p := Property.set_location_breadcrumb location_breadcrumb p in
  let p := if truthy estate_from_breadcrumb
           then Property.set_estate_name estate_from_breadcrumb p else p in
  let p :=
    match find soup (tag_text "td" (Regex "Estate" false)) with
    | Some estate_row =>
        if truthy (Property.estate_name p) then p
        else
          match find_next_sibling estate_row "td" with
          | Some estate_info =>
              let estate_text := get_text estate_info EmptyString true in
              let p :=
                match re.search
                        "^([^New][^Hong][^Kowloon]+?)(?:New Territories|Hong Kong|Kowloon|$)"
                        false estate_text with
                | Some g1 => Property.set_estate_name (Some (strip g1)) p
                | None => p
                end in
              match re.search "Block.*?:?\s*([A-Z0-9]+)" false estate_text with
              | Some g1 => Property.set_block_unit (Some ("Block " ++ g1)) p
              | None => p
              end
          | None => p
          end
    | None => p
    end in
  match cell_after soup (Equals "Address") with
  | Some address => Property.set_full_address (Some address) p
  | None => p
  end.

Definition extract_valuation (soup : element) (p : Property.t)
  : outcome Property.t :=
  match find soup (tag_text "td" (Regex "Valuation" false)) with
  | Some valuation_td =>
      match find_next_sibling valuation_td "td" with
      | Some val_cell =>
          let val_text := get_text val_cell EmptyString true in
          let p := Property.set_valuation (Some val_text) p in
          m ← parse_price_to_millions (Some val_text);
          Returns (Property.set_valuation_millions m p)
      | None => Returns p
      end
  | None =>
      match find soup (any_text (Regex "Valuation" false)) with
      | Some valuation_elem =>
          val_text ← _extract_value_from_row valuation_elem;
          if truthy (Some val_text) then
            let p := Property.set_valuation (Some val_text) p in
            m ← parse_price_to_millions (Some val_text);
            Returns (Property.set_valuation_millions m p)
          else Returns p
      | None => Returns p
      end
  end.

(** [int(m.group(1))] into a field, when [pattern] matches [text]. *)
Definition int_field {R} (pattern text : string) (clean : string -> string)
    (set : option Z -> R -> R) (r : R) : outcome R :=
  match re.search pattern false text with
  | Some g1 => n ← int_of_str (clean g1); Returns (set (Some n) r)
  | None => Returns r
  end.

(** An area row: the square feet and the unit price after [@]; the same
    code serves the gross and the saleable area. *)
Definition extract_area (soup : element) (label : string)
    (set_sqft set_unit_price : option Z -> Property.t -> Property.t)
    (p : Property.t) : outcome Property.t :=
  match cell_after soup (Regex label false) with
  | Some area_text =>
      p ← int_field "(\d+)\s*ft²" area_text id set_sqft p;
      int_field "@\s*([\d,]+)" area_text (Py.delete ",") set_unit_price p
  | None => Returns p
  end.

Definition extract_building_age (soup : element) (p : Property.t)
  : outcome Property.t :=
  match cell_after soup (Regex "Building age" false) with
  | Some age_text =>
      int_field "(\d+)\s*Year" age_text id Property.set_building_age_years p
  | None => Returns p
  end.

Definition extract_rooms (soup : element) (p : Property.t)
  : outcome Property.t :=
  match cell_after soup (Regex "Room and Bathroom" false) with
  | Some rooms_text =>
      p ← int_field "(\d+)\s*Bedroom" rooms_text id Property.set_bedrooms p;
      int_field "(\d+)\s*Bathroom" rooms_text id Property.set_bathrooms p
  | None => Returns p
  end.

(** A field that takes the text of the cell after its label as it is. *)
Definition text_field {R} (soup : element) (label : matcher)
    (set : option string -> R -> R) (r : R) : R :=
  match cell_after soup label with
  | Some text => set (Some text) r
  | None => r
  end.

Definition transaction_links (soup : element) (url : string)
  : outcome (list string) :=
  mapM (fun link => urljoin url (attr link "href"))
    (find_all soup (tag_attr "a" "href" (Regex "/transaction/deal-\d+" false))).

Definition parse_property_page (html url : string)
  : outcome (Property.t * list string) :=
  let soup := BeautifulSoup html in
  let property_obj := new_property url (extract_property_id url) in
  let property_obj := extract_location soup property_obj in
  property_obj ← extract_sell_price soup property_obj;
  property_obj ← extract_valuation soup property_obj;
  property_obj ← extract_area soup "Gross Area" Property.set_gross_area_sqft
                   Property.set_gross_area_unit_price property_obj;
  property_obj ← extract_area soup "Saleable Area" Property.set_saleable_area_sqft
                   Property.set_saleable_area_unit_price property_obj;
  property_obj ← extract_building_age soup property_obj;
  let property_obj :=
    text_field soup (Regex "Floor zone" false) Property.set_floor_info property_obj in
  property_obj ← extract_rooms soup property_obj;
  let property_obj :=
    text_field soup (Regex "Pri School Net" false) Property.set_pri_school_net
      property_obj in
  let property_obj :=
    text_field soup (Regex "Sec School Net" false) Property.set_sec_school_net
      property_obj in
  transaction_urls ← transaction_links soup url;
  Returns (property_obj, transaction_urls).

(** *** A transaction page *)

Definition keywords : list string :=
  ["Flat"; "Block"; "Floor"; "Low"; "Mid"; "High"].

(** The header, split at the commas: the estate first, then the parts that
    name a flat, a block or a floor. *)
Definition extract_header (soup : element) (t : Transaction.t) : Transaction.t :=
  match or_else (find soup (tag "h1"))
                (find soup (tag_attr "div" "class" (Equals "property-title"))) with
  | Some header =>
      let full_name := get_text header EmptyString true in
      let t := Transaction.set_property_full_name full_name t in
      match Py.split "," full_name with
      | first :: rest =>
          let t := Transaction.set_estate_name (strip first) t in
          match rest with
          | _ :: _ =>
              let flat_parts :=
                List.filter (fun part => existsb (fun keyword => contains keyword part) keywords)
                            (List.map strip rest) in
              Transaction.set_flat_info (join ", " flat_parts) t
          | [] => t
          end
      | [] => t
      end
  | None => t
  end.

Definition extract_transaction_location (soup : element) (t : Transaction.t)
  : outcome Transaction.t :=
  match find soup (tag_text "td" (Regex "Address|Location" false)) with
  | Some address_td =>
      match find_next_sibling address_td "td" with
      | Some location_cell =>
          Returns (Transaction.set_location (get_text location_cell EmptyString true) t)
      | None => Returns t
      end
  | None =>
      match find soup (any_text (Regex "Address|Location" false)) with
      | Some address_elem =>
          location_text ← _extract_value_from_row address_elem;
          if truthy (Some location_text)
          then Returns (Transaction.set_location location_text t)
          else Returns t
      | None => Returns t
      end
  end.

Definition extract_sold_price (soup : element) (t : Transaction.t)
  : outcome Transaction.t :=
  match find soup (tag_text "td" (Regex "Sold Price" false)) with
  | Some sold_price_td =>
      match find_next_sibling sold_price_td "td" with
      | Some price_cell =>
          let price_text := get_text price_cell EmptyString true in
          let t := Transaction.set_sold_price (Some price_text) t in
          m ← parse_price_to_millions (Some price_text);
          Returns (Transaction.set_sold_price_millions m t)
      | None => Returns t
      end
  | None =>
      match find soup (any_text (Regex "Sold Price" false)) with
      | Some sold_price_elem =>
          price_text ← _extract_value_from_row sold_price_elem;
          if truthy (Some price_text) then
            let t := Transaction.set_sold_price (Some price_text) t in
            m ← parse_price_to_millions (Some price_text);
            Returns (Transaction.set_sold_price_millions m t)
          else Returns t
      | None => Returns t
      end
  end.

Definition extract_transaction_area (soup : element) (label : string)
    (set_sqft : option Z -> Transaction.t -> Transaction.t)
    (t : Transaction.t) : outcome Transaction.t :=
  match cell_after soup (Regex label false) with
  | Some area_text => int_field "(\d+)\s*ft²" area_text id set_sqft t
  | None => Returns t
  end.

(** The two unit prices; the plain one only when its cell is not the cell
    of the building unit price. *)
Definition extract_unit_prices (soup : element) (t : Transaction.t)
  : Transaction.t :=
  let building_price_td :=
    find soup (tag_text "td" (Regex "Building Unit Price" false)) in
  let t :=
    match building_price_td with
    | Some td =>
        match find_next_sibling td "td" with
        | Some price_cell =>
            Transaction.set_building_unit_price
              (Some (get_text price_cell EmptyString true)) t
        | None => t
        end
    | None => t
    end in
  match find soup (tag_text "td" (Regex "^Unit Price" false)) with
  | Some unit_price_td =>
      let same := match building_price_td with
                  | Some td => eqb unit_price_td td
                  | None => false
                  end in
      if same then t
      else
        match find_next_sibling unit_price_td "td" with
        | Some price_cell =>
            Transaction.set_unit_price (Some (get_text price_cell EmptyString true)) t
        | None => t
        end
  | None => t
  end.

Definition extract_bedrooms (soup : element) (t : Transaction.t)
  : outcome Transaction.t :=
  match cell_after soup (Regex "Bedroom" false) with
  | Some bedroom_text =>
      int_field "(\d+)" bedroom_text id Transaction.set_bedrooms t
  | None => Returns t
  end.

Definition new_transaction (url : string) : Transaction.t :=
  {| Transaction.property_full_name := EmptyString;
     Transaction.estate_name := EmptyString;
     Transaction.flat_info := EmptyString;
     Transaction.location := EmptyString;
     Transaction.sold_price := None; Transaction.sold_price_millions := None;
     Transaction.registry_date := None; Transaction.gross_area_sqft := None;
     Transaction.saleable_area_sqft := None;
     Transaction.building_unit_price := None; Transaction.unit_price := None;
     Transaction.bedrooms := None; Transaction.transaction_format := None;
     Transaction.url := Some url |}.

Definition parse_transaction_page (html url : string) : outcome Transaction.t :=
  let soup := BeautifulSoup html in
  let transaction := new_transaction url in
  let transaction := extract_header soup transaction in
  transaction ← extract_transaction_location soup transaction;
  transaction ← extract_sold_price soup transaction;
  let transaction :=
    text_field soup (Regex "Registry Date" false) Transaction.set_registry_date
      transaction in
  transaction ← extract_transaction_area soup "Gross area"
                  Transaction.set_gross_area_sqft transaction;
  transaction ← extract_transaction_area soup "Saleable area"
                  Transaction.set_saleable_area_sqft transaction;
  let transaction := extract_unit_prices soup transaction in
  transaction ← extract_bedrooms soup transaction;
  Returns (text_field soup (Regex "Transaction Format" false)
             Transaction.set_transaction_format transaction).

End Parser.

(** ** The crawl *)

(** The settings of a scraper, as [__init__] stores them. *)
Record config : Type := {
  use_selenium : bool;
  max_concurrent : Z;
  delay : float;
  verify_ssl : bool;
  proxy : option string;
  timeout : Z;
}.

(** What a crawl does to the outside, in the order it does it. *)
Inductive event : Type :=
| EvFetch (url : string)
| EvSleep (seconds : float).

Section Crawl.
Context `{bs4.api} `{re.api}.
Variable urljoin : string -> string -> outcome string.
Variable now : string.
(** The two fetchers.  Each catches every error of the transport and of the
    status line and returns [None] for it; the network is a function from
    the address to what comes back. *)
Variable fetch_page : string -> option string.
Variable fetch_page_selenium : string -> option string.
Variable self : config.

Import bs4.

Definition fetch (url : string) : option string :=
  if use_selenium self then fetch_page_selenium url else fetch_page url.

(** [range(lo, hi)] *)
Definition range (lo hi : Z) : list Z :=
  List.map (fun k => lo + Z.of_nat k) (List.seq 0 (Z.to_nat (hi - lo))).

(** [l[:k]], where a negative [k] counts from the end *)
Definition slice_to {A} (k : Z) (l : list A) : list A :=
  if 0 <=? k then take (Z.to_nat k) l
  else take (length l - Z.to_nat (- k)) l.

Definition page_url (base_url : string) (page : Z) : string :=
  if 1 <? page then base_url ++ "?page=" ++ str_of_int page else base_url.

(** [if full_url not in property_urls: property_urls.append(full_url)] *)
Definition add_url (property_urls : list string) (full_url : string)
  : list string :=
  if existsb (String.eqb full_url) property_urls then property_urls
  else (property_urls ++ [full_url])%list.

(** The loop over the links of one listing page; [urljoin] may raise, and
    the loop ends there. *)
Fixpoint add_links (base_url : string) (property_links : list element)
    (property_urls : list string) : outcome (list string) :=
  match property_links with
  | link :: rest =>
      full_url ← urljoin base_url (attr link "href");
      add_links base_url rest (add_url property_urls full_url)
  | [] => Returns property_urls
  end.

(** The loop over the listing pages: the addresses found so far, and what
    has been done to the outside, up to the end or to the exception. *)
Fixpoint listing_pages (base_url : string) (pages : list Z)
    (property_urls : list string) (trace : list event)
  : outcome (list string) * list event :=
  match pages with
  | page :: rest =>
      let url := page_url base_url page in
      let trace := (trace ++ [EvFetch url])%list in
      match fetch url with
      | Some (String _ _ as html) =>
          let soup := BeautifulSoup html in
          let property_links :=
            find_all soup (tag_attr "a" "href" (Regex "/property-\d+" false)) in
          match add_links base_url property_links property_urls with
          | Returns property_urls =>
              listing_pages base_url rest property_urls
                (trace ++ [EvSleep (delay self)])%list
          | Raises e => (Raises e, trace)
          end
      | _ => listing_pages base_url rest property_urls trace
      end
  | [] => (Returns property_urls, trace)
  end.

(** The addresses found, or the exception, and what was done to find them. *)
Definition scrape_property_listings_traced (base_url : string) (max_pages : Z)
  : outcome (list string) * list event :=
  listing_pages base_url (range 1 (max_pages + 1)) [] [].

Definition scrape_property_listings (base_url : string) (max_pages : Z)
  : outcome (list string) :=
  fst (scrape_property_listings_traced base_url max_pages).

(** [property_obj.transactions.append(transaction)] *)
Definition append_transaction (transaction : Transaction.t)
    (property_obj : Property.t) : Property.t :=
  Property.set_transactions
    (Property.transactions property_obj ++ [transaction])%list property_obj.

(** The loop over the transaction pages of one property. *)
Fixpoint scrape_transactions (property_obj : Property.t)
    (transaction_urls : list string) : outcome Property.t :=
  match transaction_urls with
  | trans_url :: rest =>
      match fetch trans_url with
      | Some (String _ _ as trans_html) =>
          transaction ← parse_transaction_page trans_html trans_url;
          scrape_transactions (append_transaction transaction property_obj) rest
      | _ => scrape_transactions property_obj rest
      end
  | [] => Returns property_obj
  end.

(** One property and its transactions, as the task runs from its first
    line to its [return]. *)
Definition scrape_property (url : string) : outcome (option Property.t) :=
  match fetch url with
  | Some (String _ _ as html) =>
      '(property_obj, transaction_urls) ← parse_property_page urljoin now html url;
      property_obj ← scrape_transactions property_obj (take 5 transaction_urls);
      Returns (Some property_obj)
  | _ => Returns None
  end.

(** *** The tasks of [scrape_all]

    [scrape_all] makes one task for each address and awaits them together;
    a task passes the semaphore, runs [scrape_property] and returns.  A task
    can be overtaken by another one only where it awaits: at the semaphore,
    at a fetch, at the pause before a transaction page.  The states of a
    task are the places where it may be waiting.  (With the fetcher that
    blocks, a task does not wait at a fetch; its runs are among the runs
    described here.) *)

Inductive task : Type :=
| Pending (url : string)
| Fetching (url : string)
| ChildDelay (property_obj : Property.t) (trans_url : string) (rest : list string)
| ChildFetching (property_obj : Property.t) (trans_url : string) (rest : list string)
| Finished (result : outcome (option Property.t)).

(** A task is in flight from the moment it has passed the semaphore until
    it returns. *)
Definition in_flight (t : task) : bool :=
  match t with
  | Fetching _ | ChildDelay _ _ _ | ChildFetching _ _ _ => true
  | Pending _ | Finished _ => false
  end.

Definition finished (t : task) : bool :=
  match t with
  | Finished _ => true
  | _ => false
  end.

(** The head of the loop over the transaction pages. *)
Definition next_child (property_obj : Property.t) (todo : list string) : task :=
  match todo with
  | trans_url :: rest => ChildDelay property_obj trans_url rest
  | [] => Finished (Returns (Some property_obj))
  end.

(** A task in flight, taken from where it waits to where it waits next. *)
Definition resume (t : task) : task :=
  match t with
  | Fetching url =>
      match fetch url with
      | Some (String _ _ as html) =>
          match parse_property_page urljoin now html url with
          | Returns (property_obj, transaction_urls) =>
              next_child property_obj (take 5 transaction_urls)
          | Raises e => Finished (Raises e)
          end
      | _ => Finished (Returns None)
      end
  | ChildDelay property_obj trans_url rest =>
      ChildFetching property_obj trans_url rest
  | ChildFetching property_obj trans_url rest =>
      match fetch trans_url with
      | Some (String _ _ as trans_html) =>
          match parse_transaction_page trans_html trans_url with
          | Returns transaction =>
              next_child (append_transaction transaction property_obj) rest
          | Raises e => Finished (Raises e)
          end
      | _ => next_child property_obj rest
      end
  | Pending _ | Finished _ => t
  end.

(** The crawl while the tasks run: the free places of the semaphore, the
    tasks in the order of their addresses, the first exception that a task
    has raised. *)
Record crawl : Type := {
  permits : Z;
  tasks : list task;
  raised : option exn;
}.

(** Task [i] runs until it waits again: a pending task needs a free place
    of the semaphore and takes it, a task that returns gives its place
    back; a finished task does not run. *)
Definition advance (i : nat) (s : crawl) : option crawl :=
  match tasks s !! i with
  | Some (Pending url) =>
      if 0 <? permits s
      then Some {| permits := permits s - 1;
                   tasks := <[i := Fetching url]> (tasks s);
                   raised := raised s |}
      else None
  | Some (Finished _) | None => None
  | Some t =>
      let t' := resume t in
      Some {| permits := if in_flight t' then permits s else permits s + 1;
              tasks := <[i := t']> (tasks s);
              raised := match raised s, t' with
                        | None, Finished (Raises e) => Some e
                        | r, _ => r
                        end |}
  end.

Definition step (s s' : crawl) : Prop := exists i, advance i s = Some s'.

(** [asyncio.Semaphore(self.max_concurrent)] and one task for each address *)
Definition start (property_urls : list string) : crawl :=
  {| permits := max_concurrent self;
     tasks := List.map Pending property_urls;
     raised := None |}.

Definition reachable (property_urls : list string) (s : crawl) : Prop :=
  rtc step (start property_urls) s.

Definition complete (s : crawl) : Prop := Forall (fun t => finished t = true) (tasks s).

(** The number of tasks in flight. *)
Definition flying (s : crawl) : nat := length (List.filter in_flight (tasks s)).

(** The tasks run in the order of a schedule; an entry that names a task
    which cannot run is passed over. *)
Fixpoint run (schedule : list nat) (s : crawl) : crawl :=
  match schedule with
  | i :: rest => run rest (default s (advance i s))
  | [] => s
  end.

(** [[p for p in results if p is not None]] *)
Definition keep_found (results : list (option Property.t)) : list Property.t :=
  omap id results.

(** What awaiting [asyncio.gather] on the tasks and the line after it give, once
    every task has returned or one has raised. *)
Definition gathered (s : crawl) : option (outcome (list Property.t)) :=
  match raised s with
  | Some e => Some (Raises e)
  | None =>
      results ← mapM (fun t => match t with
                               | Finished (Returns r) => Some r
                               | _ => None
                               end) (tasks s);
      Some (Returns (keep_found results))
  end.

(** [scrape_all], the tasks being resumed in the order of [schedule].  The
    listing may raise; a negative capacity makes the semaphore raise.  The
    call returns once every task has returned, and raises as soon as one
    task has raised, with the exception of the first that did; [None] when
    the schedule ends before that, as it must when the capacity is zero
    and there is a task. *)
Definition scrape_all (schedule : list nat) (base_url : string)
    (max_pages max_properties : Z) : option (outcome (list Property.t)) :=
  match scrape_property_listings base_url max_pages with
  | Returns property_urls =>
      let property_urls := slice_to max_properties property_urls in
      if max_concurrent self <? 0
      then Some (Raises (ValueError "Semaphore initial value must be >= 0"))
      else gathered (run schedule (start property_urls))
  | Raises e => Some (Raises e)
  end.

(** *** What is said of a crawl *)

(** An address is fetched when the fetcher gives a page that is not empty. *)
Definition fetched (url : string) : bool := truthy (fetch url).


(** The links to property pages on one listing page, in document order,
    each joined to the address of the listing. *)
Definition listing_links (base_url html : string) : outcome (list string) :=
  mapM (fun link => urljoin base_url (attr link "href"))
    (find_all (BeautifulSoup html) (tag_attr "a" "href" (Regex "/property-\d+" false))).

(** The links of one listing page; none when the page cannot be fetched. *)
Definition links_on (base_url : string) (page : Z) : outcome (list string) :=
  match fetch (page_url base_url page) with
  | Some (String _ _ as html) => listing_links base_url html
  | _ => Returns []
  end.

(** What one listing page adds to the trace: the fetch, and the pause when
    the page has come. *)
Definition page_events (base_url : string) (page : Z) : list event :=
  EvFetch (page_url base_url page)
  :: (if fetched (page_url base_url page) then [EvSleep (delay self)] else []).


(** What a task returns when it is run from where it stands to its end. *)
Definition outcome_of (t : task) : outcome (option Property.t) :=
  match t with
  | Pending url | Fetching url => scrape_property url
  | ChildDelay property_obj trans_url rest
  | ChildFetching property_obj trans_url rest =>
      property_obj ← scrape_transactions property_obj (trans_url :: rest);
      Returns (Some property_obj)
  | Finished result => result
  end.

(** A bound on the number of times a task can still run. *)
Definition work (t : task) : nat :=
  match t with
  | Pending _ => 12
  | Fetching _ => 11
  | ChildDelay _ _ rest => 2 + 2 * length rest
  | ChildFetching _ _ rest => 1 + 2 * length rest
  | Finished _ => 0
  end.

Definition total_work (s : crawl) : nat := list_sum (List.map work (tasks s)).

(** The semaphore counts the tasks in flight. *)
Definition gate_holds (s : crawl) : Prop :=
  permits s + Z.of_nat (flying s) = max_concurrent self
  /\ (0 <= max_concurrent self -> 0 <= permits s).

(** The first exception is that of a task which has raised it; while there
    is none, no task has raised. *)
Definition raised_ok (s : crawl) : Prop :=
  match raised s with
  | Some e => Finished (Raises e) ∈ tasks s
  | None => Forall (fun t => forall e, t <> Finished (Raises e)) (tasks s)
  end.

End Crawl.

(** ** The result sink *)

(** The values that [asdict] puts into a dictionary. *)
#[warnings="-register-all"]
Inductive value : Type :=
| VNone
| VStr (s : string)
| VInt (n : Z)
| VFloat (x : float)
| VList (items : list value)
| VDict (entries : list (string * value)).

(** A [dict] with its keys in the order of insertion. *)
Definition dict : Type := list (string * value).

Definition get (key : string) (d : dict) : option value :=
  snd <$> List.find (fun kv => String.eqb (fst kv) key) d.

(** [d.pop(key, None)] *)
Definition pop (key : string) (d : dict) : dict :=
  List.filter (fun kv => negb (String.eqb (fst kv) key)) d.

(** [d[key] = v] *)
Fixpoint set (key : string) (v : value) (d : dict) : dict :=
  match d with
  | (k, w) :: rest =>
      if String.eqb k key then (k, v) :: rest else (k, w) :: set key v rest
  | [] => [(key, v)]
  end.

Definition opt {A} (f : A -> value) (x : option A) : value :=
  match x with
  | Some a => f a
  | None => VNone
  end.

(** [asdict] of a transaction *)
Definition asdict_transaction (t : Transaction.t) : dict :=
  [("property_full_name", VStr (Transaction.property_full_name t));
   ("estate_name", VStr (Transaction.estate_name t));
   ("flat_info", VStr (Transaction.flat_info t));
   ("location", VStr (Transaction.location t));
   ("sold_price", opt VStr (Transaction.sold_price t));
   ("sold_price_millions", opt VFloat (Transaction.sold_price_millions t));
   ("registry_date", opt VStr (Transaction.registry_date t));
   ("gross_area_sqft", opt VInt (Transaction.gross_area_sqft t));
   ("saleable_area_sqft", opt VInt (Transaction.saleable_area_sqft t));
   ("building_unit_price", opt VStr (Transaction.building_unit_price t));
   ("unit_price", opt VStr (Transaction.unit_price t));
   ("bedrooms", opt VInt (Transaction.bedrooms t));
   ("transaction_format", opt VStr (Transaction.transaction_format t));
   ("url", opt VStr (Transaction.url t))].

(** [asdict] of a property, the transactions within it *)
Definition asdict (p : Property.t) : dict :=
  [("url", VStr (Property.url p));
   ("property_id", VStr (Property.property_id p));
   ("location_breadcrumb", opt VStr (Property.location_breadcrumb p));
   ("estate_name", opt VStr (Property.estate_name p));
   ("full_address", opt VStr (Property.full_address p));
   ("block_unit", opt VStr (Property.block_unit p));
   ("floor_info", opt VStr (Property.floor_info p));
   ("sell_price", opt VStr (Property.sell_price p));
   ("sell_price_millions", opt VFloat (Property.sell_price_millions p));
   ("valuation", opt VStr (Property.valuation p));
   ("valuation_millions", opt VFloat (Property.valuation_millions p));
   ("gross_area_sqft", opt VInt (Property.gross_area_sqft p));
   ("gross_area_unit_price", opt VInt (Property.gross_area_unit_price p));
   ("saleable_area_sqft", opt VInt (Property.saleable_area_sqft p));
   ("saleable_area_unit_price", opt VInt (Property.saleable_area_unit_price p));
   ("building_age_years", opt VInt (Property.building_age_years p));
   ("bedrooms", opt VInt (Property.bedrooms p));
   ("bathrooms", opt VInt (Property.bathrooms p));
   ("pri_school_net", opt VStr (Property.pri_school_net p));
   ("sec_school_net", opt VStr (Property.sec_school_net p));
   ("transactions",
     VList (List.map (fun t => VDict (asdict_transaction t)) (Property.transactions p)));
   ("scraped_at", VStr (Property.scraped_at p))].

(** What a file is given to hold: the document of [json.dump], or the rows
    of the [DataFrame] that [to_csv] writes, one dictionary for each row. *)
Inductive content : Type :=
| Json (document : value)
| Csv (rows : list dict).

(** The files written, in the order of the writes. *)
Definition writes : Type := list (string * content).

(** [save_to_json]; [now] is the time of the call. *)
Definition save_to_json (now : string) (properties : list Property.t)
    (filename : string) : writes :=
  let data :=
    VDict [("scraped_at", VStr now);
           ("total_properties", VInt (Z.of_nat (length properties)));
           ("properties", VList (List.map (fun p => VDict (asdict p)) properties))] in
  [(filename, Json data)].

Definition properties_data (properties : list Property.t) : list dict :=
  List.map (fun prop => pop "transactions" (asdict prop)) properties.

Definition transactions_data (properties : list Property.t) : list dict :=
  List.flat_map
    (fun prop =>
       List.map (fun trans =>
                   set "property_url" (VStr (Property.url prop))
                     (set "property_id" (VStr (Property.property_id prop))
                        (asdict_transaction trans)))
                (Property.transactions prop))
    properties.

(** [if rows: pd.DataFrame(rows).to_csv(file, ...)] *)
Definition write_rows (file : string) (rows : list dict) : writes :=
  match rows with
  | _ :: _ => [(file, Csv rows)]
  | [] => []
  end.

Definition save_to_csv (properties : list Property.t)
    (properties_file transactions_file : string) : writes :=
  (write_rows properties_file (properties_data properties)
   ++ write_rows transactions_file (transactions_data properties))%list.

(** *** What is said of the tables *)

(** A row of the child table refers to a row of the parent table when its
    two foreign keys are the identifier and the address of that row. *)
Definition refers_to (child parent : dict) : Prop :=
  get "property_id" child = get "property_id" parent
  /\ get "property_url" child = get "url" parent.

(** Row [j] of [parents] is the one row that [child] refers to. *)
Definition only_parent (parents : list dict) (child : dict) (j : nat) : Prop :=
  (exists parent, parents !! j = Some parent /\ refers_to child parent)
  /\ forall (j' : nat) parent',
       parents !! j' = Some parent' -> refers_to child parent' -> j' = j.

(** C8 as the specification has it, for one list of records. *)
Definition tables_round_trip (properties : list Property.t) : Prop :=
  let parents := properties_data properties in
  let children := transactions_data properties in
  length parents = length properties
  /\ Forall (fun row => get "transactions" row = None) parents
  /\ length children
     = list_sum (List.map (fun p => length (Property.transactions p)) properties)
  /\ Forall (fun child => exists j, only_parent parents child j) children.

End PropertyScraper.

(** ** A small site

    An implementation of the two interfaces over pages that are given by
    what the queries find in them: the rows of the table, the text outside
    it, the links.  It serves to run the scraper on examples. *)

Module Site.
Import Py PropertyScraper.

Record page : Type := {
  (** the text of the breadcrumb *)
  crumbs : option string;
  (** the text of the header *)
  header : option string;
  (** the rows of the table: the label and the text of the next cell *)
  cells : list (string * string);
  (** a label outside the table and the text that follows it *)
  loose : list (string * string);
  (** the links, in document order *)
  hrefs : list string;
}.

Inductive node : Type :=
| Doc (pg : page)
| Row (label text : string)
| Td (label text : string)
| Cell (text : string)
| Para (label text : string)
| Str (in_table : bool) (label text : string)
| Anchor (href : string).

Definition squeeze (s : string) : string := Py.delete " " (Py.delete "\s*" s).

(** A pattern is matched as the text it spells, white space apart. *)
Definition matches (m : matcher) (text : string) : bool :=
  match m with
  | Equals s => String.eqb s text
  | Regex pattern _ => contains (squeeze pattern) (squeeze text)
  end.

Definition page_text (pg : page) : string :=
  join " " (List.map (fun kv => fst kv ++ " " ++ snd kv) (cells pg ++ loose pg)).

Definition find (e : node) (q : query) : option node :=
  match e, by_name q, by_attr q, by_text q with
  | Doc pg, Some "td", None, Some m =>
      (fun kv => Td (fst kv) (snd kv))
        <$> List.find (fun kv => matches m (fst kv)) (cells pg)
  | Doc pg, None, None, Some m =>
      match List.find (fun kv => matches m (fst kv)) (cells pg) with
      | Some kv => Some (Str true (fst kv) (snd kv))
      | None => (fun kv => Str false (fst kv) (snd kv))
                  <$> List.find (fun kv => matches m (fst kv)) (loose pg)
      end
  | Doc pg, Some "h1", None, None => Cell <$> header pg
  | Doc pg, Some "div", Some ("class", Equals "c_breadcrumb"), None =>
      Cell <$> crumbs pg
  | _, _, _, _ => None
  end.

Definition find_all (e : node) (q : query) : list node :=
  match e, by_name q, by_attr q with
  | Doc pg, Some "a", Some ("href", Regex pattern _) =>
      Anchor <$> List.filter (contains (Py.delete "\d+" pattern)) (hrefs pg)
  | Row label text, Some "td", None => [Td label text; Cell text]
  | _, _, _ => []
  end.

Definition find_next_sibling (e : node) (name : string) : option node :=
  match e, name with
  | Td _ text, "td" => Some (Cell text)
  | _, _ => None
  end.

Definition parent (e : node) : option node :=
  match e with
  | Str true label text => Some (Td label text)
  | Str false label text => Some (Para label text)
  | _ => None
  end.

Definition find_parent (e : node) (name : string) : option node :=
  match e, name with
  | Str true label text, "tr" => Some (Row label text)
  | Str true label text, "td" => Some (Td label text)
  | _, _ => None
  end.

Definition tag_name (e : node) : string :=
  match e with
  | Doc _ => "[document]"
  | Row _ _ => "tr"
  | Td _ _ | Cell _ => "td"
  | Para _ _ => "p"
  | Str _ _ _ => EmptyString
  | Anchor _ => "a"
  end.

Definition get_text (e : node) (sep : string) (strip_parts : bool) : string :=
  match e with
  | Doc pg => page_text pg
  | Row label text | Para label text => label ++ sep ++ text
  | Td label _ | Str _ label _ => label
  | Cell text => text
  | Anchor _ => EmptyString
  end.

Definition attr (e : node) (key : string) : string :=
  match e with
  | Anchor href => href
  | _ => EmptyString
  end.

Definition is_str (e : node) : bool :=
  match e with
  | Str _ _ _ => true
  | _ => false
  end.

Definition str_of (e : node) : string :=
  match e with
  | Str _ label _ => label
  | _ => EmptyString
  end.

Definition eqb (a b : node) : bool :=
  match a, b with
  | Td l t, Td l' t' => String.eqb l l' && String.eqb t t'
  | Cell t, Cell t' => String.eqb t t'
  | _, _ => false
  end.

(** The text that follows the first occurrence of [marker]. *)
Fixpoint after (marker s : string) : option string :=
  if String.prefix marker s
  then Some (String.substring (String.length marker)
               (String.length s - String.length marker) s)
  else match s with
       | String _ r => after marker r
       | EmptyString => None
       end.

(** Of the patterns, the ones that this site answers: the number of a
    property in its address, and a price in millions after [HKD$]. *)
Definition search (pattern : string) (ignorecase : bool) (s : string)
  : option string :=
  if String.eqb pattern "property-(\d+)" then
    match after "property-" s with
    | Some r =>
        match span isdigit r with
        | (String _ _ as g1, _) => Some g1
        | _ => None
        end
    | None => None
    end
  else if String.eqb pattern "HKD\$?([\d.,]+\s*(?:M|Million|Millions))" then
    match after "HKD$" s with
    | Some r =>
        match span (fun c => is_num_char c || Ascii.eqb c ",") r with
        | (String _ _ as g, String "M" _) => Some (g ++ "M")
        | _ => None
        end
    | None => None
    end
  else None.

(** The pages of the site, each under the markup that stands for it. *)
Definition empty_page : page :=
  {| crumbs := None; header := None; cells := []; loose := []; hrefs := [] |}.

Definition deal_page : page :=
  {| crumbs := None;
     header := Some "City One Shatin, Flat H, Low, Block 30";
     cells := [("Sold Price", "HKD$4.5M"); ("Registry Date", "2024-01-15")];
     loose := []; hrefs := [] |}.

Definition pages : list (string * page) :=
  [("<listing 1>",
    {| crumbs := None; header := None; cells := []; loose := [];
       hrefs := ["/about"] |});
   ("<listing 2>",
    {| crumbs := None; header := None; cells := []; loose := [];
       hrefs := ["/property-101"; "/property-102"; "/property-101";
                 "/property-103"; "/property-104"] |});
   ("<property 101>",
    {| crumbs := Some "Home / Islands / Tung Chung / Seaview Crescent";
       header := None;
       cells := [("Sell Price", "HKD$5.8M"); ("Valuation", "6000000")];
       loose := [("Price:", "HKD$9.9M")];
       hrefs := ["/transaction/deal-1"; "/transaction/deal-2";
                 "/transaction/deal-3"; "/transaction/deal-4";
                 "/transaction/deal-5"; "/transaction/deal-6";
                 "/transaction/deal-7"] |});
   ("<property 103>",
    {| crumbs := None; header := None; cells := [];
       loose := [("Sell Price", "HKD$4.2M")]; hrefs := [] |});
   ("<property 104>",
    {| crumbs := None; header := None; cells := [("Sell Price", "N.A.")];
       loose := []; hrefs := [] |});
   ("<deal>", deal_page);
   ("<rent 1>",
    {| crumbs := None; header := None; cells := []; loose := [];
       hrefs := ["/property-201"; "/property-202"] |});
   ("<rent 2>",
    {| crumbs := None; header := None; cells := []; loose := [];
       hrefs := ["/property-202"; "/property-203"] |});
   ("<rent 3>",
    {| crumbs := None; header := None; cells := []; loose := [];
       hrefs := ["/property-204"; "//[/property-9"] |})].

Definition lookup {A} (key : string) (table : list (string * A)) : option A :=
  snd <$> List.find (fun kv => String.eqb (fst kv) key) table.

Definition BeautifulSoup (html : string) : node :=
  Doc (default empty_page (lookup html pages)).

#[export] Instance soup : bs4.api :=
  {| bs4.element := node; bs4.BeautifulSoup := BeautifulSoup;
     bs4.find := find; bs4.find_all := find_all;
     bs4.find_next_sibling := find_next_sibling;
     bs4.find_parent := find_parent; bs4.parent := parent;
     bs4.tag_name := tag_name; bs4.get_text := get_text; bs4.attr := attr;
     bs4.is_str := is_str; bs4.str_of := str_of; bs4.eqb := eqb |}.

#[export] Instance regex : re.api :=
  {| re.search := search; re.split := fun _ s => Py.split "/" s |}.

Definition host : string := "https://www.28hse.com".
Definition base_url : string := "https://www.28hse.com/en/buy/residential".

Definition rent_url : string := "https://www.28hse.com/en/rent/residential".

(** [urljoin] for the links of the site, which begin with a slash; it
    refuses, as [urllib] does, a link whose host opens a bracket and does
    not close it. *)
Definition urljoin (base href : string) : outcome string :=
  if String.prefix "//[" href then Raises (ValueError "Invalid IPv6 URL")
  else Returns (host ++ href).

(** What the site serves: the second page of the listing links to four
    properties, the page of property 102 cannot be fetched, and neither can
    the second transaction of property 101. *)
Definition served : list (string * string) :=
  [(base_url, "<listing 1>");
   (base_url ++ "?page=2", "<listing 2>");
   (host ++ "/property-101", "<property 101>");
   (host ++ "/property-103", "<property 103>");
   (host ++ "/property-104", "<property 104>");
   (host ++ "/transaction/deal-1", "<deal>");
   (host ++ "/transaction/deal-3", "<deal>");
   (host ++ "/transaction/deal-4", "<deal>");
   (host ++ "/transaction/deal-5", "<deal>");
   (host ++ "/transaction/deal-6", "<deal>");
   (host ++ "/transaction/deal-7", "<deal>");
   (rent_url, "<rent 1>");
   (rent_url ++ "?page=2", "<rent 2>");
   (rent_url ++ "?page=3", "<rent 3>")].

Definition fetch_page (url : string) : option string := lookup url served.

Definition now : string := "2024-03-01T12:00:00".

Definition settings (k : Z) : config :=
  {| use_selenium := false; max_concurrent := k;
     delay := float_of_int 1; verify_ssl := true; proxy := None;
     timeout := 30 |}.

(** The crawl of the site: the addresses that the listing gives, the first
    three of them, and a schedule that lets the tasks run in turn until
    each has returned. *)
Definition addresses : list string :=
  [host ++ "/property-101"; host ++ "/property-102"; host ++ "/property-103"].

Definition in_turn : list nat :=
  List.concat (List.repeat [0; 1; 2]%nat 14).

Definition crawl_of (k : Z) (schedule : list nat) : crawl :=
  run urljoin now fetch_page fetch_page (settings k) schedule
    (start (settings k) addresses).

(** Two records for the tables: a flat with one transaction, and a house
    with none. *)
Definition flat : Property.t :=
  Property.set_transactions [new_transaction (host ++ "/transaction/deal-1")]
    (new_property now (host ++ "/property-101") "101").

Definition house : Property.t :=
  new_property now (host ++ "/property-103") "103".

End Site.

(** ** The country of a counterparty address

    [extract_country_advanced] of the trade analysis script: five strategies
    in turn over the address in capitals and without punctuation.

    Three things come from outside and are taken as given: [str.upper],
    which outside ASCII may leave the code points below 256; the similarity
    of [difflib.SequenceMatcher]; and the order in which a [set] of strings
    is gone through, which changes from one run of the interpreter to the
    next. *)

Module Country.
Import Py.

Definition country_codes : list (string * string) :=
  [("HK", "Hong Kong"); ("HKG", "Hong Kong"); ("HONG KONG", "Hong Kong");
   ("SG", "Singapore"); ("SGP", "Singapore"); ("SINGAPORE", "Singapore");
   ("CN", "China"); ("CHN", "China"); ("CHINA", "China"); ("PRC", "China");
   ("US", "United States"); ("USA", "United States");
   ("UNITED STATES", "United States"); ("AMERICA", "United States");
   ("UK", "United Kingdom"); ("GBR", "United Kingdom");
   ("UNITED KINGDOM", "United Kingdom"); ("BRITAIN", "United Kingdom");
   ("ENGLAND", "United Kingdom"); ("AE", "United Arab Emirates");
   ("UAE", "United Arab Emirates"); ("EMIRATES", "United Arab Emirates");
   ("JP", "Japan"); ("JPN", "Japan"); ("JAPAN", "Japan"); ("IN", "India");
   ("IND", "India"); ("INDIA", "India"); ("DE", "Germany");
   ("DEU", "Germany"); ("GERMANY", "Germany"); ("FR", "France");
   ("FRA", "France"); ("FRANCE", "France"); ("AU", "Australia");
   ("AUS", "Australia"); ("AUSTRALIA", "Australia"); ("CA", "Canada");
   ("CAN", "Canada"); ("CANADA", "Canada"); ("CH", "Switzerland");
   ("CHE", "Switzerland"); ("SWITZERLAND", "Switzerland");
   ("SWISS", "Switzerland"); ("KR", "South Korea"); ("KOR", "South Korea");
   ("KOREA", "South Korea"); ("SOUTH KOREA", "South Korea");
   ("TW", "Taiwan"); ("TWN", "Taiwan"); ("TAIWAN", "Taiwan");
   ("ROC", "Taiwan"); ("MY", "Malaysia"); ("MYS", "Malaysia");
   ("MALAYSIA", "Malaysia"); ("TH", "Thailand"); ("THA", "Thailand");
   ("THAILAND", "Thailand")].

Definition city_country_map : list (string * string) :=
  [("HONG KONG", "Hong Kong"); ("KOWLOON", "Hong Kong");
   ("CENTRAL", "Hong Kong"); ("SINGAPORE", "Singapore");
   ("JURONG", "Singapore"); ("ORCHARD", "Singapore"); ("SHANGHAI", "China");
   ("BEIJING", "China"); ("SHENZHEN", "China"); ("GUANGZHOU", "China");
   ("NEW YORK", "United States"); ("CHICAGO", "United States");
   ("LOS ANGELES", "United States"); ("BOSTON", "United States");
   ("LONDON", "United Kingdom"); ("MANCHESTER", "United Kingdom");
   ("EDINBURGH", "United Kingdom"); ("DUBAI", "United Arab Emirates");
   ("ABU DHABI", "United Arab Emirates"); ("TOKYO", "Japan");
   ("OSAKA", "Japan"); ("KYOTO", "Japan"); ("MUMBAI", "India");
   ("DELHI", "India"); ("BANGALORE", "India"); ("CHENNAI", "India");
   ("FRANKFURT", "Germany"); ("MUNICH", "Germany"); ("BERLIN", "Germany");
   ("PARIS", "France"); ("LYON", "France"); ("MARSEILLE", "France");
   ("SYDNEY", "Australia"); ("MELBOURNE", "Australia");
   ("BRISBANE", "Australia"); ("TORONTO", "Canada"); ("VANCOUVER", "Canada");
   ("MONTREAL", "Canada"); ("ZURICH", "Switzerland");
   ("GENEVA", "Switzerland"); ("BASEL", "Switzerland");
   ("SEOUL", "South Korea"); ("BUSAN", "South Korea"); ("TAIPEI", "Taiwan");
   ("KAOHSIUNG", "Taiwan"); ("KUALA LUMPUR", "Malaysia"); ("KL", "Malaysia");
   ("PENANG", "Malaysia"); ("BANGKOK", "Thailand"); ("PHUKET", "Thailand")].

Definition branch_patterns : list string :=
  ["BRANCH"; "OPERATIONS"; "OFFICE"; "HEADQUARTERS"; "HQ"].

(** [string.punctuation.replace('-', '')]: the code points 33 to 47, 58 to
    64, 91 to 96 and 123 to 126, the hyphen left out. *)
Definition punctuation (c : ascii) : bool :=
  let n := N_of_ascii c in
  ((33 <=? n) && (n <=? 47) || (58 <=? n) && (n <=? 64)
   || (91 <=? n) && (n <=? 96) || (123 <=? n) && (n <=? 126))%N
  && negb (Ascii.eqb c "-").

(** [s.translate(str.maketrans('', '', deleted))] *)
Fixpoint translate (deleted : ascii -> bool) (s : string) : string :=
  match s with
  | String c r =>
      if deleted c then translate deleted r else String c (translate deleted r)
  | EmptyString => EmptyString
  end.

(** [s.split()]: the runs of characters that are not white space. *)
Fixpoint words (s : string) : list string :=
  match s with
  | String c r =>
      if isspace c then words r
      else
        match r with
        | String d _ =>
            if isspace d then String c EmptyString :: words r
            else
              match words r with
              | w :: ws => String c w :: ws
              | [] => [String c EmptyString]
              end
        | EmptyString => [String c EmptyString]
        end
  | EmptyString => []
  end.

(** [x in l] *)
Definition mem (x : string) (l : list string) : bool :=
  existsb (String.eqb x) l.

(** [l.index(x)], for an [x] that is in [l] *)
Fixpoint index (x : string) (l : list string) : Z :=
  match l with
  | y :: rest => if String.eqb y x then 0 else 1 + index x rest
  | [] => 0
  end.

(** [l[-3:]] *)
Definition last_three {A} (l : list A) : list A := drop (length l - 3) l.

(** A loop that returns from its first turn that finds something. *)
Fixpoint first_of {A B} (f : A -> option B) (l : list A) : option B :=
  match l with
  | a :: rest =>
      match f a with
      | Some b => Some b
      | None => first_of f rest
      end
  | [] => None
  end.

(** The literal [0.8], and [x > y] on floats. *)
Definition point_eight : float := float_of_ratio10 8 1.

Definition float_gt (x y : float) : bool := SFltb y x.

Section Extract.
(** [s.upper()] *)
Variable upper : string -> string.
(** [SequenceMatcher(None, a, b).ratio()] *)
Variable ratio : string -> string -> float.
(** [list(set(country_codes.values()))] *)
Variable countries_list : list string.

(** The address as the strategies see it. *)
Definition clean (address : string) : string :=
  translate punctuation (strip (upper address)).

(** The country of the first key of the table that [word] equals. *)
Definition code_of (word : string) : option string :=
  snd <$> List.find (fun kv => String.eqb word (fst kv)) country_codes.

(** Strategy 1: the first key of the table that is a word of the address. *)
Definition strategy1 (address_clean : string) : option string :=
  snd <$> List.find (fun kv => mem (fst kv) (words address_clean)) country_codes.

(** Strategy 2: the first city whose name the address contains. *)
Definition strategy2 (address_clean : string) : option string :=
  snd <$> List.find (fun kv => contains (fst kv) address_clean) city_country_map.

(** Strategy 3: the word before [BRANCH], [OPERATIONS] and the like. *)
Definition strategy3 (address_clean : string) : option string :=
  first_of
    (fun pattern =>
       if contains pattern address_clean then
         let words := words address_clean in
         let pattern_idx := if mem pattern words then index pattern words else -1 in
         if 0 <? pattern_idx then
           match words !! Z.to_nat (pattern_idx - 1) with
           | Some potential_country => code_of potential_country
           | None => None
           end
         else None
       else None)
    branch_patterns.

(** Strategy 4: the first word that is close to the name of a country. *)
Definition strategy4 (address_clean : string) : option string :=
  first_of
    (fun word =>
       List.find (fun country => float_gt (ratio word (upper country)) point_eight)
                 countries_list)
    (words address_clean).

(** Strategy 5: a key of the table among the last three words. *)
Definition strategy5 (address_clean : string) : option string :=
  first_of code_of (last_three (words address_clean)).

Definition extract_country_advanced (address : string) : string :=
  let address_clean := clean address in
  match strategy1 address_clean with
  | Some country => country
  | None =>
  match strategy2 address_clean with
  | Some country => country
  | None =>
  match strategy3 address_clean with
  | Some country => country
  | None =>
  match strategy4 address_clean with
  | Some country => country
  | None =>
  match strategy5 address_clean with
  | Some country => country
  | None => "Unknown"
  end end end end end.

End Extract.

(** The names of the countries, each once, in the order of the table. *)
Definition countries : list string :=
  ["Hong Kong"; "Singapore"; "China"; "United States"; "United Kingdom";
   "United Arab Emirates"; "Japan"; "India"; "Germany"; "France";
   "Australia"; "Canada"; "Switzerland"; "South Korea"; "Taiwan";
   "Malaysia"; "Thailand"].

End Country.

(** ** A desk to run the country extraction on

    [str.upper] on ASCII text, and the similarity as [SequenceMatcher]
    counts it when nothing is junk: the longest block that two texts share,
    the earliest in the first text and then in the second, and the same
    again to the left and to the right of it. *)

Module Desk.
Import Py.

Definition upper_char (c : ascii) : ascii :=
  let n := N_of_ascii c in
  if ((97 <=? n) && (n <=? 122))%N then ascii_of_N (n - 32) else c.

Fixpoint upper (s : string) : string :=
  match s with
  | String c r => String (upper_char c) (upper r)
  | EmptyString => EmptyString
  end.

(** The length of the text that [a] and [b] begin with in common. *)
Fixpoint common (a b : string) : nat :=
  match a, b with
  | String c a', String d b' => if Ascii.eqb c d then S (common a' b') else 0%nat
  | _, _ => 0%nat
  end.

Definition from (n : nat) (s : string) : string :=
  String.substring n (String.length s - n) s.

(** [find_longest_match]: the place in [a], the place in [b], the size. *)
Definition find_longest_match (a b : string) : nat * nat * nat :=
  List.fold_left
    (fun best i =>
       List.fold_left
         (fun best j =>
            let k := common (from i a) (from j b) in
            if (snd best <? k)%nat then (i, j, k) else best)
         (List.seq 0 (String.length b)) best)
    (List.seq 0 (String.length a)) (0, 0, 0)%nat.

(** The sum of the sizes of the matching blocks. *)
Fixpoint matching (fuel : nat) (a b : string) : nat :=
  match fuel with
  | S fuel' =>
      let '(i, j, k) := find_longest_match a b in
      match k with
      | O => 0%nat
      | _ =>
          (k + matching fuel' (String.substring 0 i a) (String.substring 0 j b)
           + matching fuel' (from (i + k) a) (from (j + k) b))%nat
      end
  | O => 0%nat
  end.

Definition ratio (a b : string) : float :=
  let length := (String.length a + String.length b)%nat in
  match length with
  | O => float_of_int 1
  | _ =>
      fdiv (float_of_int (2 * Z.of_nat (matching (S (String.length a)) a b)))
           (float_of_int (Z.of_nat length))
  end.

Definition extract_country_advanced : string -> string :=
  Country.extract_country_advanced upper ratio Country.countries.

End Desk.

(** ** A bench for the unit price

    The answers of [re] for the unit price after [@], through the matcher,
    and a page with one row to ask them of. *)

Module Bench.
Import Py.

(** [r'@\s*([\d,]+)'] *)
Definition unit_price_pattern : Regex.t :=
  Regex.Seq (Regex.Chr (Ascii.eqb "@"))
    (Regex.Seq (Regex.Star (Regex.Chr isspace))
       (Regex.Group 1
          (Regex.Plus (Regex.Chr (fun c => isdigit c || Ascii.eqb c ","))))).

Definition search (pattern : string) (ignorecase : bool) (s : string)
  : option string :=
  if String.eqb pattern "@\s*([\d,]+)" then
    match Regex.search unit_price_pattern s with
    | Some m => Regex.group 1 m
    | None => None
    end
  else None.

Definition regex : re.api :=
  {| re.search := search; re.split := fun _ s => Py.split "/" s |}.

(** A page whose only row is the gross area with the text [area]. *)
Definition page_of (area : string) : Site.node :=
  Site.Doc {| Site.crumbs := None; Site.header := None;
              Site.cells := [("Gross Area", area)];
              Site.loose := []; Site.hrefs := [] |}.

End Bench.

(** ** Facts about the built-ins *)

Import Py PropertyScraper.

(** ** The matcher on the two patterns of the projection *)

Section PatternFacts.
Import Regex.

Lemma span_app p s : fst (span p s) ++ snd (span p s) = s.
Proof.
  induction s as [|c r IH]; simpl; [reflexivity|].
  destruct (p c); [|reflexivity].
  destruct (span p r) as [a b]. simpl in *. congruence.
Qed.

Lemma string_length_app a b :
  String.length (a ++ b) = (String.length a + String.length b)%nat.
Proof. induction a as [|c a IH]; simpl; congruence. Qed.

Lemma substring_app a b : String.substring 0 (String.length a) (a ++ b) = a.
Proof.
  induction a as [|c a IH]; simpl.
  - destruct b; reflexivity.
  - rewrite IH. reflexivity.
Qed.

Lemma taken_app a b : taken (a ++ b) b = a.
Proof.
  unfold taken. rewrite string_length_app.
  replace (String.length a + String.length b - String.length b)%nat
    with (String.length a) by lia.
  apply substring_app.
Qed.

Lemma taken_span p s : taken s (snd (span p s)) = fst (span p s).
Proof. rewrite <- (span_app p s) at 1. apply taken_app. Qed.

Lemma iterate_chr_greedy {R} p (k : cont R) :
  (forall s m, k s m <> None) ->
  forall fuel s m, (String.length s <= fuel)%nat ->
  iterate (matches (Chr p)) fuel s m k = k (snd (span p s)) m.
Proof.
  intros Hk. induction fuel as [|fuel IH]; intros s m Hf.
  - destruct s; [reflexivity|simpl in Hf; lia].
  - destruct s as [|c r]; [reflexivity|].
    cbn [iterate matches span]. destruct (p c); [|reflexivity].
    replace (String.length r <? String.length (String c r))%nat with true
      by (symmetry; apply Nat.ltb_lt; simpl; lia).
    rewrite IH by (simpl in Hf; lia).
    destruct (span p r) as [a b]. simpl.
    destruct (k b m) eqn:Hb; [reflexivity|]. destruct (Hk _ _ Hb).
Qed.

Lemma star_chr_greedy {R} p (k : cont R) s m :
  (forall s m, k s m <> None) ->
  matches (Star (Chr p)) s m k = k (snd (span p s)) m.
Proof. intros Hk. cbn [matches]. apply iterate_chr_greedy; [exact Hk|lia]. Qed.

Lemma lstrip_span s : lstrip s = snd (span isspace s).
Proof.
  induction s as [|c r IH]; simpl; [reflexivity|].
  destruct (isspace c); [|reflexivity].
  rewrite IH. destruct (span isspace r); reflexivity.
Qed.

Lemma same_char_M c :
  same_char true "M" c = Ascii.eqb c "M" || Ascii.eqb c "m".
Proof. destruct c as [[] [] [] [] [] [] [] []]; reflexivity. Qed.

Lemma taken_one c r : taken (String c r) r = String c EmptyString.
Proof. exact (taken_app (String c EmptyString) r). Qed.

Lemma magnitude_matches s g1 :
  matches magnitude_pattern (lstrip s) [(1%nat, g1)] (fun _ m => Some m)
  = Some (price_groups (g1, magnitude_group s)).
Proof.
  unfold magnitude_group. destruct (lstrip s) as [|c r]; [reflexivity|].
  rewrite <- same_char_M.
  unfold magnitude_pattern, Opt. cbn [matches Lit].
  destruct (same_char true "M" c); [|reflexivity].
  rewrite taken_one. reflexivity.
Qed.

Lemma opt_matches (r : Regex.t) s m :
  matches (Opt r) s m (fun _ m' => Some m') <> None.
Proof.
  unfold Opt. cbn [matches].
  destruct (matches r s m _); discriminate.
Qed.

Lemma tail_matches s g1 :
  matches (Seq (Star (Chr isspace)) magnitude_pattern) s [(1%nat, g1)]
    (fun _ m => Some m)
  = Some (price_groups (g1, magnitude_group s)).
Proof.
  change (matches (Seq ?a ?b) ?s ?m ?k)
    with (matches a s m (fun rest m' => matches b rest m' k)).
  rewrite star_chr_greedy by (intros; apply opt_matches).
  rewrite <- lstrip_span. apply magnitude_matches.
Qed.

Lemma price_matches_num c r :
  is_num_char c = true ->
  matches price_pattern (String c r) [] (fun _ m => Some m)
  = Some (price_groups (fst (span is_num_char (String c r)),
                        magnitude_group (snd (span is_num_char (String c r))))).
Proof.
  intros Hc. unfold price_pattern, Plus.
  set (tail := Seq _ magnitude_pattern).
  change (matches (Seq ?a tail) ?s ?m ?k)
    with (matches a s m (fun rest m' => matches tail rest m' k)).
  change (matches (Group ?i ?a) ?s ?m ?k)
    with (matches a s m (fun rest m' => k rest ((i, taken s rest) :: m'))).
  change (matches (Seq (Chr ?p) ?b) (String c r) ?m ?k)
    with (if p c then matches b r m k else None).
  rewrite Hc, star_chr_greedy.
  - replace (snd (span is_num_char r))
      with (snd (span is_num_char (String c r)))
      by (simpl; rewrite Hc; destruct (span is_num_char r); reflexivity).
    rewrite taken_span. apply tail_matches.
  - intros s m. unfold tail.
    change (matches (Seq ?a ?b) ?s ?m ?k)
      with (matches a s m (fun rest m' => matches b rest m' k)).
    rewrite star_chr_greedy by (intros; apply opt_matches).
    apply opt_matches.
Qed.

Lemma price_matches_other c r :
  is_num_char c = false ->
  matches price_pattern (String c r) [] (fun _ m => Some m) = None.
Proof. intros Hc. unfold price_pattern, Plus. cbn [matches]. rewrite Hc. reflexivity. Qed.

(** The matcher and the reading by hand find the same groups. *)
Lemma search_price_pattern s :
  search price_pattern s = price_groups <$> price_search s.
Proof.
  induction s as [|c r IH]; [reflexivity|].
  cbn [search price_search]. destruct (is_num_char c) eqn:Hc.
  - rewrite (price_matches_num _ _ Hc).
    destruct (span is_num_char (String c r)). reflexivity.
  - rewrite (price_matches_other _ _ Hc). exact IH.
Qed.

Ltac next_char c :=
  destruct (ascii_dec c _) as [<-|?Hn];
  [rewrite ?Ascii.eqb_refl | rewrite ?(proj2 (Ascii.eqb_neq _ _) Hn)].

Lemma delete_hkd_from k s :
  delete_from k hkd_pattern s = remove_hkd_from k s.
Proof.
  revert k. induction s as [|c r IH]; intros k; [reflexivity|].
  cbn [delete_from remove_hkd_from]. destruct k as [|k]; [|apply IH].
  rewrite <- !IH.
  unfold hkd_pattern at 1, Opt. cbn [matches Lit same_char String.prefix].
  next_char "H"%char; [|reflexivity].
  clear IH.
  destruct r as [|c1 r]; [reflexivity|]. cbn [String.prefix].
  next_char "K"%char; [|reflexivity].
  destruct r as [|c2 r]; [reflexivity|]. cbn [String.prefix].
  next_char "D"%char; [|reflexivity].
  destruct r as [|c3 r]; [reflexivity|]. cbn [String.prefix].
  next_char "$"%char.
  - pose proof (taken_app "HKD$" r) as E. cbn [append] in E. rewrite E.
    destruct r; reflexivity.
  - pose proof (taken_app "HKD" (String c3 r)) as E. cbn [append] in E.
    rewrite E. reflexivity.
Qed.

Lemma delete_hkd s : delete hkd_pattern s = remove_hkd s.
Proof. apply delete_hkd_from. Qed.
End PatternFacts.

Section NumeralFacts.

Lemma num_char_not_space c : is_num_char c = true -> isspace c = false.
Proof.
  destruct c as [[] [] [] [] [] [] [] []]; vm_compute; congruence.
Qed.

Lemma num_char_not_H c : is_num_char c = true -> Ascii.eqb c "H" = false.
Proof.
  destruct c as [[] [] [] [] [] [] [] []]; vm_compute; congruence.
Qed.

Lemma digit_is_num_char c : isdigit c = true -> is_num_char c = true.
Proof. unfold is_num_char. intros ->. reflexivity. Qed.

Lemma all_digits_num s : all_digits s = true -> all_chars is_num_char s = true.
Proof.
  unfold all_digits. induction s as [|c r IH]; simpl; [reflexivity|].
  intros [Hc Hr]%andb_prop. rewrite (digit_is_num_char _ Hc). simpl. auto.
Qed.

Lemma all_chars_app p s t :
  all_chars p (s ++ t) = all_chars p s && all_chars p t.
Proof.
  induction s as [|c r IH]; simpl; [reflexivity|].
  rewrite IH. apply andb_assoc.
Qed.

Lemma split_dot_spec s :
  let '(i, f) := split_dot s in
  s = match f with Some f' => i ++ String "." f' | None => i end.
Proof.
  induction s as [|c r IH]; simpl; [reflexivity|].
  destruct (Ascii.eqb_spec c "."); [subst; reflexivity|].
  destruct (split_dot r) as [i f]. destruct f; simpl; congruence.
Qed.

(** A string that [float()] accepts is a non-empty run of digits and dots. *)
Lemma float_of_str_returns_num s v :
  float_of_str s = Returns v ->
  all_chars is_num_char s = true /\ s <> EmptyString.
Proof.
  unfold float_of_str. pose proof (split_dot_spec s) as Hs.
  destruct (split_dot s) as [i f].
  destruct (all_digits i) eqn:Hi; simpl; [|discriminate].
  destruct f as [f'|]; simpl.
  - destruct (all_digits f') eqn:Hf; simpl; [|discriminate].
    intros _. subst s. split.
    + rewrite all_chars_app. simpl.
      rewrite (all_digits_num _ Hi), (all_digits_num _ Hf). reflexivity.
    + destruct i; discriminate.
  - destruct i; simpl; [discriminate|]. intros _. subst s. split.
    + apply (all_digits_num _ Hi).
    + discriminate.
Qed.


Lemma lstrip_num c r : is_num_char c = true -> lstrip (String c r) = String c r.
Proof. intros H. simpl. rewrite (num_char_not_space _ H). reflexivity. Qed.

Lemma rstrip_nonspace s :
  all_chars (fun c => negb (isspace c)) s = true -> rstrip s = s.
Proof.
  induction s as [|c r IH]; [reflexivity|]. simpl.
  intros [Hc Hr]%andb_prop. rewrite (IH Hr).
  destruct r; [|reflexivity].
  destruct (isspace c); [discriminate|reflexivity].
Qed.

Lemma num_nonspace s :
  all_chars is_num_char s = true ->
  all_chars (fun c => negb (isspace c)) s = true.
Proof.
  induction s as [|c r IH]; [reflexivity|]. simpl.
  intros [Hc Hr]%andb_prop. rewrite (num_char_not_space _ Hc). simpl. auto.
Qed.

Lemma span_num s t :
  all_chars is_num_char s = true ->
  match t with String c _ => is_num_char c = false | EmptyString => True end ->
  span is_num_char (s ++ t) = (s, t).
Proof.
  intros Hs Ht. induction s as [|c r IH]; simpl.
  - destruct t; [reflexivity|]. simpl. rewrite Ht. reflexivity.
  - simpl in Hs. apply andb_prop in Hs as [Hc Hr].
    rewrite Hc, (IH Hr). reflexivity.
Qed.

(** The price pattern on a run of digits and dots followed by [t]. *)
Lemma price_search_num s t :
  all_chars is_num_char s = true -> s <> EmptyString ->
  match t with String c _ => is_num_char c = false | EmptyString => True end ->
  price_search (s ++ t) = Some (s, magnitude_group t).
Proof.
  intros Hs Hne Ht. destruct s as [|c r]; [congruence|].
  pose proof (span_num _ _ Hs Ht) as Hspan.
  simpl in Hs. apply andb_prop in Hs as [Hc Hr].
  change (String c r ++ t) with (String c (r ++ t)) in *.
  cbn [price_search]. rewrite Hc, Hspan. reflexivity.
Qed.


Lemma parse_price_truthy s :
  s <> EmptyString ->
  parse_price_to_millions (Some s) =
  match price_search (strip (remove_hkd s)) with
  | Some (g1, g2) =>
      value ← float_of_str g1;
      if truthy g2 then Returns (Some value)
      else Returns (Some (fdiv value million))
  | None => Returns None
  end.
Proof.
  destruct s as [|c r]; [congruence|]. intros _.
  unfold parse_price_to_millions. cbv zeta.
  rewrite delete_hkd, search_price_pattern.
  destruct (price_search _) as [[g1 [g2|]]|]; reflexivity.
Qed.


End NumeralFacts.

(** ** Facts about the records *)

Lemma keeps_refl p : keeps p p.
Proof. unfold keeps, same_frame. tauto. Qed.

Lemma keeps_trans p q r : keeps p q -> keeps q r -> keeps p r.
Proof.
  unfold keeps, same_frame. intros [(-> & -> & ->) Hpq] [(-> & -> & ->) Hqr].
  tauto.
Qed.

Ltac plain_setter :=
  intros v [] ; unfold keeps, same_frame, priced; simpl; tauto.

Lemma plain_location_breadcrumb : plain Property.set_location_breadcrumb.
Proof. plain_setter. Qed.
Lemma plain_estate_name : plain Property.set_estate_name.
Proof. plain_setter. Qed.
Lemma plain_full_address : plain Property.set_full_address.
Proof. plain_setter. Qed.
Lemma plain_block_unit : plain Property.set_block_unit.
Proof. plain_setter. Qed.
Lemma plain_floor_info : plain Property.set_floor_info.
Proof. plain_setter. Qed.
Lemma plain_gross_area_sqft : plain Property.set_gross_area_sqft.
Proof. plain_setter. Qed.
Lemma plain_gross_area_unit_price : plain Property.set_gross_area_unit_price.
Proof. plain_setter. Qed.
Lemma plain_saleable_area_sqft : plain Property.set_saleable_area_sqft.
Proof. plain_setter. Qed.
Lemma plain_saleable_area_unit_price :
  plain Property.set_saleable_area_unit_price.
Proof. plain_setter. Qed.
Lemma plain_building_age_years : plain Property.set_building_age_years.
Proof. plain_setter. Qed.
Lemma plain_bedrooms : plain Property.set_bedrooms.
Proof. plain_setter. Qed.
Lemma plain_bathrooms : plain Property.set_bathrooms.
Proof. plain_setter. Qed.
Lemma plain_pri_school_net : plain Property.set_pri_school_net.
Proof. plain_setter. Qed.
Lemma plain_sec_school_net : plain Property.set_sec_school_net.
Proof. plain_setter. Qed.

Create HintDb parser.

#[local] Hint Resolve keeps_refl plain_location_breadcrumb plain_estate_name
  plain_full_address plain_block_unit plain_floor_info plain_gross_area_sqft
  plain_gross_area_unit_price plain_saleable_area_sqft
  plain_saleable_area_unit_price plain_building_age_years plain_bedrooms
  plain_bathrooms plain_pri_school_net plain_sec_school_net : parser.

(** Setting a price string together with its projection. *)
Lemma keeps_sell_price s m p :
  projected (Some s) m ->
  keeps p (Property.set_sell_price_millions m (Property.set_sell_price (Some s) p)).
Proof.
  intros Hm. destruct p. unfold keeps, same_frame, priced; simpl. tauto.
Qed.

Lemma keeps_valuation s m p :
  projected (Some s) m ->
  keeps p (Property.set_valuation_millions m (Property.set_valuation (Some s) p)).
Proof.
  intros Hm. destruct p. unfold keeps, same_frame, priced; simpl. tauto.
Qed.

(** The prefix that Method 3 puts back does not change the projection. *)
Lemma parse_price_hkd_prefix g :
  parse_price_to_millions (Some ("HKD$" ++ g)) = parse_price_to_millions (Some g).
Proof.
  destruct g as [|c g]; [reflexivity|].
  rewrite !parse_price_truthy by discriminate. reflexivity.
Qed.

Lemma bind_returns {A B} (x : outcome A) (k : A -> outcome B) b :
  x ≫= k = Returns b -> exists a, x = Returns a /\ k a = Returns b.
Proof. destruct x; simpl; [eauto|discriminate]. Qed.

Ltac bind_inv H :=
  let a := fresh "a" in
  let Ha := fresh "Ha" in
  apply bind_returns in H as (a & Ha & H).

Ltac returned :=
  match goal with
  | H : Returns _ = Returns _ |- _ => injection H as <-
  end.

Lemma tkeeps_refl t : tkeeps t t.
Proof. unfold tkeeps. tauto. Qed.

Lemma tkeeps_trans t u v : tkeeps t u -> tkeeps u v -> tkeeps t v.
Proof. unfold tkeeps. intros [-> ?] [-> ?]. tauto. Qed.

Ltac tplain_setter := intros v []; unfold tkeeps; simpl; tauto.

Lemma tplain_property_full_name : tplain Transaction.set_property_full_name.
Proof. tplain_setter. Qed.
Lemma tplain_estate_name : tplain Transaction.set_estate_name.
Proof. tplain_setter. Qed.
Lemma tplain_flat_info : tplain Transaction.set_flat_info.
Proof. tplain_setter. Qed.
Lemma tplain_location : tplain Transaction.set_location.
Proof. tplain_setter. Qed.
Lemma tplain_registry_date : tplain Transaction.set_registry_date.
Proof. tplain_setter. Qed.
Lemma tplain_gross_area_sqft : tplain Transaction.set_gross_area_sqft.
Proof. tplain_setter. Qed.
Lemma tplain_saleable_area_sqft : tplain Transaction.set_saleable_area_sqft.
Proof. tplain_setter. Qed.
Lemma tplain_building_unit_price : tplain Transaction.set_building_unit_price.
Proof. tplain_setter. Qed.
Lemma tplain_unit_price : tplain Transaction.set_unit_price.
Proof. tplain_setter. Qed.
Lemma tplain_bedrooms : tplain Transaction.set_bedrooms.
Proof. tplain_setter. Qed.
Lemma tplain_transaction_format : tplain Transaction.set_transaction_format.
Proof. tplain_setter. Qed.

#[local] Hint Resolve tkeeps_refl tplain_property_full_name tplain_estate_name
  tplain_flat_info tplain_location tplain_registry_date tplain_gross_area_sqft
  tplain_saleable_area_sqft tplain_building_unit_price tplain_unit_price
  tplain_bedrooms tplain_transaction_format : parser.

Lemma tkeeps_sold_price s m t :
  projected (Some s) m ->
  tkeeps t (Transaction.set_sold_price_millions m
              (Transaction.set_sold_price (Some s) t)).
Proof. intros Hm. destruct t. unfold tkeeps; simpl. tauto. Qed.

Ltac tkeeps_step :=
  repeat first
    [ apply tkeeps_refl
    | match goal with
      | |- tkeeps _ (match ?x with _ => _ end) => destruct x
      | |- tkeeps _ (if ?x then _ else _) => destruct x
      | |- tkeeps ?t (?set ?v ?u) =>
          apply (tkeeps_trans t u); [|auto with parser]
      end ].

(** ** Facts about the page parser *)

Section ParserFacts.
Context `{bs4.api} `{re.api}.

Lemma sell_price_method1_keeps soup p p' :
  sell_price_method1 soup p = Returns p' -> keeps p p'.
Proof.
  unfold sell_price_method1. destruct (cell_after _ _) as [t|]; intros Hr.
  - bind_inv Hr. returned. apply keeps_sell_price, Ha.
  - returned. auto with parser.
Qed.

Lemma sell_price_method2_keeps soup p p' :
  sell_price_method2 soup p = Returns p' -> keeps p p'.
Proof.
  unfold sell_price_method2. destruct (truthy (Property.sell_price p)).
  { intros. returned. auto with parser. }
  destruct (bs4.find _ _); intros Hr; [|returned; auto with parser].
  bind_inv Hr. destruct (truthy (Some a)); [|returned; auto with parser].
  bind_inv Hr. returned. apply keeps_sell_price. assumption.
Qed.

Lemma sell_price_method3_keeps soup p p' :
  sell_price_method3 soup p = Returns p' -> keeps p p'.
Proof.
  unfold sell_price_method3. destruct (truthy (Property.sell_price p)).
  { intros. returned. auto with parser. }
  destruct (first_price_match _ _) as [g|]; intros Hr; [|returned; auto with parser].
  bind_inv Hr. returned. apply keeps_sell_price.
  exact (eq_trans (parse_price_hkd_prefix g) Ha).
Qed.

Lemma extract_sell_price_keeps soup p p' :
  extract_sell_price soup p = Returns p' -> keeps p p'.
Proof.
  unfold extract_sell_price. intros Hr. bind_inv Hr. bind_inv Hr.
  eapply keeps_trans; [eapply sell_price_method1_keeps; eassumption|].
  eapply keeps_trans; [eapply sell_price_method2_keeps; eassumption|].
  eapply sell_price_method3_keeps; eassumption.
Qed.

Lemma extract_valuation_keeps soup p p' :
  extract_valuation soup p = Returns p' -> keeps p p'.
Proof.
  unfold extract_valuation. destruct (bs4.find _ _).
  - destruct (bs4.find_next_sibling _ _); intros Hr; [|returned; auto with parser].
    bind_inv Hr. returned. apply keeps_valuation. assumption.
  - destruct (bs4.find _ _); intros Hr; [|returned; auto with parser].
    bind_inv Hr. destruct (truthy (Some a)); [|returned; auto with parser].
    bind_inv Hr. returned. apply keeps_valuation. assumption.
Qed.

(** The two generic fields, for any relation that their setter respects. *)
Lemma int_field_rel {R} (K : R -> R -> Prop) pattern text clean set r r' :
  (forall r, K r r) -> (forall v r, K r (set v r)) ->
  int_field pattern text clean set r = Returns r' -> K r r'.
Proof.
  unfold int_field. intros Hrefl Hset. destruct (re.search _ _ _); intros Hr.
  - bind_inv Hr. returned. apply Hset.
  - returned. apply Hrefl.
Qed.

Lemma text_field_rel {R} (K : R -> R -> Prop) soup label set (r : R) :
  (forall r, K r r) -> (forall v r, K r (set v r)) ->
  K r (text_field soup label set r).
Proof.
  unfold text_field. intros Hrefl Hset. destruct (cell_after _ _); auto.
Qed.

Lemma int_field_keeps pattern text clean set p p' :
  plain set ->
  int_field pattern text clean set p = Returns p' -> keeps p p'.
Proof. apply int_field_rel, keeps_refl. Qed.

Lemma extract_area_keeps soup label set1 set2 p p' :
  plain set1 -> plain set2 ->
  extract_area soup label set1 set2 p = Returns p' -> keeps p p'.
Proof.
  unfold extract_area. intros H1 H2.
  destruct (cell_after _ _); intros Hr; [|returned; auto with parser].
  bind_inv Hr.
  eapply keeps_trans; eapply int_field_keeps; [| eassumption | | eassumption];
    assumption.
Qed.

Lemma extract_building_age_keeps soup p p' :
  extract_building_age soup p = Returns p' -> keeps p p'.
Proof.
  unfold extract_building_age.
  destruct (cell_after _ _); intros Hr; [|returned; auto with parser].
  eapply int_field_keeps; [|eassumption]. auto with parser.
Qed.

Lemma extract_rooms_keeps soup p p' :
  extract_rooms soup p = Returns p' -> keeps p p'.
Proof.
  unfold extract_rooms.
  destruct (cell_after _ _); intros Hr; [|returned; auto with parser].
  bind_inv Hr.
  eapply keeps_trans; eapply int_field_keeps; [| eassumption | | eassumption];
    auto with parser.
Qed.

Lemma text_field_keeps soup label set p :
  plain set -> keeps p (text_field soup label set p).
Proof. apply text_field_rel, keeps_refl. Qed.

Lemma extract_location_keeps soup p : keeps p (extract_location soup p).
Proof.
  unfold extract_location.
  destruct (extract_breadcrumb_location soup) as [loc est].
  repeat first
    [ apply keeps_refl
    | match goal with
      | |- keeps _ (match ?x with _ => _ end) => destruct x
      | |- keeps _ (let _ := ?x in _) => cbv zeta
      | |- keeps ?p (?set ?v ?q) =>
          apply (keeps_trans p q); [|auto with parser]
      end ].
Qed.

(** *** The transaction page *)

Lemma extract_header_keeps soup t : tkeeps t (extract_header soup t).
Proof. unfold extract_header. tkeeps_step. Qed.

Lemma extract_unit_prices_keeps soup t : tkeeps t (extract_unit_prices soup t).
Proof. unfold extract_unit_prices. cbv zeta. tkeeps_step. Qed.

Lemma extract_transaction_location_keeps soup t t' :
  extract_transaction_location soup t = Returns t' -> tkeeps t t'.
Proof.
  unfold extract_transaction_location. destruct (bs4.find _ _).
  - destruct (bs4.find_next_sibling _ _); intros Hr; returned; auto with parser.
  - destruct (bs4.find _ _); intros Hr; [|returned; auto with parser].
    bind_inv Hr. destruct (truthy (Some a)); returned; auto with parser.
Qed.

Lemma extract_sold_price_keeps soup t t' :
  extract_sold_price soup t = Returns t' -> tkeeps t t'.
Proof.
  unfold extract_sold_price. destruct (bs4.find _ _).
  - destruct (bs4.find_next_sibling _ _); intros Hr; [|returned; auto with parser].
    bind_inv Hr. returned. apply tkeeps_sold_price. assumption.
  - destruct (bs4.find _ _); intros Hr; [|returned; auto with parser].
    bind_inv Hr. destruct (truthy (Some a)); [|returned; auto with parser].
    bind_inv Hr. returned. apply tkeeps_sold_price. assumption.
Qed.

Lemma extract_transaction_area_keeps soup label set t t' :
  tplain set ->
  extract_transaction_area soup label set t = Returns t' -> tkeeps t t'.
Proof.
  unfold extract_transaction_area. intros Hset.
  destruct (cell_after _ _); intros Hr; [|returned; auto with parser].
  eapply (int_field_rel tkeeps); [apply tkeeps_refl|exact Hset|eassumption].
Qed.

Lemma extract_bedrooms_keeps soup t t' :
  extract_bedrooms soup t = Returns t' -> tkeeps t t'.
Proof.
  unfold extract_bedrooms.
  destruct (cell_after _ _); intros Hr; [|returned; auto with parser].
  eapply (int_field_rel tkeeps); [apply tkeeps_refl| |eassumption].
  auto with parser.
Qed.

(** A transaction page that parses gives a record with the address it was
    asked for and a price that agrees. *)
Lemma parse_transaction_page_fresh html url t :
  parse_transaction_page html url = Returns t ->
  Transaction.url t = Some url
  /\ projected (Transaction.sold_price t) (Transaction.sold_price_millions t).
Proof.
  unfold parse_transaction_page. intros Hr. repeat bind_inv Hr. returned.
  match goal with
  | |- Transaction.url ?t' = _ /\ _ =>
      assert (Hk : tkeeps (new_transaction url) t')
  end.
  { eapply tkeeps_trans; [apply extract_header_keeps|].
    eapply tkeeps_trans; [eapply extract_transaction_location_keeps; eassumption|].
    eapply tkeeps_trans; [eapply extract_sold_price_keeps; eassumption|].
    eapply tkeeps_trans;
      [exact (text_field_rel tkeeps (bs4.BeautifulSoup html)
                (Regex "Registry Date" false) _ _
                tkeeps_refl tplain_registry_date)|].
    eapply tkeeps_trans;
      [eapply extract_transaction_area_keeps; [|eassumption]; auto with parser|].
    eapply tkeeps_trans;
      [eapply extract_transaction_area_keeps; [|eassumption]; auto with parser|].
    eapply tkeeps_trans; [apply extract_unit_prices_keeps|].
    eapply tkeeps_trans; [eapply extract_bedrooms_keeps; eassumption|].
    apply (text_field_rel tkeeps); auto with parser. }
  destruct Hk as [Hu Hp]. split; [exact Hu|]. apply Hp. reflexivity.
Qed.

(** *** The sell price: the first method that finds a value *)

Lemma sell_price_after_set s m p :
  Property.sell_price
    (Property.set_sell_price_millions m (Property.set_sell_price s p)) = s
  /\ Property.sell_price_millions
       (Property.set_sell_price_millions m (Property.set_sell_price s p)) = m.
Proof. destruct p; split; reflexivity. Qed.

Lemma method1_found soup p t :
  cell_after soup (Regex "Sell\s*Price" false) = Some t ->
  sell_price_method1 soup p =
  (m ← parse_price_to_millions (Some t);
   Returns (Property.set_sell_price_millions m
              (Property.set_sell_price (Some t) p))).
Proof. unfold sell_price_method1. intros ->. reflexivity. Qed.

Lemma later_methods_skipped soup p :
  truthy (Property.sell_price p) = true ->
  (p ← sell_price_method2 soup p; sell_price_method3 soup p) = Returns p.
Proof.
  intros Ht. unfold sell_price_method2. rewrite Ht. simpl.
  unfold sell_price_method3. rewrite Ht. reflexivity.
Qed.

Lemma sell_price_first soup p t :
  cell_after soup (Regex "Sell\s*Price" false) = Some t ->
  t <> EmptyString ->
  extract_sell_price soup p =
  (m ← parse_price_to_millions (Some t);
   Returns (Property.set_sell_price_millions m
              (Property.set_sell_price (Some t) p))).
Proof.
  intros Hcell Hne. unfold extract_sell_price.
  rewrite (method1_found soup p t Hcell).
  destruct (parse_price_to_millions (Some t)) as [m|e]; [|reflexivity].
  simpl. apply later_methods_skipped.
  rewrite (proj1 (sell_price_after_set _ _ _)).
  destruct t; [congruence|reflexivity].
Qed.

Lemma cell_after_inv soup label t :
  cell_after soup label = Some t ->
  exists td cell,
    bs4.find soup (tag_text "td" label) = Some td
    /\ bs4.find_next_sibling td "td" = Some cell
    /\ bs4.get_text cell EmptyString true = t.
Proof.
  unfold cell_after. destruct (bs4.find _ _) as [td|]; [|discriminate].
  destruct (bs4.find_next_sibling td "td") as [cell|] eqn:Hsib; [|discriminate].
  intros [= <-]. exists td, cell. auto.
Qed.

Lemma estate_name_kept p :
  (forall v, Property.estate_name (Property.set_estate_name v p) = v)
  /\ (forall v, Property.estate_name (Property.set_full_address v p)
                = Property.estate_name p)
  /\ (forall v, Property.estate_name (Property.set_location_breadcrumb v p)
                = Property.estate_name p).
Proof. destruct p; repeat split. Qed.

(** C3.  Strict precedence in the chains of the parser.  When the first
    method of the sell price, the cell after the [Sell Price] label, gives a
    non-empty text [t], the chain as a whole does what the first method does
    alone: the field is [t] and its projection the one of [t] (or the
    exception that the projection of [t] raises), whatever the second and
    the third method would find; two documents with the same such cell give
    the same result.  The same holds where a field has two methods: the
    valuation, the sold price and the location of a transaction are those of
    the cell after their label when there is one, and the estate is the one
    of the breadcrumb when the breadcrumb names one. *)
Theorem first_strategy_wins :
  (forall soup p t,
     cell_after soup (Regex "Sell\s*Price" false) = Some t ->
     t <> EmptyString ->
     extract_sell_price soup p = sell_price_method1 soup p
     /\ extract_sell_price soup p =
        (m ← parse_price_to_millions (Some t);
         Returns (Property.set_sell_price_millions m
                    (Property.set_sell_price (Some t) p)))
     /\ (forall p', extract_sell_price soup p = Returns p' ->
           Property.sell_price p' = Some t
           /\ projected (Some t) (Property.sell_price_millions p'))
     /\ (forall soup',
           cell_after soup' (Regex "Sell\s*Price" false) = Some t ->
           extract_sell_price soup' p = extract_sell_price soup p))
  /\ (forall soup p t,
        cell_after soup (Regex "Valuation" false) = Some t ->
        extract_valuation soup p =
        (m ← parse_price_to_millions (Some t);
         Returns (Property.set_valuation_millions m
                    (Property.set_valuation (Some t) p))))
  /\ (forall soup tr t,
        cell_after soup (Regex "Sold Price" false) = Some t ->
        extract_sold_price soup tr =
        (m ← parse_price_to_millions (Some t);
         Returns (Transaction.set_sold_price_millions m
                    (Transaction.set_sold_price (Some t) tr))))
  /\ (forall soup tr t,
        cell_after soup (Regex "Address|Location" false) = Some t ->
        extract_transaction_location soup tr
        = Returns (Transaction.set_location t tr))
  /\ (forall soup p location estate,
        extract_breadcrumb_location soup = (location, Some estate) ->
        estate <> EmptyString ->
        Property.estate_name (extract_location soup p) = Some estate).
Proof.
  split; [|split; [|split; [|split]]].
  - intros soup p t Hcell Hne. split; [|split; [|split]].
    + rewrite (sell_price_first soup p t Hcell Hne). symmetry.
      apply method1_found, Hcell.
    + apply sell_price_first; assumption.
    + intros p'. rewrite (sell_price_first soup p t Hcell Hne). intros Hr.
      bind_inv Hr. returned.
      destruct (sell_price_after_set (Some t) a p) as [-> ->].
      split; [reflexivity|]. exact Ha.
    + intros soup' Hcell'.
      rewrite (sell_price_first soup p t Hcell Hne),
        (sell_price_first soup' p t Hcell' Hne). reflexivity.
  - intros soup p t (td & cell & Hfind & Hsib & <-)%cell_after_inv.
    unfold extract_valuation. rewrite Hfind, Hsib. reflexivity.
  - intros soup tr t (td & cell & Hfind & Hsib & <-)%cell_after_inv.
    unfold extract_sold_price. rewrite Hfind, Hsib. reflexivity.
  - intros soup tr t (td & cell & Hfind & Hsib & <-)%cell_after_inv.
    unfold extract_transaction_location. rewrite Hfind, Hsib. reflexivity.
  - intros soup p location estate Hcrumb Hne. unfold extract_location.
    rewrite Hcrumb.
    assert (Ht : truthy (Some estate) = true)
      by (destruct estate; [congruence|reflexivity]).
    rewrite Ht.
    set (q := Property.set_estate_name (Some estate)
                (Property.set_location_breadcrumb location p)).
    assert (Hq : Property.estate_name q = Some estate)
      by apply estate_name_kept.
    rewrite Hq, Ht.
    assert (Hend : forall r, Property.estate_name r = Some estate ->
              Property.estate_name
                (match cell_after soup (Equals "Address") with
                 | Some address => Property.set_full_address (Some address) r
                 | None => r
                 end) = Some estate).
    { intros r Hr. destruct (cell_after _ _); [|exact Hr].
      rewrite (proj1 (proj2 (estate_name_kept r))). exact Hr. }
    destruct (bs4.find soup (tag_text "td" (Regex "Estate" false)));
      apply Hend, Hq.
Qed.

Section Page.
Variable urljoin : string -> string -> outcome string.
Variable now : string.

Lemma new_property_priced url property_id :
  priced (new_property now url property_id).
Proof. split; reflexivity. Qed.

(** A property page that parses gives a record with the address it was
    asked for, no transaction yet, and prices that agree. *)
Lemma parse_property_page_fresh html url p urls :
  parse_property_page urljoin now html url = Returns (p, urls) ->
  Property.url p = url /\ Property.transactions p = [] /\ priced p.
Proof.
  unfold parse_property_page. intros Hr. repeat bind_inv Hr.
  injection Hr as <- <-.
  assert (Hk : keeps (new_property now url (extract_property_id url))
                 (text_field (bs4.BeautifulSoup html) (Regex "Sec School Net" false)
                    Property.set_sec_school_net
                    (text_field (bs4.BeautifulSoup html) (Regex "Pri School Net" false)
                       Property.set_pri_school_net a4))).
  { eapply keeps_trans; [apply extract_location_keeps|].
    eapply keeps_trans; [eapply extract_sell_price_keeps; eassumption|].
    eapply keeps_trans; [eapply extract_valuation_keeps; eassumption|].
    eapply keeps_trans;
      [eapply extract_area_keeps; [| |eassumption]; auto with parser|].
    eapply keeps_trans;
      [eapply extract_area_keeps; [| |eassumption]; auto with parser|].
    eapply keeps_trans; [eapply extract_building_age_keeps; eassumption|].
    eapply keeps_trans;
      [exact (text_field_keeps (bs4.BeautifulSoup html) (Regex "Floor zone" false)
                _ _ plain_floor_info)|].
    eapply keeps_trans; [eapply extract_rooms_keeps; eassumption|].
    eapply keeps_trans; apply text_field_keeps; auto with parser. }
  destruct Hk as [(Hu & _ & Ht) Hp].
  split; [exact Hu|]. split; [exact Ht|]. apply Hp, new_property_priced.
Qed.

(** C1.  The projection on the examples of the specification: [1.5], that
    is [3 / 2], for ["HKD$1.5M"], [3.0] for ["3000000"], [None] for [None];
    the two numbers print as ["1.5"] and ["3.0"].
    In the records that the parser returns, each number in millions is
    what the projection, a function of the string alone, makes of the price
    string beside it; so it is [None] whenever that string is [None]. *)
Theorem price_projection_examples :
  parse_price_to_millions (Some "HKD$1.5M")
  = Returns (Some (fdiv (float_of_int 3) (float_of_int 2)))
  /\ parse_price_to_millions (Some "3000000") = Returns (Some (float_of_int 3))
  /\ parse_price_to_millions None = Returns None
  /\ float_repr (fdiv (float_of_int 3) (float_of_int 2)) = "1.5"
  /\ float_repr (float_of_int 3) = "3.0"
  /\ (forall html url p urls,
        parse_property_page urljoin now html url = Returns (p, urls) ->
        parse_price_to_millions (Property.sell_price p)
        = Returns (Property.sell_price_millions p)
        /\ parse_price_to_millions (Property.valuation p)
           = Returns (Property.valuation_millions p)
        /\ (Property.sell_price p = None -> Property.sell_price_millions p = None)
        /\ (Property.valuation p = None -> Property.valuation_millions p = None))
  /\ (forall html url t,
        parse_transaction_page html url = Returns t ->
        parse_price_to_millions (Transaction.sold_price t)
        = Returns (Transaction.sold_price_millions t)
        /\ (Transaction.sold_price t = None ->
            Transaction.sold_price_millions t = None)).
Proof.
  split; [vm_compute; reflexivity|].
  split; [vm_compute; reflexivity|].
  split; [reflexivity|].
  split; [vm_compute; reflexivity|].
  split; [vm_compute; reflexivity|].
  split.
  - intros html url p urls Hr.
    destruct (parse_property_page_fresh _ _ _ _ Hr) as (_ & _ & Hs & Hv).
    unfold projected in Hs, Hv. repeat split; try assumption.
    + intros Hn. rewrite Hn in Hs. simpl in Hs. congruence.
    + intros Hn. rewrite Hn in Hv. simpl in Hv. congruence.
  - intros html url t Hr.
    destruct (parse_transaction_page_fresh _ _ _ Hr) as (_ & Hs).
    unfold projected in Hs. split; [assumption|].
    intros Hn. rewrite Hn in Hs. simpl in Hs. congruence.
Qed.

End Page.

End ParserFacts.

(** ** The projection and the text of its own result *)

Section Projection.




(** Where the text of the value is in exponent notation the pattern finds
    the digits before the [e] only: the text of [1.5e-06], the projection
    of ["1.5"], is ["1.5e-06"], whose projection is that of ["1.5"]. *)
Example exponent_text_example :
  let v := fdiv (fdiv (float_of_int 3) (float_of_int 2)) million in
  parse_price_to_millions (Some "1.5") = Returns (Some v)
  /\ float_repr v = "1.5e-06"
  /\ parse_price_to_millions (Some (float_repr v)) = Returns (Some v).
Proof. repeat split; vm_compute; reflexivity. Qed.

(** C4.  A cell that reads ["N.A."] makes the projection raise: the pattern
    finds the dot, and [float] does not read a dot alone.  The same holds for
    a number with two dots. *)
Theorem projection_raises :
  parse_price_to_millions (Some "N.A.")
  = Raises (ValueError "could not convert string to float: '.'")
  /\ parse_price_to_millions (Some "HKD$1.2.3M")
     = Raises (ValueError "could not convert string to float: '1.2.3'").
Proof. split; vm_compute; reflexivity. Qed.

End Projection.

(** ** Facts about the crawl *)

(** Adding the addresses of a page to those already known. *)
Lemma add_url_In urls u x : In x (add_url urls u) <-> In x urls \/ x = u.
Proof.
  unfold add_url. destruct (existsb _ urls) eqn:E.
  - split; [auto|]. intros [?| ->]; [assumption|].
    apply existsb_exists in E as (y & Hy & Heq).
    apply String.eqb_eq in Heq. subst. assumption.
  - rewrite in_app_iff. simpl. intuition congruence.
Qed.

Lemma add_url_NoDup urls u : NoDup urls -> NoDup (add_url urls u).
Proof.
  unfold add_url. intros Hnd. destruct (existsb _ urls) eqn:E; [assumption|].
  apply NoDup_app. split; [assumption|].
  split; [|apply NoDup_singleton].
  intros x Hx Hu. apply list_elem_of_singleton in Hu as ->.
  apply list_elem_of_In in Hx.
  assert (existsb (String.eqb u) urls = true); [|congruence].
  apply existsb_exists. exists u. split; [assumption|apply String.eqb_refl].
Qed.

Lemma add_urls_spec links urls :
  NoDup urls ->
  NoDup (List.fold_left add_url links urls)
  /\ forall x, In x (List.fold_left add_url links urls) <-> In x urls \/ In x links.
Proof.
  revert urls. induction links as [|u links IH]; intros urls Hnd; simpl.
  - split; [assumption|]. tauto.
  - destruct (IH _ (add_url_NoDup urls u Hnd)) as [Hnd' Hin]. split; [assumption|].
    intros x. rewrite Hin, add_url_In. intuition.
Qed.

Lemma map_seq_from {A} (f : nat -> A) a b :
  List.map f (List.seq a b) = List.map (fun k => f (a + k)%nat) (List.seq 0 b).
Proof.
  revert a. induction b as [|b IH]; intros a; [reflexivity|]. simpl.
  rewrite Nat.add_0_r. f_equal. rewrite (IH (S a)), <- seq_shift, List.map_map.
  apply List.map_ext. intros k. f_equal. lia.
Qed.

Lemma range_app lo mid hi :
  lo <= mid <= hi -> range lo hi = (range lo mid ++ range mid hi)%list.
Proof.
  intros Hle. unfold range.
  replace (Z.to_nat (hi - lo)) with (Z.to_nat (mid - lo) + Z.to_nat (hi - mid))%nat
    by lia.
  rewrite List.seq_app, List.map_app. f_equal. rewrite map_seq_from.
  apply List.map_ext. intros k. lia.
Qed.

Section CrawlFacts.
Context `{bs4.api} `{re.api}.
Variable urljoin : string -> string -> outcome string.
Variable now : string.
Variable fetch_page : string -> option string.
Variable fetch_page_selenium : string -> option string.
Variable self : config.

#[local] Abbreviation fetch := (fetch fetch_page fetch_page_selenium self).
#[local] Abbreviation listing_pages :=
  (listing_pages urljoin fetch_page fetch_page_selenium self).
#[local] Abbreviation scrape_property_listings_traced :=
  (scrape_property_listings_traced urljoin fetch_page fetch_page_selenium self).
#[local] Abbreviation scrape_property_listings :=
  (scrape_property_listings urljoin fetch_page fetch_page_selenium self).

#[local] Abbreviation links_on :=
  (links_on urljoin fetch_page fetch_page_selenium self).
#[local] Abbreviation page_events :=
  (page_events fetch_page fetch_page_selenium self).

(** *** The listing *)


(** The loop over the links joins them all and then adds them, or raises
    what [urljoin] raises first. *)
Lemma add_links_spec base_url links urls :
  add_links urljoin base_url links urls
  = (joined ← mapM (fun link => urljoin base_url (bs4.attr link "href")) links;
     Returns (List.fold_left add_url joined urls)).
Proof.
  revert urls. induction links as [|link links IH]; intros urls; [reflexivity|].
  simpl. destruct (urljoin base_url _) as [full_url|e]; simpl; [|reflexivity].
  rewrite IH. destruct (mapM _ links); reflexivity.
Qed.

(** One turn of the loop over the pages. *)
Lemma listing_pages_cons base_url page rest urls trace :
  listing_pages base_url (page :: rest) urls trace
  = match links_on base_url page with
    | Returns links =>
        listing_pages base_url rest (List.fold_left add_url links urls)
          (trace ++ page_events base_url page)%list
    | Raises e => (Raises e, (trace ++ [EvFetch (page_url base_url page)])%list)
    end.
Proof.
  cbn [PropertyScraper.listing_pages].
  unfold PropertyScraper.links_on, PropertyScraper.page_events,
    PropertyScraper.fetched, PropertyScraper.listing_links.
  destruct (fetch (page_url base_url page)) as [[|c html]|]; try reflexivity.
  rewrite add_links_spec. cbn [truthy].
  destruct (mapM _ _) as [joined|e]; simpl; [|reflexivity].
  rewrite <- app_assoc. reflexivity.
Qed.

(** The loop over the pages: when it returns, every page was gone through;
    when it raises, the pages before the one whose links made [urljoin]
    raise were gone through, and that one was fetched. *)
Lemma listing_pages_spec base_url pages urls trace :
  match listing_pages base_url pages urls trace with
  | (Returns urls', trace') =>
      exists linkss,
        Forall2 (fun page links => links_on base_url page = Returns links)
                pages linkss
        /\ urls' = List.fold_left add_url (List.concat linkss) urls
        /\ trace' = (trace ++ List.concat (List.map (page_events base_url) pages))%list
  | (Raises e, trace') =>
      exists before page after linkss,
        pages = (before ++ page :: after)%list
        /\ Forall2 (fun page links => links_on base_url page = Returns links)
                   before linkss
        /\ links_on base_url page = Raises e
        /\ trace' = (trace ++ List.concat (List.map (page_events base_url) before)
                           ++ [EvFetch (page_url base_url page)])%list
  end.
Proof.
  revert urls trace. induction pages as [|page pages IH]; intros urls trace.
  - simpl. exists []. split; [constructor|]. split; [reflexivity|].
    rewrite app_nil_r. reflexivity.
  - rewrite listing_pages_cons.
    destruct (links_on base_url page) as [links|e] eqn:Hpage.
    + specialize (IH (List.fold_left add_url links urls)
                     (trace ++ page_events base_url page)%list).
      destruct (listing_pages base_url pages _ _) as [[urls'|e] trace'].
      * destruct IH as (linkss & Hall & -> & ->). exists (links :: linkss).
        split; [constructor; assumption|]. split.
        -- simpl. rewrite fold_left_app. reflexivity.
        -- simpl. rewrite <- !app_assoc. reflexivity.
      * destruct IH as (before & k & after & linkss & -> & Hall & Hk & ->).
        exists (page :: before), k, after, (links :: linkss).
        split; [reflexivity|]. split; [constructor; assumption|].
        split; [exact Hk|]. simpl. rewrite <- !app_assoc. reflexivity.
    + exists [], page, pages, []. split; [reflexivity|].
      split; [constructor|]. split; [exact Hpage|]. reflexivity.
Qed.

(** And the other way round: pages whose links can all be joined are all
    gone through. *)
Lemma listing_pages_returns base_url pages linkss urls trace :
  Forall2 (fun page links => links_on base_url page = Returns links) pages linkss ->
  listing_pages base_url pages urls trace
  = (Returns (List.fold_left add_url (List.concat linkss) urls),
     (trace ++ List.concat (List.map (page_events base_url) pages))%list).
Proof.
  intros Hall. revert urls trace.
  induction Hall as [|page links pages linkss Hpage _ IH]; intros urls trace.
  - simpl. rewrite app_nil_r. reflexivity.
  - rewrite listing_pages_cons, Hpage, IH. simpl.
    rewrite fold_left_app, <- !app_assoc. reflexivity.
Qed.





(** The listing that returns, from the loop. *)
Lemma listing_returned base_url max_pages urls :
  scrape_property_listings base_url max_pages = Returns urls ->
  exists linkss,
    Forall2 (fun page links => links_on base_url page = Returns links)
            (range 1 (max_pages + 1)) linkss
    /\ urls = List.fold_left add_url (List.concat linkss) [].
Proof.
  unfold PropertyScraper.scrape_property_listings,
    PropertyScraper.scrape_property_listings_traced.
  pose proof (listing_pages_spec base_url (range 1 (max_pages + 1)) [] []) as Hspec.
  destruct (listing_pages _ _ _ _) as [[urls'|e] trace]; simpl; [|discriminate].
  intros [= <-]. destruct Hspec as (linkss & Hall & Hurls & _). eauto.
Qed.

Lemma listing_NoDup base_url max_pages urls :
  scrape_property_listings base_url max_pages = Returns urls -> NoDup urls.
Proof.
  intros (linkss & _ & ->)%listing_returned. apply add_urls_spec. constructor.
Qed.


(** *** The tasks *)

#[local] Abbreviation scrape_property :=
  (scrape_property urljoin now fetch_page fetch_page_selenium self).
#[local] Abbreviation scrape_transactions :=
  (scrape_transactions fetch_page fetch_page_selenium self).
#[local] Abbreviation resume :=
  (resume urljoin now fetch_page fetch_page_selenium self).
#[local] Abbreviation advance :=
  (advance urljoin now fetch_page fetch_page_selenium self).
#[local] Abbreviation step :=
  (step urljoin now fetch_page fetch_page_selenium self).
#[local] Abbreviation reachable :=
  (reachable urljoin now fetch_page fetch_page_selenium self).
#[local] Abbreviation start := (start self).
#[local] Abbreviation outcome_of :=
  (outcome_of urljoin now fetch_page fetch_page_selenium self).
#[local] Abbreviation gate_holds := (gate_holds self).
#[local] Abbreviation fetched := (fetched fetch_page fetch_page_selenium self).

Lemma advance_inv i s s' :
  advance i s = Some s' ->
  (exists url,
      tasks s !! i = Some (Pending url) /\ 0 < permits s
      /\ s' = {| permits := permits s - 1;
                 tasks := <[i := Fetching url]> (tasks s);
                 raised := raised s |})
  \/ (exists t,
        tasks s !! i = Some t /\ in_flight t = true
        /\ s' = {| permits := if in_flight (resume t) then permits s
                              else permits s + 1;
                   tasks := <[i := resume t]> (tasks s);
                   raised := match raised s, resume t with
                             | None, Finished (Raises e) => Some e
                             | r, _ => r
                             end |}).
Proof.
  unfold PropertyScraper.advance. destruct (tasks s !! i) as [t|] eqn:Ht; [|discriminate].
  destruct t; try discriminate.
  - destruct (0 <? permits s) eqn:Hp; [|discriminate].
    intros [= <-]. left. exists url. apply Z.ltb_lt in Hp. auto.
  - intros [= <-]. right. eexists. eauto.
  - intros [= <-]. right. eexists. eauto.
  - intros [= <-]. right. eexists. eauto.
Qed.

Lemma flying_insert ts i t t' :
  ts !! i = Some t ->
  (length (List.filter in_flight (<[i := t']> ts))
   + (if in_flight t then 1 else 0)
   = length (List.filter in_flight ts) + (if in_flight t' then 1 else 0))%nat.
Proof.
  revert i. induction ts as [|a ts IH]; intros [|i] Hi; try discriminate.
  - injection Hi as ->. simpl. destruct (in_flight t), (in_flight t'); simpl; lia.
  - simpl in Hi. specialize (IH i Hi). simpl.
    destruct (in_flight a); simpl; lia.
Qed.

Lemma work_insert ts i t t' :
  ts !! i = Some t ->
  (list_sum (List.map work (<[i := t']> ts)) + work t
   = list_sum (List.map work ts) + work t')%nat.
Proof.
  revert i. induction ts as [|a ts IH]; intros [|i] Hi; try discriminate.
  - injection Hi as ->. simpl. lia.
  - simpl in Hi. specialize (IH i Hi). simpl. lia.
Qed.

Lemma start_flying urls : flying (start urls) = 0%nat.
Proof.
  unfold flying. simpl. induction urls; simpl; auto.
Qed.

Lemma gate_start urls : gate_holds (start urls).
Proof.
  unfold gate_holds. rewrite start_flying. simpl. lia.
Qed.

Lemma gate_step s s' : step s s' -> gate_holds s -> gate_holds s'.
Proof.
  intros [i Hadv] [Hsum Hpos]. unfold gate_holds, flying in *.
  apply advance_inv in Hadv as [(url & Hi & Hp & ->)|(t & Hi & Hfl & ->)]; simpl.
  - pose proof (flying_insert _ _ _ (Fetching url) Hi) as Hc. simpl in Hc. lia.
  - pose proof (flying_insert _ _ _ (resume t) Hi) as Hc. rewrite Hfl in Hc.
    destruct (in_flight (resume t)); lia.
Qed.

Lemma gate_reachable urls s : reachable urls s -> gate_holds s.
Proof.
  unfold PropertyScraper.reachable. intros Hr.
  apply (rtc_ind_r (R := step) gate_holds (start urls));
    [apply gate_start| |exact Hr].
  intros y z _ Hstep IH. exact (gate_step y z Hstep IH).
Qed.

(** C7.  With a capacity of at least one, at no point of a run of
    [scrape_all] are more tasks past the semaphore, fetching a page or
    working through the transactions, than the capacity allows, however many
    addresses there are; the free places and the tasks in flight always add
    up to the capacity. *)
Theorem bounded_concurrency urls s :
  1 <= max_concurrent self ->
  reachable urls s ->
  Z.of_nat (flying s) <= max_concurrent self
  /\ Z.of_nat (flying s) = max_concurrent self - permits s.
Proof.
  intros Hk Hr. destruct (gate_reachable urls s Hr) as [Hsum Hpos]. lia.
Qed.

(** *** Every run comes to an end *)

Lemma work_next_child property_obj todo :
  work (next_child property_obj todo) = (2 * length todo)%nat.
Proof. destruct todo; simpl; lia. Qed.

Lemma resume_work t : in_flight t = true -> (work (resume t) < work t)%nat.
Proof.
  destruct t as [url|url|p u rest|p u rest|r]; try discriminate; intros _;
    unfold PropertyScraper.resume.
  - destruct (fetch url) as [[|c html]|]; simpl; try lia.
    destruct (parse_property_page _ _ _ _) as [[p urls]|e]; simpl; [|lia].
    rewrite work_next_child, length_take. lia.
  - simpl. lia.
  - destruct (fetch u) as [[|c html]|]; rewrite ?work_next_child; simpl; try lia.
    destruct (parse_transaction_page _ _) as [tr|e]; rewrite ?work_next_child;
      simpl; lia.
Qed.

Lemma step_work s s' : step s s' -> (total_work s' < total_work s)%nat.
Proof.
  intros [i Hadv]. unfold total_work.
  apply advance_inv in Hadv as [(url & Hi & Hp & ->)|(t & Hi & Hfl & ->)]; simpl.
  - pose proof (work_insert _ _ _ (Fetching url) Hi) as Hw. simpl in Hw. lia.
  - pose proof (work_insert _ _ _ (resume t) Hi) as Hw.
    pose proof (resume_work t Hfl). lia.
Qed.

Lemma tasks_cases ts :
  (exists i t, ts !! i = Some t /\ in_flight t = true)
  \/ (List.filter in_flight ts = []
      /\ (Forall (fun t => finished t = true) ts
          \/ exists i url, ts !! i = Some (Pending url))).
Proof.
  induction ts as [|a ts IH]; [right; split; [reflexivity|left; constructor]|].
  destruct (in_flight a) eqn:Ha; [left; exists 0%nat, a; auto|].
  destruct IH as [(i & t & Hi & Ht)|[Hnone Hrest]]; [left; exists (S i), t; auto|].
  right. split; [simpl; rewrite Ha; assumption|].
  destruct a; try discriminate.
  - right. exists 0%nat, url. reflexivity.
  - destruct Hrest as [Hall|(i & url & Hi)]; [left; constructor; auto|].
    right. exists (S i), url. assumption.
Qed.

Lemma advance_in_flight i s t :
  tasks s !! i = Some t -> in_flight t = true -> exists s', advance i s = Some s'.
Proof.
  intros Hi Ht. unfold PropertyScraper.advance. rewrite Hi.
  destruct t; try discriminate; eauto.
Qed.

(** With a capacity of at least one, a crawl with an unfinished task has a
    task that can run. *)
Lemma progress s :
  1 <= max_concurrent self -> gate_holds s ->
  complete s \/ exists s', step s s'.
Proof.
  intros Hk [Hsum Hpos].
  destruct (tasks_cases (tasks s)) as [(i & t & Hi & Ht)|[Hnone Hrest]].
  - right. destruct (advance_in_flight i s t Hi Ht) as [s' Hs']. exists s', i.
    exact Hs'.
  - destruct Hrest as [Hall|(i & url & Hi)]; [left; exact Hall|].
    right. unfold flying in Hsum. rewrite Hnone in Hsum. simpl in Hsum.
    assert (Hp : (0 <? permits s) = true) by (apply Z.ltb_lt; lia).
    eexists. exists i. unfold PropertyScraper.advance. rewrite Hi, Hp. reflexivity.
Qed.

Lemma completion_from n s :
  (total_work s < n)%nat ->
  1 <= max_concurrent self -> gate_holds s ->
  exists s', rtc step s s' /\ complete s'.
Proof.
  revert s. induction n as [|n IH]; intros s Hn Hk Hg; [lia|].
  destruct (progress s Hk Hg) as [Hc|(s1 & Hstep)].
  - exists s. split; [apply rtc_refl|exact Hc].
  - pose proof (step_work s s1 Hstep) as Hw.
    destruct (IH s1) as (s' & Hrun & Hc);
      [lia|exact Hk|exact (gate_step s s1 Hstep Hg)|].
    exists s'. split; [eapply rtc_l; eassumption|exact Hc].
Qed.

(** *** What the tasks return *)

Lemma outcome_next_child property_obj todo :
  outcome_of (next_child property_obj todo)
  = (property_obj ← scrape_transactions property_obj todo;
     Returns (Some property_obj)).
Proof. destruct todo; reflexivity. Qed.

Lemma resume_outcome t : outcome_of (resume t) = outcome_of t.
Proof.
  destruct t as [url|url|p u rest|p u rest|r]; try reflexivity.
  - unfold PropertyScraper.resume. cbn [outcome_of].
    unfold PropertyScraper.scrape_property.
    destruct (fetch url) as [[|c html]|]; try reflexivity.
    destruct (parse_property_page _ _ _ _) as [[p urls]|e]; [|reflexivity].
    apply outcome_next_child.
  - unfold PropertyScraper.resume. cbn [outcome_of PropertyScraper.scrape_transactions].
    destruct (fetch u) as [[|c html]|]; try apply outcome_next_child.
    destruct (parse_transaction_page _ _) as [tr|e]; [|reflexivity].
    apply outcome_next_child.
Qed.

Lemma map_insert_same {A B} (f : A -> B) ts i t t' :
  ts !! i = Some t -> f t' = f t ->
  List.map f (<[i := t']> ts) = List.map f ts.
Proof.
  revert i. induction ts as [|a ts IH]; intros [|i] Hi Hf; try discriminate.
  - injection Hi as ->. simpl. congruence.
  - simpl. f_equal. apply IH; assumption.
Qed.

Lemma step_outcome s s' :
  step s s' ->
  List.map outcome_of (tasks s') = List.map outcome_of (tasks s).
Proof.
  intros [i Hadv].
  apply advance_inv in Hadv as [(url & Hi & Hp & ->)|(t & Hi & Hfl & ->)]; simpl.
  - eapply map_insert_same; [eassumption|reflexivity].
  - eapply map_insert_same; [eassumption|apply resume_outcome].
Qed.

Lemma reachable_outcome urls s :
  reachable urls s ->
  List.map outcome_of (tasks s) = List.map scrape_property urls.
Proof.
  unfold PropertyScraper.reachable. intros Hr.
  apply (rtc_ind_r (R := step)
           (fun s => List.map outcome_of (tasks s) = List.map scrape_property urls)
           (start urls)); [| |exact Hr].
  - simpl. rewrite List.map_map. reflexivity.
  - intros y z _ Hstep IH. rewrite (step_outcome y z Hstep). exact IH.
Qed.

Lemma finished_tasks ts :
  Forall (fun t => finished t = true) ts ->
  ts = List.map Finished (List.map outcome_of ts).
Proof.
  induction 1 as [|t ts Ht _ IH]; [reflexivity|].
  simpl. rewrite <- IH. destruct t; try discriminate. reflexivity.
Qed.

(** In a crawl that is complete, each task holds what [scrape_property]
    returns for its own address. *)
Lemma complete_tasks urls s :
  reachable urls s -> complete s ->
  tasks s = List.map (fun url => Finished (scrape_property url)) urls.
Proof.
  intros Hr Hc. rewrite (finished_tasks _ Hc), (reachable_outcome urls s Hr).
  apply List.map_map.
Qed.

(** *** One property and its transactions *)

Lemma transactions_set l p :
  Property.transactions (Property.set_transactions l p) = l.
Proof. destruct p; reflexivity. Qed.

Lemma url_set_transactions l p :
  Property.url (Property.set_transactions l p) = Property.url p.
Proof. destruct p; reflexivity. Qed.

Lemma set_transactions_twice l l' p :
  Property.set_transactions l' (Property.set_transactions l p)
  = Property.set_transactions l' p.
Proof. destruct p; reflexivity. Qed.

Lemma set_transactions_same p :
  Property.set_transactions (Property.transactions p) p = p.
Proof. destruct p; reflexivity. Qed.

(** The loop over the transaction pages adds, to the transactions that the
    record has, one for each address that is fetched, in the order of the
    addresses, and leaves the rest of the record as it is. *)
Lemma scrape_transactions_spec todo p p' :
  scrape_transactions p todo = Returns p' ->
  exists children,
    p' = Property.set_transactions (Property.transactions p ++ children)%list p
    /\ List.map Transaction.url children
       = List.map Some (List.filter fetched todo).
Proof.
  revert p. induction todo as [|u rest IH]; intros p; simpl.
  - intros [= <-]. exists []. rewrite app_nil_r.
    split; [symmetry; apply set_transactions_same|reflexivity].
  - unfold fetched at 1. destruct (fetch u) as [[|c html]|] eqn:Hu; simpl.
    + exact (IH p).
    + intros Hr. apply bind_returns in Hr as (tr & Htr & Hr).
      destruct (IH _ Hr) as (children & -> & Hurls).
      apply parse_transaction_page_fresh in Htr as [Hurl _].
      exists (tr :: children). unfold append_transaction.
      rewrite transactions_set, set_transactions_twice, <- app_assoc. simpl.
      split; [reflexivity|]. congruence.
    + exact (IH p).
Qed.

Lemma scrape_property_None url :
  fetched url = false -> scrape_property url = Returns None.
Proof.
  unfold fetched, PropertyScraper.scrape_property.
  destruct (fetch url) as [[|c html]|]; [reflexivity|discriminate|reflexivity].
Qed.

(** A task that returns a record has fetched its page and parsed it; the
    record is that of the page with the transactions that were fetched. *)
Lemma scrape_property_Some url p :
  scrape_property url = Returns (Some p) ->
  fetched url = true
  /\ exists html p0 transaction_urls,
       fetch url = Some html
       /\ parse_property_page urljoin now html url = Returns (p0, transaction_urls)
       /\ p = Property.set_transactions (Property.transactions p) p0
       /\ Property.url p = url
       /\ List.map Transaction.url (Property.transactions p)
          = List.map Some (List.filter fetched (take 5 transaction_urls)).
Proof.
  unfold fetched, PropertyScraper.scrape_property.
  destruct (fetch url) as [[|c html]|]; try discriminate.
  intros Hr. split; [reflexivity|].
  apply bind_returns in Hr as ([p0 urls] & Hpage & Hr).
  apply bind_returns in Hr as (p1 & Hloop & Hr). injection Hr as ->.
  destruct (scrape_transactions_spec _ _ _ Hloop) as (children & -> & Hurls).
  destruct (parse_property_page_fresh _ _ _ _ _ _ Hpage) as (Hurl & Hnone & _).
  exists (String c html), p0, urls. rewrite Hnone in *. simpl in *.
  rewrite transactions_set, url_set_transactions.
  repeat split; assumption.
Qed.

Lemma scrape_property_Returns url r :
  scrape_property url = Returns r ->
  match r with
  | Some p => fetched url = true /\ Property.url p = url
  | None => fetched url = false
  end.
Proof.
  destruct r as [p|].
  - intros Hr. apply scrape_property_Some in Hr as (Hf & _ & _ & _ & _ & _ & _ & Hu & _).
    auto.
  - destruct (fetched url) eqn:Hf; [|reflexivity].
    unfold fetched, PropertyScraper.scrape_property in *.
    destruct (fetch url) as [[|c html]|]; try discriminate.
    intros Hr. apply bind_returns in Hr as ([p0 urls] & _ & Hr).
    apply bind_returns in Hr as (p1 & _ & Hr). discriminate.
Qed.

(** *** What the crawl gathers *)

Lemma mapM_returns {A B} (f : A -> outcome B) l rs :
  mapM f l = Returns rs -> Forall2 (fun a r => f a = Returns r) l rs.
Proof.
  revert rs. induction l as [|a l IH]; intros rs; simpl.
  - intros [= <-]. constructor.
  - intros Hr. apply bind_returns in Hr as (r & Ha & Hr).
    apply bind_returns in Hr as (rs' & Hl & Hr). injection Hr as <-.
    constructor; auto.
Qed.

Lemma mapM_raises {A B} (f : A -> outcome B) l e :
  mapM f l = Raises e -> exists a, In a l /\ f a = Raises e.
Proof.
  induction l as [|a l IH]; simpl; [discriminate|].
  destruct (f a) as [r|e'] eqn:Ha; simpl.
  - destruct (mapM f l) as [rs|e'']; simpl; [discriminate|].
    intros [= <-]. destruct IH as (a' & Hin & Ha'); eauto.
  - intros [= <-]. eauto.
Qed.

(** The records of the addresses that were fetched, and no other. *)
Lemma keep_found_urls urls rs :
  Forall2 (fun url r => scrape_property url = Returns r) urls rs ->
  List.map Property.url (keep_found rs) = List.filter fetched urls.
Proof.
  induction 1 as [|url r urls rs Hr _ IH]; [reflexivity|].
  apply scrape_property_Returns in Hr. unfold keep_found in *. simpl.
  destruct r as [p|].
  - destruct Hr as [-> <-]. simpl. f_equal. exact IH.
  - rewrite Hr. exact IH.
Qed.

Lemma elem_of_insert_other {A} (x t t' : A) (ts : list A) (i : nat) :
  x ∈ ts -> ts !! i = Some t -> x <> t -> x ∈ <[i := t']> ts.
Proof.
  intros Hx Hi Hne. apply list_elem_of_lookup in Hx as [j Hj].
  apply list_elem_of_lookup. exists j.
  rewrite list_lookup_insert_ne; [assumption|]. congruence.
Qed.

Lemma raised_step s s' : step s s' -> raised_ok s -> raised_ok s'.
Proof.
  intros [i Hadv] Hok. unfold raised_ok in *.
  apply advance_inv in Hadv as [(url & Hi & Hp & ->)|(t & Hi & Hfl & ->)]; simpl.
  - destruct (raised s) as [e|].
    + eapply elem_of_insert_other; [eassumption..|discriminate].
    + apply Forall_insert; [assumption|]. discriminate.
  - destruct (raised s) as [e|].
    + eapply elem_of_insert_other; [eassumption..|].
      intros <-. discriminate.
    + assert (Hi' : (i < length (tasks s))%nat) by (eapply lookup_lt_Some; eauto).
      destruct (resume t) as [| | | |[r|e]] eqn:Hres;
        try (apply Forall_insert; [assumption|discriminate]).
      apply list_elem_of_lookup. exists i. apply list_lookup_insert_eq, Hi'.
Qed.

Lemma raised_reachable urls s : reachable urls s -> raised_ok s.
Proof.
  unfold PropertyScraper.reachable. intros Hr.
  apply (rtc_ind_r (R := step) raised_ok (start urls)); [| |exact Hr].
  - unfold raised_ok. simpl. apply Forall_forall. intros t Ht e ->.
    apply list_elem_of_In, in_map_iff in Ht as (u & Hu & _). discriminate.
  - intros y z _ Hstep IH. exact (raised_step y z Hstep IH).
Qed.

Lemma gather_returns rs :
  mapM (fun t => match t with
                 | Finished (Returns r) => Some r
                 | _ => None
                 end)
       (List.map (fun r : option Property.t => Finished (Returns r)) rs)
  = Some rs.
Proof. induction rs as [|r rs IH]; [reflexivity|]. simpl. rewrite IH. reflexivity. Qed.

(** When every task returns, the complete crawl gathers the results in the
    order of the addresses, whatever the order in which the tasks ran. *)
Lemma gathered_returns urls s rs :
  reachable urls s -> complete s ->
  mapM scrape_property urls = Returns rs ->
  gathered s = Some (Returns (keep_found rs)).
Proof.
  intros Hr Hc Hrs. pose proof (complete_tasks urls s Hr Hc) as Hts.
  apply mapM_returns in Hrs.
  assert (Htasks : tasks s = List.map (fun r => Finished (Returns r)) rs).
  { rewrite Hts. clear -Hrs. induction Hrs as [|u r us rs Hu _ IH]; [reflexivity|].
    simpl. rewrite Hu, IH. reflexivity. }
  pose proof (raised_reachable urls s Hr) as Hok.
  unfold gathered, raised_ok in *. destruct (raised s) as [e|].
  - rewrite Htasks in Hok. apply list_elem_of_In, in_map_iff in Hok as (r & Hr' & _).
    discriminate.
  - rewrite Htasks, gather_returns. reflexivity.
Qed.

(** When a task raises, the complete crawl has raised, with the exception
    of one of its tasks. *)
Lemma gathered_raises urls s e :
  reachable urls s -> complete s ->
  mapM scrape_property urls = Raises e ->
  exists e' url, gathered s = Some (Raises e')
                 /\ In url urls /\ scrape_property url = Raises e'.
Proof.
  intros Hr Hc Hrs. pose proof (complete_tasks urls s Hr Hc) as Hts.
  apply mapM_raises in Hrs as (u & Hu & He).
  pose proof (raised_reachable urls s Hr) as Hok.
  unfold gathered, raised_ok in *. destruct (raised s) as [e'|].
  - rewrite Hts in Hok. apply list_elem_of_In, in_map_iff in Hok as (u' & Hu' & Hin).
    exists e', u'. split; [reflexivity|]. split; [assumption|]. congruence.
  - rewrite Forall_forall in Hok. exfalso. apply (Hok (Finished (Raises e))) with e.
    + rewrite Hts. apply list_elem_of_In, in_map_iff. exists u. split; [congruence|assumption].
    + reflexivity.
Qed.

(** *** The claims about a run *)

Lemma run_reachable schedule s : rtc step s (run urljoin now fetch_page fetch_page_selenium self schedule s).
Proof.
  revert s. induction schedule as [|i rest IH]; intros s; [apply rtc_refl|].
  simpl. destruct (advance i s) as [s'|] eqn:Hadv; simpl; [|apply IH].
  eapply rtc_l; [exists i; exact Hadv|apply IH].
Qed.

Lemma filter_sublist {A} (f : A -> bool) (l : list A) :
  List.filter f l `sublist_of` l.
Proof.
  induction l as [|a l IH]; simpl; [constructor|].
  destruct (f a); [apply sublist_skip|apply sublist_cons]; exact IH.
Qed.

Lemma filter_split {A} (f : A -> bool) (l : list A) :
  (length (List.filter f l) + length (List.filter (fun a => negb (f a)) l)
   = length l)%nat.
Proof.
  induction l as [|a l IH]; simpl; [reflexivity|].
  destruct (f a); simpl; lia.
Qed.

(** The children of a record: one for each of the first five links whose
    page is fetched, in the order of the links. *)
Lemma children_of url p :
  scrape_property url = Returns (Some p) ->
  exists html p0 transaction_urls,
    fetch url = Some html
    /\ parse_property_page urljoin now html url = Returns (p0, transaction_urls)
    /\ p = Property.set_transactions (Property.transactions p) p0
    /\ List.map Transaction.url (Property.transactions p)
       = List.map Some (List.filter fetched (take 5 transaction_urls))
    /\ (length (Property.transactions p)
        + length (List.filter (fun u => negb (fetched u)) (take 5 transaction_urls))
        = length (take 5 transaction_urls))%nat.
Proof.
  intros Hr.
  apply scrape_property_Some in Hr as (_ & html & p0 & urls & Hf & Hp & Hset & _ & Hch).
  exists html, p0, urls. repeat (split; [assumption|]).
  rewrite <- (filter_split fetched (take 5 urls)). f_equal.
  rewrite <- (length_map Transaction.url), Hch, length_map. reflexivity.
Qed.

(** C6.  Failure isolation, for a capacity of at least one.  Whatever has
    failed, a run does not get stuck before every task has returned, each
    step brings it nearer to that, and it can always be brought there.  At
    the end each task holds the result of [scrape_property] on its own
    address, a task whose page could not be fetched holds [None], and when
    no task has raised the records gathered are those of the addresses that
    were fetched, one for each, in their order.  A record that a task
    returns is the record of its page with one transaction for each of the
    first five links that could be fetched: as many fewer than were tried
    as fetches failed, and the parent is kept. *)
Theorem failure_isolation urls s :
  1 <= max_concurrent self ->
  reachable urls s ->
  (complete s \/ exists s', step s s')
  /\ (forall s', step s s' -> (total_work s' < total_work s)%nat)
  /\ (exists s', rtc step s s' /\ complete s')
  /\ (complete s ->
      tasks s = List.map (fun url => Finished (scrape_property url)) urls
      /\ (forall (i : nat) url,
            urls !! i = Some url -> fetched url = false ->
            tasks s !! i = Some (Finished (Returns None)))
      /\ (forall rs,
            mapM scrape_property urls = Returns rs ->
            gathered s = Some (Returns (keep_found rs))
            /\ List.map Property.url (keep_found rs) = List.filter fetched urls))
  /\ (forall url p,
        scrape_property url = Returns (Some p) ->
        exists html p0 transaction_urls,
          fetch url = Some html
          /\ parse_property_page urljoin now html url
             = Returns (p0, transaction_urls)
          /\ p = Property.set_transactions (Property.transactions p) p0
          /\ List.map Transaction.url (Property.transactions p)
             = List.map Some (List.filter fetched (take 5 transaction_urls))
          /\ (length (Property.transactions p)
              + length (List.filter (fun u => negb (fetched u))
                          (take 5 transaction_urls))
              = length (take 5 transaction_urls))%nat).
Proof.
  intros Hk Hr. pose proof (gate_reachable urls s Hr) as Hgate.
  split; [exact (progress s Hk Hgate)|]. split; [exact (step_work s)|].
  split; [|split].
  - apply (completion_from (S (total_work s))); [lia|exact Hk|exact Hgate].
  - intros Hc. pose proof (complete_tasks urls s Hr Hc) as Hts.
    split; [exact Hts|]. split.
    + intros i url Hi Hf. rewrite Hts.
      change (List.map ?f urls) with (f <$> urls).
      rewrite list_lookup_fmap, Hi. simpl.
      rewrite (scrape_property_None url Hf). reflexivity.
    + intros rs Hrs. split; [exact (gathered_returns urls s rs Hr Hc Hrs)|].
      apply keep_found_urls, mapM_returns, Hrs.
  - exact children_of.
Qed.

(** C9.  A record that a task has returned, at any point of any run, has at
    most five transactions, and they stand in the order in which their
    links stand in the page of the property: their addresses are those of
    the first five links that were fetched, a sublist of the links. *)
Theorem children_capped urls s (i : nat) p :
  reachable urls s ->
  tasks s !! i = Some (Finished (Returns (Some p))) ->
  (length (Property.transactions p) <= 5)%nat
  /\ exists url html p0 transaction_urls,
       urls !! i = Some url
       /\ fetch url = Some html
       /\ parse_property_page urljoin now html url = Returns (p0, transaction_urls)
       /\ List.map Transaction.url (Property.transactions p)
          = List.map Some (List.filter fetched (take 5 transaction_urls))
       /\ List.map Transaction.url (Property.transactions p)
          `sublist_of` List.map Some transaction_urls.
Proof.
  intros Hr Hi.
  assert (Hout : exists url, urls !! i = Some url
                             /\ scrape_property url = Returns (Some p)).
  { pose proof (reachable_outcome urls s Hr) as Hmap.
    assert (Hl : (List.map outcome_of (tasks s)) !! i
                 = Some (Returns (Some p))).
    { change (List.map ?f (tasks s)) with (f <$> tasks s).
      rewrite list_lookup_fmap, Hi. reflexivity. }
    rewrite Hmap in Hl. change (List.map ?f urls) with (f <$> urls) in Hl.
    rewrite list_lookup_fmap in Hl.
    destruct (urls !! i) as [url|]; [|discriminate].
    exists url. split; [reflexivity|]. simpl in Hl. congruence. }
  destruct Hout as (url & Hu & Hsp).
  destruct (children_of url p Hsp) as (html & p0 & turls & Hf & Hp & _ & Hch & Hlen).
  split.
  - pose proof (length_take turls 5). lia.
  - exists url, html, p0, turls. repeat (split; [assumption|]).
    rewrite Hch. change (List.map Some ?l) with (Some <$> l).
    apply fmap_sublist. transitivity (take 5 turls);
      [apply filter_sublist|apply sublist_take].
Qed.

(** [scrape_all] gives what the run of its schedule gathers. *)
Lemma scrape_all_runs schedule base_url max_pages max_properties listing :
  scrape_property_listings base_url max_pages = Returns listing ->
  0 <= max_concurrent self ->
  exists s,
    reachable (slice_to max_properties listing) s
    /\ scrape_all urljoin now fetch_page fetch_page_selenium self schedule
         base_url max_pages max_properties = gathered s.
Proof.
  intros Hl Hk. unfold scrape_all. rewrite Hl.
  destruct (max_concurrent self <? 0) eqn:Hneg; [apply Z.ltb_lt in Hneg; lia|].
  eexists. split; [apply run_reachable|reflexivity].
Qed.

(** The records that a crawl gathers have pairwise distinct addresses. *)
Lemma crawl_records_distinct base_url max_pages max_properties listing s properties :
  scrape_property_listings base_url max_pages = Returns listing ->
  reachable (slice_to max_properties listing) s ->
  complete s ->
  gathered s = Some (Returns properties) ->
  NoDup (List.map Property.url properties).
Proof.
  set (urls := slice_to _ _). intros Hl Hr Hc Hg.
  destruct (mapM scrape_property urls) as [rs|e] eqn:Hrs.
  - rewrite (gathered_returns urls s rs Hr Hc Hrs) in Hg. injection Hg as <-.
    rewrite (keep_found_urls urls rs (mapM_returns _ _ _ Hrs)).
    apply (sublist_NoDup _ urls); [|apply filter_sublist].
    pose proof (listing_NoDup base_url max_pages listing Hl) as Hnd.
    unfold urls, slice_to.
    destruct (0 <=? max_properties);
      (eapply sublist_NoDup; [exact Hnd|apply sublist_take]).
  - destruct (gathered_raises urls s e Hr Hc Hrs) as (e' & _ & He' & _).
    congruence.
Qed.

End CrawlFacts.

(** ** Facts about the result sink *)

Section SinkFacts.

Lemma parent_row_keys p :
  get "url" (pop "transactions" (asdict p)) = Some (VStr (Property.url p))
  /\ get "property_id" (pop "transactions" (asdict p))
     = Some (VStr (Property.property_id p))
  /\ get "transactions" (pop "transactions" (asdict p)) = None.
Proof. repeat split. Qed.

Lemma child_row_keys (id url : value) t :
  let row := set "property_url" url (set "property_id" id (asdict_transaction t)) in
  get "property_id" row = Some id /\ get "property_url" row = Some url.
Proof. split; reflexivity. Qed.

Lemma in_transactions_data child properties :
  In child (transactions_data properties) ->
  exists prop trans,
    In prop properties /\ In trans (Property.transactions prop)
    /\ child = set "property_url" (VStr (Property.url prop))
                 (set "property_id" (VStr (Property.property_id prop))
                    (asdict_transaction trans)).
Proof.
  unfold transactions_data. rewrite in_flat_map. intros (prop & Hp & Hc).
  apply in_map_iff in Hc as (trans & <- & Ht). eauto.
Qed.

Lemma flat_map_rows {A B} (f : A -> list B) (l : list A) :
  length (List.flat_map f l) = list_sum (List.map (fun a => length (f a)) l).
Proof.
  induction l as [|a l IH]; [reflexivity|].
  cbn [List.flat_map List.map list_sum]. rewrite length_app, IH. reflexivity.
Qed.

Lemma length_transactions_data properties :
  length (transactions_data properties)
  = list_sum (List.map (fun p => length (Property.transactions p)) properties).
Proof.
  unfold transactions_data. rewrite flat_map_rows. f_equal.
  apply List.map_ext. intros p. apply length_map.
Qed.

Lemma no_transactions_data properties :
  transactions_data properties = []
  <-> Forall (fun p => Property.transactions p = []) properties.
Proof.
  induction properties as [|p ps IH].
  - split; [constructor|reflexivity].
  - change (transactions_data (p :: ps))
      with (List.map (fun trans =>
                        set "property_url" (VStr (Property.url p))
                          (set "property_id" (VStr (Property.property_id p))
                             (asdict_transaction trans)))
              (Property.transactions p) ++ transactions_data ps)%list.
    rewrite Forall_cons, <- IH. split.
    + intros [Hm Hr]%app_eq_nil. split; [|exact Hr].
      destruct (Property.transactions p); [reflexivity|discriminate].
    + intros [-> ->]. reflexivity.
Qed.

Lemma properties_data_lookup properties (j : nat) row :
  properties_data properties !! j = Some row ->
  exists p, properties !! j = Some p /\ row = pop "transactions" (asdict p).
Proof.
  unfold properties_data. change (List.map ?f properties) with (f <$> properties).
  rewrite list_lookup_fmap. destruct (properties !! j) as [p|]; [|discriminate].
  intros [= <-]. eauto.
Qed.

(** C8, amended.  For records with pairwise distinct addresses, as a crawl
    gives them: the parent table has one row for each record, without the
    [transactions] column; the child table has one row for each transaction
    of each record; each child row carries the identifier and the address
    of its record and refers to exactly one parent row.  Each table is
    written to its file when it has a row.  The document of the JSON file
    counts the records and holds them with their transactions. *)
Theorem tables_of_distinct_records properties properties_file transactions_file
    now filename :
  NoDup (List.map Property.url properties) ->
  tables_round_trip properties
  /\ save_to_csv properties properties_file transactions_file
     = (write_rows properties_file (properties_data properties)
        ++ write_rows transactions_file (transactions_data properties))%list
  /\ (properties <> [] ->
      In (properties_file, Csv (properties_data properties))
         (save_to_csv properties properties_file transactions_file))
  /\ (transactions_data properties <> [] ->
      In (transactions_file, Csv (transactions_data properties))
         (save_to_csv properties properties_file transactions_file))
  /\ save_to_json now properties filename
     = [(filename,
         Json (VDict
                 [("scraped_at", VStr now);
                  ("total_properties", VInt (Z.of_nat (length properties)));
                  ("properties",
                    VList (List.map (fun p => VDict (asdict p)) properties))]))]
  /\ Forall (fun p =>
               get "transactions" (asdict p)
               = Some (VList (List.map (fun t => VDict (asdict_transaction t))
                                (Property.transactions p))))
            properties.
Proof.
  intros Hnd. split; [|split; [reflexivity|split; [|split; [|split]]]].
  - unfold tables_round_trip. cbv zeta. split; [apply length_map|].
    split.
    { unfold properties_data. apply Forall_forall. intros row Hrow.
      apply list_elem_of_In, in_map_iff in Hrow as (p & <- & _). reflexivity. }
    split; [apply length_transactions_data|].
    apply Forall_forall. intros child Hchild.
    apply list_elem_of_In, in_transactions_data in Hchild
      as (prop & trans & Hprop & _ & ->).
    apply list_elem_of_In, list_elem_of_lookup in Hprop as [j Hj].
    exists j. split.
    + exists (pop "transactions" (asdict prop)). split.
      * unfold properties_data. change (List.map ?f properties) with (f <$> properties).
        rewrite list_lookup_fmap, Hj. reflexivity.
      * split; reflexivity.
    + intros j' parent' Hj' [_ Hurl].
      apply properties_data_lookup in Hj' as (p' & Hp' & ->).
      assert (Hsame : Property.url p' = Property.url prop).
      { destruct (parent_row_keys p') as (Hu & _ & _).
        destruct (child_row_keys (VStr (Property.property_id prop))
                    (VStr (Property.url prop)) trans) as [_ Hc].
        cbv zeta in Hc. rewrite Hc, Hu in Hurl. congruence. }
      eapply NoDup_lookup; [exact Hnd| |].
      * change (List.map ?f properties) with (f <$> properties).
        rewrite list_lookup_fmap, Hp'. reflexivity.
      * change (List.map ?f properties) with (f <$> properties).
        rewrite list_lookup_fmap, Hj. simpl. congruence.
  - intros Hne. unfold save_to_csv. apply in_or_app. left.
    destruct properties; [congruence|]. left. reflexivity.
  - intros Hne. unfold save_to_csv. apply in_or_app. right.
    destruct (transactions_data properties); [congruence|]. left. reflexivity.
  - reflexivity.
  - apply Forall_forall. intros p _. reflexivity.
Qed.

(** C10.  With no record at all, [save_to_json] still writes its file, a
    document with a count of zero and an empty list of records, while
    [save_to_csv] writes neither of its two files.  In general each of the
    two tables is written exactly when it has a row. *)
Theorem empty_result_files now filename properties_file transactions_file :
  save_to_json now [] filename
  = [(filename,
      Json (VDict [("scraped_at", VStr now);
                   ("total_properties", VInt 0);
                   ("properties", VList [])]))]
  /\ save_to_csv [] properties_file transactions_file = []
  /\ forall properties,
       save_to_csv properties properties_file transactions_file
       = (match properties with
          | [] => []
          | _ => [(properties_file, Csv (properties_data properties))]
          end
          ++ match transactions_data properties with
             | [] => []
             | rows => [(transactions_file, Csv rows)]
             end)%list.
Proof.
  split; [reflexivity|]. split; [reflexivity|].
  intros properties. unfold save_to_csv, write_rows. f_equal.
  - destruct properties; reflexivity.
  - destruct (transactions_data properties); reflexivity.
Qed.

End SinkFacts.

(** ** The claims on the small site *)

Section OnTheSite.
Import Site.

Lemma first_strategy_wins_witness :
  let soup := BeautifulSoup "<property 101>" in
  let p := new_property now (host ++ "/property-101") "101" in
  cell_after soup (Regex "Sell\s*Price" false) = Some "HKD$5.8M"
  /\ "HKD$5.8M" <> EmptyString
  /\ extract_sell_price soup p = sell_price_method1 soup p.
Proof.
  split; [reflexivity|]. split; [discriminate|].
  apply (proj1 (first_strategy_wins (H := soup) (H0 := regex))
           (BeautifulSoup "<property 101>") _ "HKD$5.8M");
    [reflexivity|discriminate].
Defined.

Lemma price_projection_examples_witness :
  exists p urls,
    parse_property_page urljoin now "<property 101>" (host ++ "/property-101")
    = Returns (p, urls)
    /\ parse_price_to_millions (Property.sell_price p)
       = Returns (Property.sell_price_millions p).
Proof.
  eexists. eexists. split; [vm_compute; reflexivity|].
  destruct (price_projection_examples (H := soup) (H0 := regex) urljoin now)
    as (_ & _ & _ & _ & _ & Hpage & _).
  refine (proj1 (Hpage "<property 101>" (host ++ "/property-101") _ _ _)).
  vm_compute; reflexivity.
Defined.



Lemma bounded_concurrency_witness :
  let self := settings 2 in
  let s := crawl_of 2 [0; 1; 2; 0]%nat in
  1 <= max_concurrent self
  /\ reachable urljoin now fetch_page fetch_page self addresses s
  /\ flying s = 2%nat
  /\ Z.of_nat (flying s) <= max_concurrent self.
Proof.
  split; [simpl; lia|]. split; [apply run_reachable|].
  split; [vm_compute; reflexivity|].
  apply (bounded_concurrency urljoin now fetch_page fetch_page (settings 2)
           addresses); [simpl; lia|apply run_reachable].
Defined.

Lemma failure_isolation_witness :
  let self := settings 2 in
  let s := crawl_of 2 in_turn in
  1 <= max_concurrent self
  /\ reachable urljoin now fetch_page fetch_page self addresses s
  /\ fetched fetch_page fetch_page self (host ++ "/property-102") = false
  /\ tasks s !! 1%nat = Some (Finished (Returns None))
  /\ tasks s
     = List.map (fun url => Finished (scrape_property urljoin now fetch_page
                                        fetch_page self url))
         addresses.
Proof.
  split; [simpl; lia|]. split; [apply run_reachable|].
  split; [reflexivity|]. split; [vm_compute; reflexivity|].
  apply (failure_isolation urljoin now fetch_page fetch_page (settings 2)
           addresses (crawl_of 2 in_turn)); [simpl; lia|apply run_reachable|].
  apply Forall_forall. intros t Ht.
  vm_compute in Ht.
  repeat (apply elem_of_cons in Ht as [->|Ht]; [reflexivity|]).
  apply elem_of_nil in Ht. destruct Ht.
Defined.

Lemma children_capped_witness :
  let self := settings 2 in
  let s := crawl_of 2 in_turn in
  reachable urljoin now fetch_page fetch_page self addresses s
  /\ exists p,
       tasks s !! 0%nat = Some (Finished (Returns (Some p)))
       /\ length (Property.transactions p) = 4%nat
       /\ (length (Property.transactions p) <= 5)%nat.
Proof.
  split; [apply run_reachable|].
  eexists. split; [vm_compute; reflexivity|]. split; [reflexivity|].
  eapply (children_capped urljoin now fetch_page fetch_page (settings 2)
            addresses (crawl_of 2 in_turn) 0%nat);
    [apply run_reachable|vm_compute; reflexivity].
Defined.

(** The same record twice: the row of its transaction refers to two rows of
    the parent table. *)
Lemma duplicate_records_share_rows : ~ tables_round_trip [flat; flat].
Proof.
  intros (_ & _ & _ & Hone).
  apply Forall_inv in Hone as (j & _ & Huniq).
  assert (H0 : (0 = j)%nat) by (apply (Huniq 0%nat _ eq_refl); split; reflexivity).
  assert (H1 : (1 = j)%nat) by (apply (Huniq 1%nat _ eq_refl); split; reflexivity).
  congruence.
Qed.

Lemma tables_of_distinct_records_witness :
  NoDup (List.map Property.url [flat; house])
  /\ tables_round_trip [flat; house].
Proof.
  assert (Hnd : NoDup (List.map Property.url [flat; house])).
  { apply NoDup_cons. split; [|apply NoDup_singleton].
    intros Hin. apply list_elem_of_singleton in Hin. vm_compute in Hin.
    discriminate Hin. }
  split; [exact Hnd|].
  apply (tables_of_distinct_records [flat; house] "properties.csv"
           "transactions.csv" now "properties.json" Hnd).
Defined.

(** The two examples that the specification gives for the parser: the
    breadcrumb, and the header of a transaction. *)
Example breadcrumb_example :
  extract_breadcrumb_location (BeautifulSoup "<property 101>")
  = (Some "Islands/Tung Chung/Seaview Crescent", Some "Seaview Crescent").
Proof. vm_compute; reflexivity. Qed.

Example header_example :
  let t := extract_header (BeautifulSoup "<deal>") (new_transaction "") in
  Transaction.property_full_name t = "City One Shatin, Flat H, Low, Block 30"
  /\ Transaction.estate_name t = "City One Shatin"
  /\ Transaction.flat_info t = "Flat H, Low, Block 30".
Proof. vm_compute. auto. Qed.

(** The page of property 104 shows ["N.A."] for the price: parsing it raises,
    and so does the task, and the crawl that includes it. *)
Lemma crawl_raises :
  scrape_property urljoin now fetch_page fetch_page (settings 2)
    (host ++ "/property-104")
  = Raises (ValueError "could not convert string to float: '.'")
  /\ scrape_all urljoin now fetch_page fetch_page (settings 2)
       (List.concat (List.repeat [0; 1; 2; 3]%nat 14)) base_url 2 20
     = Some (Raises (ValueError "could not convert string to float: '.'")).
Proof. split; vm_compute; reflexivity. Qed.

End OnTheSite.

(** ** More on the projection of a price *)

Section ProjectionMore.

(** A text that is all of one kind stays so when [HKD] and the dollar sign
    are taken out of it, and when it is stripped; and when the kind holds
    what is taken away, nothing of another kind is lost. *)
Lemma remove_hkd_all (q : ascii -> bool) :
  q "H"%char = true -> q "K"%char = true -> q "D"%char = true ->
  q "$"%char = true ->
  forall s k,
    all_chars q (String.substring 0 k s) = true ->
    all_chars q (remove_hkd_from k s) = all_chars q s.
Proof.
  intros HH HK HD Hdollar. induction s as [|c r IH]; intros k Hk.
  { destruct k; reflexivity. }
  destruct k as [|k].
  - cbn [remove_hkd_from].
    destruct (String.prefix "HKD$" (String c r)) eqn:E4.
    { apply String.prefix_correct in E4. simpl in E4.
      injection E4 as -> E4. rewrite (IH 3%nat).
      - cbn [all_chars]. rewrite HH. reflexivity.
      - rewrite E4. simpl. rewrite HK, HD, Hdollar. reflexivity. }
    destruct (String.prefix "HKD" (String c r)) eqn:E3.
    { apply String.prefix_correct in E3. simpl in E3.
      injection E3 as -> E3. rewrite (IH 2%nat).
      - cbn [all_chars]. rewrite HH. reflexivity.
      - rewrite E3. simpl. rewrite HK, HD. reflexivity. }
    cbn [all_chars]. rewrite (IH 0%nat); [reflexivity|destruct r; reflexivity].
  - cbn [remove_hkd_from all_chars]. simpl in Hk.
    apply andb_prop in Hk as [Hc Hk]. rewrite Hc. apply IH, Hk.
Qed.

Lemma lstrip_all (q : ascii -> bool) s :
  (forall c, isspace c = true -> q c = true) ->
  all_chars q (lstrip s) = all_chars q s.
Proof.
  intros Hq. induction s as [|c r IH]; [reflexivity|]. simpl.
  destruct (isspace c) eqn:Hc; [|reflexivity].
  rewrite IH, (Hq c Hc). reflexivity.
Qed.

Lemma rstrip_all (q : ascii -> bool) s :
  (forall c, isspace c = true -> q c = true) ->
  all_chars q (rstrip s) = all_chars q s.
Proof.
  intros Hq. induction s as [|c r IH]; [reflexivity|]. cbn [rstrip all_chars].
  rewrite <- IH. destruct (rstrip r) as [|d r'].
  - destruct (isspace c) eqn:Hc; simpl; [rewrite (Hq c Hc)|];
      rewrite ?andb_true_r; reflexivity.
  - reflexivity.
Qed.

Lemma cleaned_all (q : ascii -> bool) s :
  q "H"%char = true -> q "K"%char = true -> q "D"%char = true ->
  q "$"%char = true -> (forall c, isspace c = true -> q c = true) ->
  all_chars q (strip (remove_hkd s)) = all_chars q s.
Proof.
  intros HH HK HD Hdollar Hq. unfold strip, remove_hkd.
  rewrite (rstrip_all q _ Hq), (lstrip_all q _ Hq).
  apply remove_hkd_all; try assumption. destruct s; reflexivity.
Qed.


Lemma span_spec p s :
  all_chars p (fst (span p s)) = true /\ fst (span p s) ++ snd (span p s) = s.
Proof.
  split; [|apply span_app].
  induction s as [|c r IH]; [reflexivity|]. simpl.
  destruct (p c) eqn:Hc; [|reflexivity].
  destruct (span p r) as [a b]. simpl in *. rewrite Hc. exact IH.
Qed.

Lemma all_chars_app_l q a b : all_chars q (a ++ b) = true -> all_chars q a = true.
Proof. rewrite all_chars_app. intros [Ha _]%andb_prop. exact Ha. Qed.

Lemma price_search_none t :
  price_search t = None <-> all_chars (fun c => negb (is_num_char c)) t = true.
Proof.
  induction t as [|c r IH]; [split; reflexivity|]. cbn [price_search all_chars].
  destruct (is_num_char c).
  - destruct (span is_num_char (String c r)). split; discriminate.
  - exact IH.
Qed.

(** The first group is a run of digits and dots of the text. *)
Lemma price_search_some t g1 g2 :
  price_search t = Some (g1, g2) ->
  g1 <> EmptyString /\ all_chars is_num_char g1 = true
  /\ forall q, all_chars q t = true -> all_chars q g1 = true.
Proof.
  induction t as [|c r IH]; [discriminate|]. cbn [price_search].
  destruct (is_num_char c) eqn:Hc.
  - pose proof (span_spec is_num_char (String c r)) as [Hall Happ].
    destruct (span is_num_char (String c r)) as [a b] eqn:Hspan.
    intros [= <- _]. simpl in Hall, Happ. split; [|split].
    + simpl in Hspan. rewrite Hc in Hspan.
      destruct (span is_num_char r). injection Hspan as <- _. discriminate.
    + exact Hall.
    + intros q Hq. rewrite <- Happ in Hq. eapply all_chars_app_l, Hq.
  - intros Hr. destruct (IH Hr) as (Hne & Hnum & Hsub).
    split; [exact Hne|]. split; [exact Hnum|].
    intros q [_ Hq]%andb_prop. apply Hsub, Hq.
Qed.

Lemma split_dot_none s :
  all_chars (fun c => negb (Ascii.eqb c ".")) s = true ->
  split_dot s = (s, None).
Proof.
  induction s as [|c r IH]; [reflexivity|]. simpl.
  intros [Hc Hr]%andb_prop. apply negb_true_iff in Hc. rewrite Hc, (IH Hr).
  reflexivity.
Qed.

Lemma digits_of_num s :
  all_chars is_num_char s = true ->
  all_chars (fun c => negb (Ascii.eqb c ".")) s = true ->
  all_digits s = true.
Proof.
  unfold all_digits. induction s as [|c r IH]; [reflexivity|]. simpl.
  intros [Hc Hr]%andb_prop [Hd Hr']%andb_prop. rewrite (IH Hr Hr').
  unfold is_num_char in Hc. apply negb_true_iff in Hd. rewrite Hd in Hc.
  rewrite orb_false_r in Hc. rewrite Hc. reflexivity.
Qed.

(** [float] reads every numeral without a dot. *)
Lemma float_of_digits s :
  s <> EmptyString -> all_chars is_num_char s = true ->
  all_chars (fun c => negb (Ascii.eqb c ".")) s = true ->
  exists v, float_of_str s = Returns v.
Proof.
  intros Hne Hnum Hdot. unfold float_of_str.
  rewrite (split_dot_none _ Hdot), (digits_of_num _ Hnum Hdot).
  destruct s as [|c r]; [congruence|]. simpl. eexists. reflexivity.
Qed.

Lemma float_of_str_raises s e :
  float_of_str s = Raises e ->
  e = ValueError ("could not convert string to float: '" ++ s ++ "'").
Proof.
  unfold float_of_str. destruct (split_dot s) as [i f].
  destruct (_ && _); [discriminate|]. intros [= <-]. reflexivity.
Qed.

Lemma contains_char c s :
  contains (String c EmptyString) s
  = negb (all_chars (fun d => negb (Ascii.eqb d c)) s).
Proof.
  induction s as [|d r IH]; [reflexivity|].
  cbn [contains String.prefix all_chars]. rewrite IH.
  destruct (ascii_dec c d) as [<-|Hn].
  - rewrite Ascii.eqb_refl. destruct r; reflexivity.
  - rewrite (proj2 (Ascii.eqb_neq d c)) by congruence. reflexivity.
Qed.

(** X1.  The projection gives [None] for a text exactly when the text
    holds no digit and no dot; the empty text is one of these. *)
Theorem no_number_no_value s :
  parse_price_to_millions (Some s) = Returns None
  <-> all_chars (fun c => negb (is_num_char c)) s = true.
Proof.
  destruct s as [|c0 r0]; [split; reflexivity|].
  set (s := String c0 r0). rewrite (parse_price_truthy s) by discriminate.
  rewrite <- (cleaned_all (fun c => negb (is_num_char c)) s)
    by (reflexivity || (intros c Hc; destruct (is_num_char c) eqn:Hn;
                        [rewrite (num_char_not_space _ Hn) in Hc; discriminate
                        |reflexivity])).
  rewrite <- price_search_none.
  destruct (price_search (strip (remove_hkd s))) as [[g1 g2]|]; [|split; reflexivity].
  split; [|discriminate].
  destruct (float_of_str g1); simpl; [|discriminate].
  destruct (truthy g2); discriminate.
Qed.

(** X2.  The projection raises only on a text that holds a dot, and then
    it raises the [ValueError] of [float]: on every text it either returns,
    or the text holds a dot and [float] has refused the run of digits and
    dots that was found.  A text without a dot never makes it raise. *)
Theorem raises_only_on_a_dot s :
  (exists r, parse_price_to_millions (Some s) = Returns r)
  \/ (contains "." s = true
      /\ exists g,
           parse_price_to_millions (Some s)
           = Raises (ValueError ("could not convert string to float: '" ++ g ++ "'"))).
Proof.
  destruct s as [|c0 r0]; [left; eexists; reflexivity|].
  set (s := String c0 r0). rewrite (parse_price_truthy s) by discriminate.
  destruct (price_search (strip (remove_hkd s))) as [[g1 g2]|] eqn:Hs;
    [|left; eexists; reflexivity].
  destruct (float_of_str g1) as [v|e] eqn:Hf.
  { left. simpl. destruct (truthy g2); eexists; reflexivity. }
  right. destruct (price_search_some _ _ _ Hs) as (Hne & Hnum & Hsub). split.
  - rewrite (contains_char "."). apply negb_true_iff.
    destruct (all_chars _ s) eqn:Hdot; [|reflexivity].
    rewrite <- (cleaned_all _ s) in Hdot
      by (reflexivity || (intros c Hc; destruct c as [[] [] [] [] [] [] [] []];
                          (reflexivity || discriminate Hc))).
    destruct (float_of_digits _ Hne Hnum (Hsub _ Hdot)) as [v Hv]. congruence.
  - exists g1. simpl. rewrite (float_of_str_raises _ _ Hf). reflexivity.
Qed.


Lemma remove_hkd_keeps a x :
  all_chars (fun c => negb (Ascii.eqb c "H")) a = true ->
  remove_hkd_from 0 (a ++ x) = a ++ remove_hkd_from 0 x.
Proof.
  induction a as [|c r IH]; [reflexivity|].
  intros [Hc Hr]%andb_prop. apply negb_true_iff, Ascii.eqb_neq in Hc.
  change (String c r ++ x) with (String c (r ++ x)).
  cbn [remove_hkd_from String.prefix].
  destruct (ascii_dec "H" c) as [<-|_]; [congruence|].
  rewrite (IH Hr). reflexivity.
Qed.

Lemma rstrip_cons c s : isspace c = false -> rstrip (String c s) = String c (rstrip s).
Proof. intros Hc. cbn [rstrip]. rewrite Hc. destruct (rstrip s); reflexivity. Qed.

Lemma rstrip_app a y : rstrip y <> EmptyString -> rstrip (a ++ y) = a ++ rstrip y.
Proof.
  intros Hy. induction a as [|c r IH]; [reflexivity|].
  change (String c r ++ y) with (String c (r ++ y)). cbn [rstrip]. rewrite IH.
  destruct (r ++ rstrip y) eqn:E; [|simpl; rewrite E; reflexivity].
  destruct r; [simpl in E; congruence|discriminate].
Qed.

Lemma lstrip_spaces w s : all_chars isspace w = true -> lstrip (w ++ s) = lstrip s.
Proof.
  induction w as [|c r IH]; [reflexivity|]. simpl.
  intros [Hc Hr]%andb_prop. rewrite Hc. apply IH, Hr.
Qed.

Lemma num_no_H s :
  all_chars is_num_char s = true ->
  all_chars (fun c => negb (Ascii.eqb c "H")) s = true.
Proof.
  induction s as [|c r IH]; [reflexivity|]. simpl.
  intros [Hc Hr]%andb_prop. rewrite (num_char_not_H _ Hc), (IH Hr). reflexivity.
Qed.

Lemma lstrip_numeral r x :
  r <> EmptyString -> all_chars is_num_char r = true -> lstrip (r ++ x) = r ++ x.
Proof.
  destruct r as [|c r]; [congruence|]. intros _ [Hc _]%andb_prop.
  apply (lstrip_num c (r ++ x) Hc).
Qed.

(** X3.  What stands after the number is passed over, unless it begins with
    white space, a digit, a dot, the letter [M] or the letter [H]: the
    number is taken for dollars.  So an amount with commas is read as the
    digits before its first comma. *)
Theorem text_after_the_number r v c t :
  float_of_str r = Returns v ->
  is_num_char c = false -> isspace c = false ->
  c <> "M"%char -> c <> "m"%char -> c <> "H"%char ->
  parse_price_to_millions (Some (r ++ String c t))
  = Returns (Some (fdiv v million)).
Proof.
  intros Hv Hnum Hsp HM Hm HH.
  destruct (float_of_str_returns_num _ _ Hv) as [Hr Hne].
  rewrite parse_price_truthy by (destruct r; [congruence|discriminate]).
  unfold remove_hkd, strip.
  rewrite (remove_hkd_keeps r _ (num_no_H _ Hr)).
  cbn [remove_hkd_from String.prefix].
  destruct (ascii_dec "H" c) as [<-|_]; [congruence|].
  rewrite (lstrip_numeral _ _ Hne Hr).
  rewrite rstrip_app by (rewrite (rstrip_cons _ _ Hsp); discriminate).
  rewrite (rstrip_cons _ _ Hsp).
  rewrite (price_search_num r _ Hr Hne) by exact Hnum.
  rewrite Hv. unfold magnitude_group. cbn [lstrip]. rewrite Hsp.
  rewrite (proj2 (Ascii.eqb_neq c "M") HM), (proj2 (Ascii.eqb_neq c "m") Hm).
  reflexivity.
Qed.

(** X4.  The magnitude is known by its first letter alone: after the
    number and any white space, a text that begins with [M] or [m] makes
    the number one of millions, whatever the rest of the text. *)
Theorem magnitude_by_first_letter r v w m t :
  float_of_str r = Returns v ->
  all_chars isspace w = true ->
  m = "M"%char \/ m = "m"%char ->
  parse_price_to_millions (Some (r ++ w ++ String m t)) = Returns (Some v).
Proof.
  intros Hv Hw Hm.
  destruct (float_of_str_returns_num _ _ Hv) as [Hr Hne].
  assert (Hmsp : isspace m = false) by (destruct Hm as [-> | ->]; reflexivity).
  assert (HmH : (m =? "H")%char = false) by (destruct Hm as [-> | ->]; reflexivity).
  assert (HwH : all_chars (fun c => negb (Ascii.eqb c "H")) w = true).
  { clear - Hw. induction w as [|c w IH]; [reflexivity|]. simpl in *.
    apply andb_prop in Hw as [Hc Hw]. rewrite (IH Hw), andb_true_r.
    destruct c as [[] [] [] [] [] [] [] []]; (reflexivity || discriminate Hc). }
  rewrite parse_price_truthy by (destruct r; [congruence|discriminate]).
  unfold remove_hkd, strip.
  rewrite (remove_hkd_keeps r _ (num_no_H _ Hr)), (remove_hkd_keeps w _ HwH).
  cbn [remove_hkd_from String.prefix].
  destruct (ascii_dec "H" m) as [<-|_]; [discriminate HmH|].
  rewrite (lstrip_numeral _ _ Hne Hr).
  assert (Htail : rstrip (String m (remove_hkd_from 0 t)) <> EmptyString)
    by (rewrite (rstrip_cons _ _ Hmsp); discriminate).
  rewrite rstrip_app by (rewrite rstrip_app by exact Htail;
                         destruct w; [exact Htail|discriminate]).
  rewrite rstrip_app by exact Htail. rewrite (rstrip_cons _ _ Hmsp).
  rewrite (price_search_num r _ Hr Hne).
  2:{ destruct w as [|c w]; simpl.
      - destruct Hm as [-> | ->]; reflexivity.
      - simpl in Hw. apply andb_prop in Hw as [Hc _].
        destruct (is_num_char c) eqn:Hn; [|reflexivity].
        rewrite (num_char_not_space _ Hn) in Hc. discriminate. }
  rewrite Hv. unfold magnitude_group. rewrite (lstrip_spaces _ _ Hw).
  cbn [lstrip]. rewrite Hmsp.
  destruct Hm as [-> | ->]; reflexivity.
Qed.


Lemma round_not_negative m e l :
  SFltb (binary_round_aux prec emax false m e l) (S754_zero false) = false.
Proof.
  unfold binary_round_aux. destruct (shr_fexp _ _ _ _ _) as [mrs e'].
  destruct (shr_fexp _ _ _ _ _) as [mrs' e''].
  destruct (shr_m mrs'); [reflexivity| |reflexivity].
  destruct (e'' <=? emax - prec); reflexivity.
Qed.

Lemma float_of_int_not_negative n :
  0 <= n -> SFltb (float_of_int n) (S754_zero false) = false.
Proof.
  intros Hn. unfold float_of_int, binary_normalize.
  destruct n as [|p|p]; [reflexivity| |lia].
  unfold binary_round. destruct (shl_align _ _ _). apply round_not_negative.
Qed.

Lemma fdiv_not_negative x p e :
  SFltb x (S754_zero false) = false ->
  SFltb (fdiv x (S754_finite false p e)) (S754_zero false) = false.
Proof.
  intros Hx. unfold fdiv, SFdiv.
  destruct x as [sx|sx| |sx mx ex]; try reflexivity.
  - destruct sx; [discriminate Hx|reflexivity].
  - destruct sx; [discriminate Hx|].
    destruct (SFdiv_core_binary _ _ _ _ _ _) as [[mz ez] lz].
    apply round_not_negative.
Qed.

Lemma digits_val_not_negative s acc :
  all_digits s = true -> 0 <= acc -> 0 <= digits_val acc s.
Proof.
  unfold all_digits. revert acc. induction s as [|c r IH]; intros acc; simpl;
    [intros _ Hacc; exact Hacc|].
  intros [Hc Hr]%andb_prop Hacc. apply (IH _ Hr).
  unfold isdigit in Hc. apply andb_prop in Hc as [Hlo _].
  apply N.leb_le in Hlo. unfold digit_val. lia.
Qed.

Lemma float_of_str_not_negative s v :
  float_of_str s = Returns v -> SFltb v (S754_zero false) = false.
Proof.
  unfold float_of_str. destruct (split_dot s) as [i f].
  set (f' := match f with Some f' => f' | None => EmptyString end).
  destruct (all_digits i) eqn:Hi; [|discriminate].
  destruct (all_digits f') eqn:Hf; [|discriminate].
  destruct (negb _); [|discriminate]. simpl. intros [= <-].
  destruct f' as [|c r] eqn:Ef.
  - apply float_of_int_not_negative, digits_val_not_negative; [exact Hi|lia].
  - unfold float_of_ratio10. destruct (digits_val 0 _); try reflexivity.
    apply (fdiv_not_negative (S754_finite false p 0)). reflexivity.
Qed.

(** X16.  The projection is never below zero: a sign before the number is
    not read.  Whatever the text, a value that is returned is not less than
    [0]. *)
Theorem never_below_zero s v :
  parse_price_to_millions (Some s) = Returns (Some v) ->
  SFltb v (float_of_int 0) = false.
Proof.
  destruct s as [|c0 r0]; [discriminate|].
  rewrite parse_price_truthy by discriminate.
  destruct (price_search _) as [[g1 g2]|]; [|discriminate].
  destruct (float_of_str g1) as [v0|e] eqn:Hf; simpl; [|discriminate].
  pose proof (float_of_str_not_negative _ _ Hf) as Hv0.
  destruct (truthy g2); intros [= <-]; [exact Hv0|].
  apply (fdiv_not_negative v0 _ _ Hv0).
Qed.

End ProjectionMore.

(** ** More on the page parser *)

Section ParserMore.
Context `{bs4.api} `{re.api}.

Lemma string_app_assoc (a b c : string) : (a ++ b) ++ c = a ++ b ++ c.
Proof. induction a as [|x a IH]; simpl; congruence. Qed.

Lemma join_last sep (a : string) l :
  exists x,
    List.last (List.map Some (a :: l)) None = Some x
    /\ In x (a :: l)
    /\ (join sep (a :: l) = x \/ exists before, join sep (a :: l) = before ++ sep ++ x).
Proof.
  revert a. induction l as [|b l IH]; intros a.
  - exists a. split; [reflexivity|]. split; [left; reflexivity|left; reflexivity].
  - destruct (IH b) as (x & Hlast & Hin & Hjoin). exists x.
    split; [exact Hlast|]. split; [right; exact Hin|]. right.
    change (join sep (a :: b :: l)) with (a ++ sep ++ join sep (b :: l)).
    destruct Hjoin as [-> | [before ->]].
    + exists a. reflexivity.
    + exists (a ++ sep ++ before).
      rewrite !string_app_assoc. reflexivity.
Qed.

(** X5.  The breadcrumb gives a location and an estate together or neither
    of them.  The estate is the last segment of the location; it is not
    empty, not one character long, not a number, and none of the words of
    the navigation ([Home], [Buy Property], [Property Info], [Buy],
    [Property], [Sell]). *)
Theorem breadcrumb_shape soup :
  match extract_breadcrumb_location soup with
  | (Some location, Some estate) =>
      (location = estate \/ exists before, location = before ++ "/" ++ estate)
      /\ (1 < String.length estate)%nat
      /\ str_isdigit estate = false
      /\ ~ In estate ["Home"; "Buy Property"; "Property Info"; "Buy";
                      "Property"; "Sell"]
  | (None, None) => True
  | _ => False
  end.
Proof.
  unfold extract_breadcrumb_location.
  destruct (or_else _ _) as [breadcrumb|]; [|exact I].
  destruct (List.filter keep_part _) as [|a l] eqn:Hparts; [exact I|].
  destruct (join_last "/" a l) as (x & -> & Hin & Hjoin).
  rewrite <- Hparts in Hin. apply filter_In in Hin as [_ Hkeep].
  unfold keep_part in Hkeep.
  apply andb_prop in Hkeep as [Hkeep Hdigit].
  apply andb_prop in Hkeep as [Hkeep Hlen].
  apply andb_prop in Hkeep as [_ Hex].
  split; [exact Hjoin|]. split; [apply Nat.ltb_lt, Hlen|].
  split; [apply negb_true_iff, Hdigit|].
  intros Hx. apply negb_true_iff in Hex.
  assert (Hy : existsb (String.eqb x) exclude = true).
  { apply existsb_exists. exists x. split; [exact Hx|apply String.eqb_refl]. }
  congruence.
Qed.


Lemma split_one sep a :
  all_chars (fun c => negb (Ascii.eqb c sep)) a = true -> Py.split sep a = [a].
Proof.
  induction a as [|c r IH]; [reflexivity|]. simpl.
  intros [Hc Hr]%andb_prop. apply negb_true_iff in Hc.
  rewrite Hc, (IH Hr). reflexivity.
Qed.

Lemma split_app sep a b :
  all_chars (fun c => negb (Ascii.eqb c sep)) a = true ->
  Py.split sep (a ++ String sep b) = a :: Py.split sep b.
Proof.
  induction a as [|c r IH]; simpl.
  - intros _. rewrite Ascii.eqb_refl. reflexivity.
  - intros [Hc Hr]%andb_prop. apply negb_true_iff in Hc.
    rewrite Hc, (IH Hr). reflexivity.
Qed.

Lemma join_cons sep a b l :
  join sep (a :: b :: l) = a ++ sep ++ join sep (b :: l).
Proof. reflexivity. Qed.

(** The parts of a text that was joined with a comma and a space. *)
Lemma split_join estate parts :
  Forall (fun x => all_chars (fun c => negb (Ascii.eqb c ",")) x = true)
         (estate :: parts) ->
  Py.split "," (join ", " (estate :: parts))
  = estate :: List.map (String " ") parts.
Proof.
  revert estate. induction parts as [|p ps IH]; intros estate Hall.
  - inversion Hall; subst. apply split_one. assumption.
  - inversion Hall as [|? ? He Hrest]; subst.
    inversion Hrest as [|? ? Hp Hps]; subst.
    rewrite join_cons. change (", " ++ ?x) with (String "," (String " " x)).
    rewrite (split_app _ _ _ He). f_equal.
    replace (String " " (join ", " (p :: ps)))
      with (join ", " (String " " p :: ps)) by (destruct ps; reflexivity).
    rewrite IH; [reflexivity|]. constructor; [exact Hp|exact Hps].
Qed.

Lemma strip_after_space x : strip x = x -> strip (String " " x) = x.
Proof. intros Hx. unfold strip in *. exact Hx. Qed.

(** X17.  The header of a transaction page is taken apart without loss
    when it is the estate and then parts of a flat, each with one of the
    keywords, joined by a comma and a space: the estate and the parts come
    back as they were, and the estate, a comma, a space and the flat
    information make the full name again.  (A part without a keyword is
    left out of the flat information.) *)
Theorem header_round_trip soup header t estate parts :
  or_else (bs4.find soup (tag "h1"))
          (bs4.find soup (tag_attr "div" "class" (Equals "property-title")))
  = Some header ->
  bs4.get_text header EmptyString true = join ", " (estate :: parts) ->
  parts <> [] ->
  Forall (fun x => strip x = x /\ contains "," x = false) (estate :: parts) ->
  Forall (fun part => existsb (fun keyword => contains keyword part) keywords = true)
         parts ->
  let t' := extract_header soup t in
  Transaction.estate_name t' = estate
  /\ Transaction.flat_info t' = join ", " parts
  /\ Transaction.property_full_name t'
     = Transaction.estate_name t' ++ ", " ++ Transaction.flat_info t'.
Proof.
  intros Hfind Htext Hne Hclean Hkey.
  assert (Hcomma : Forall (fun x => all_chars (fun c => negb (Ascii.eqb c ",")) x = true)
                          (estate :: parts)).
  { eapply List.Forall_impl; [|exact Hclean]. intros x [_ Hx].
    rewrite contains_char in Hx. apply negb_false_iff, Hx. }
  assert (Hparts : List.filter
                     (fun part => existsb (fun keyword => contains keyword part) keywords)
                     (List.map strip (List.map (String " ") parts)) = parts).
  { inversion Hclean as [|? ? _ Hrest]; subst. clear - Hrest Hkey.
    induction parts as [|p ps IH]; [reflexivity|].
    inversion Hrest as [|? ? [Hp _] Hps]; subst.
    inversion Hkey as [|? ? Hk Hks]; subst.
    cbn [List.map List.filter]. rewrite (strip_after_space _ Hp), Hk.
    f_equal. exact (IH Hks Hps). }
  unfold extract_header. rewrite Hfind, Htext, (split_join _ _ Hcomma).
  inversion Hclean as [|? ? [He _] _]; subst.
  destruct parts as [|p ps]; [congruence|].
  cbn [List.map] in *. rewrite Hparts, He.
  destruct t. cbn. split; [reflexivity|]. split; reflexivity.
Qed.

Lemma delete_commas g :
  all_chars (fun c => isdigit c || Ascii.eqb c ",") g = true ->
  all_digits (Py.delete "," g) = true
  /\ (Py.delete "," g = EmptyString <-> all_chars (Ascii.eqb ",") g = true).
Proof.
  unfold Py.delete, all_digits.
  induction g as [|c r IH]; [split; [reflexivity|split; reflexivity]|].
  cbn [all_chars]. intros [Hc Hr]%andb_prop. destruct (IH Hr) as [Hd Hiff].
  cbn [Py.delete_from String.prefix].
  destruct (ascii_dec "," c) as [<-|Hn].
  - replace (String.prefix "" r) with true by (destruct r; reflexivity).
    cbn [String.length Nat.sub]. split; [exact Hd|exact Hiff].
  - assert (Hne : Ascii.eqb c "," = false) by (apply Ascii.eqb_neq; congruence).
    rewrite Hne, orb_false_r in Hc. cbn [all_chars]. rewrite Hc, Hd.
    split; [reflexivity|]. rewrite Ascii.eqb_sym, Hne. split; discriminate.
Qed.

Lemma int_digits_value s acc :
  s <> EmptyString -> all_digits s = true ->
  int_digits acc s = Some (digits_val acc s).
Proof.
  unfold all_digits. revert acc. induction s as [|c r IH]; intros acc Hne; [congruence|].
  cbn [all_chars]. intros [Hc Hr]%andb_prop. cbn [int_digits digits_val].
  rewrite Hc. destruct r as [|d r']; [reflexivity|].
  assert (Hd : isdigit d = true) by (simpl in Hr; apply andb_prop in Hr as [Hd _]; exact Hd).
  assert (Hgo : int_digits (10 * acc + digit_val c) (String d r')
                = Some (digits_val (10 * acc + digit_val c) (String d r')))
    by (apply IH; [discriminate|exact Hr]).
  destruct d as [[] [] [] [] [] [] [] []]; try discriminate Hd; exact Hgo.
Qed.

Lemma digit_run_digits s : all_digits s = true -> digit_run s = s.
Proof.
  unfold all_digits. induction s as [|c r IH]; [reflexivity|]. simpl.
  intros [Hc Hr]%andb_prop. rewrite Hc, (IH Hr). reflexivity.
Qed.

Lemma count_digits_digits s :
  all_digits s = true -> count_digits s = String.length s.
Proof.
  unfold all_digits. induction s as [|c r IH]; [reflexivity|]. simpl.
  intros [Hc Hr]%andb_prop. rewrite Hc, (IH Hr). reflexivity.
Qed.

(** [int] on a text of digits: the empty text is refused, and so is a text
    of more digits than the limit allows. *)
Lemma int_of_digits s :
  all_digits s = true ->
  int_of_str s
  = match s with
    | EmptyString => Raises (ValueError "invalid literal for int() with base 10: ''")
    | _ =>
        if (int_max_str_digits <? String.length s)%nat then
          Raises (ValueError
                    ("Exceeds the limit (4300 digits) for integer string conversion: value has "
                     ++ str_of_int (Z.of_nat (String.length s))
                     ++ " digits; use sys.set_int_max_str_digits() to increase the limit"))
        else Returns (digits_val 0 s)
    end.
Proof.
  intros Hs. destruct s as [|c r]; [reflexivity|].
  unfold int_of_str.
  assert (Hstrip : strip (String c r) = String c r).
  { unfold strip. rewrite (lstrip_num c r) by (apply digit_is_num_char;
      unfold all_digits in Hs; simpl in Hs; apply andb_prop in Hs as [Hc _]; exact Hc).
    apply rstrip_nonspace, num_nonspace, all_digits_num, Hs. }
  rewrite Hstrip.
  assert (Hc : isdigit c = true)
    by (unfold all_digits in Hs; simpl in Hs; apply andb_prop in Hs as [Hc _]; exact Hc).
  assert (Hsign : match String c r with
                  | String "-" r' => (true, r')
                  | String "+" r' => (false, r')
                  | _ => (false, String c r)
                  end = (false, String c r))
    by (destruct c as [[] [] [] [] [] [] [] []]; try discriminate Hc; reflexivity).
  rewrite Hsign, (digit_run_digits _ Hs), (count_digits_digits _ Hs).
  rewrite (int_digits_value (String c r) 0) by (discriminate || exact Hs).
  reflexivity.
Qed.

(** The limit at work: [int] reads 4300 zeros, and refuses 4301. *)
Example int_limit_example :
  int_of_str (zeros 4300) = Returns 0
  /\ int_of_str (zeros 4301)
     = Raises (ValueError
                 ("Exceeds the limit (4300 digits) for integer string conversion: "
                  ++ "value has 4301 digits; "
                  ++ "use sys.set_int_max_str_digits() to increase the limit")).
Proof. split; vm_compute; reflexivity. Qed.

(** X19.  The unit price of an area, the digits and commas after [@]: the
    commas are dropped and the digits are read as one number, as long as
    they are no more than the 4300 that [int] takes; where there are commas
    only, [int] is given the empty text and raises, and where there are
    more than 4300 digits it raises too: the page is not parsed. *)
Theorem unit_price_commas soup label set_sqft set_unit_price p p1 area_text g :
  cell_after soup (Regex label false) = Some area_text ->
  int_field "(\d+)\s*ft²" area_text id set_sqft p = Returns p1 ->
  re.search "@\s*([\d,]+)" false area_text = Some g ->
  all_chars (fun c => isdigit c || Ascii.eqb c ",") g = true ->
  extract_area soup label set_sqft set_unit_price p
  = if all_chars (Ascii.eqb ",") g then
      Raises (ValueError "invalid literal for int() with base 10: ''")
    else if (4300 <? String.length (Py.delete "," g))%nat then
      Raises (ValueError
                ("Exceeds the limit (4300 digits) for integer string conversion: value has "
                 ++ str_of_int (Z.of_nat (String.length (Py.delete "," g)))
                 ++ " digits; use sys.set_int_max_str_digits() to increase the limit"))
    else Returns (set_unit_price (Some (digits_val 0 (Py.delete "," g))) p1).
Proof.
  intros Hcell Hsqft Hsearch Hg. unfold extract_area. rewrite Hcell, Hsqft.
  cbn [mbind outcome_bind]. unfold int_field. rewrite Hsearch.
  destruct (delete_commas g Hg) as [Hd Hiff]. rewrite (int_of_digits _ Hd).
  destruct (all_chars (Ascii.eqb ",") g) eqn:Hall.
  - rewrite (proj2 Hiff eq_refl). reflexivity.
  - destruct (Py.delete "," g) as [|d ds] eqn:E;
      [discriminate (proj1 Hiff eq_refl)|].
    change int_max_str_digits with 4300%nat.
    destruct (4300 <? String.length (String d ds))%nat; reflexivity.
Qed.

End ParserMore.


(** ** More on the crawl *)

Section CrawlMore.
Context `{bs4.api} `{re.api}.
Variable urljoin : string -> string -> outcome string.
Variable now : string.
Variable fetch_page : string -> option string.
Variable fetch_page_selenium : string -> option string.
Variable self : config.

#[local] Abbreviation fetched := (fetched fetch_page fetch_page_selenium self).
#[local] Abbreviation listing_pages :=
  (listing_pages urljoin fetch_page fetch_page_selenium self).
#[local] Abbreviation links_on :=
  (links_on urljoin fetch_page fetch_page_selenium self).
#[local] Abbreviation page_events :=
  (page_events fetch_page fetch_page_selenium self).
#[local] Abbreviation scrape_property_listings_traced :=
  (scrape_property_listings_traced urljoin fetch_page fetch_page_selenium self).
#[local] Abbreviation scrape_property_listings :=
  (scrape_property_listings urljoin fetch_page fetch_page_selenium self).
#[local] Abbreviation scrape_property :=
  (scrape_property urljoin now fetch_page fetch_page_selenium self).
#[local] Abbreviation step := (step urljoin now fetch_page fetch_page_selenium self).
#[local] Abbreviation reachable :=
  (reachable urljoin now fetch_page fetch_page_selenium self).
#[local] Abbreviation start := (start self).


Lemma start_stuck urls i :
  max_concurrent self = 0 ->
  advance urljoin now fetch_page fetch_page_selenium self i (start urls) = None.
Proof.
  intros Hk. unfold advance, PropertyScraper.start. cbn [tasks permits].
  change (List.map Pending urls) with (Pending <$> urls).
  rewrite list_lookup_fmap. destruct (urls !! i); simpl; [|reflexivity].
  rewrite Hk. reflexivity.
Qed.

(** X7.  With [max_concurrent = 0] and at least one address, no task ever
    passes the semaphore: the crawl stays where it starts, it is not
    complete, and there is nothing to gather; [scrape_all] does not
    return. *)
Theorem no_capacity_no_progress urls s :
  max_concurrent self = 0 -> urls <> [] ->
  reachable urls s ->
  s = start urls
  /\ (forall s', ~ step s s')
  /\ ~ complete s
  /\ gathered s = None.
Proof.
  intros Hk Hne Hr.
  assert (Hnf : forall s', ~ step (start urls) s').
  { intros s' [i Hi]. rewrite (start_stuck urls i Hk) in Hi. discriminate. }
  assert (Hs : s = start urls).
  { unfold PropertyScraper.reachable in Hr. inversion Hr as [|? s1 ? Hstep _]; subst;
      [reflexivity|]. destruct (Hnf _ Hstep). }
  subst s. split; [reflexivity|]. split; [exact Hnf|].
  destruct urls as [|u urls]; [congruence|]. split.
  - intros Hc. inversion Hc as [|? ? Hf _]. discriminate.
  - reflexivity.
Qed.

Lemma mapM_one_raises {A B} (f : A -> outcome B) l a e :
  In a l -> f a = Raises e -> exists e', mapM f l = Raises e'.
Proof.
  induction l as [|b l IH]; intros Hin Ha; [destruct Hin|]. simpl.
  destruct (f b) as [r|e'] eqn:Hb; simpl; [|eexists; reflexivity].
  destruct Hin as [-> | Hin]; [congruence|].
  destruct (IH Hin Ha) as [e'' ->]. simpl. eexists. reflexivity.
Qed.

(** X8.  One page that makes its task raise loses the whole crawl: when
    [scrape_property] raises for one of the addresses, every complete run
    raises, with the exception of one of its tasks, and returns no record
    at all, not even those of the tasks that have returned. *)
Theorem one_failure_loses_all urls s url e :
  In url urls -> scrape_property url = Raises e ->
  reachable urls s -> complete s ->
  exists e' url',
    gathered s = Some (Raises e')
    /\ In url' urls /\ scrape_property url' = Raises e'.
Proof.
  intros Hin He Hr Hc.
  destruct (mapM_one_raises scrape_property urls url e Hin He) as [e' He'].
  eapply gathered_raises; eassumption.
Qed.

Lemma found_records urls rs :
  Forall2 (fun url r => scrape_property url = Returns r) urls rs ->
  Forall (fun p => In (Property.url p) urls
                   /\ fetched (Property.url p) = true
                   /\ (length (Property.transactions p) <= 5)%nat)
         (keep_found rs).
Proof.
  induction 1 as [|u r us rs' Hu _ IH]; [constructor|].
  assert (Hrest : Forall (fun p => In (Property.url p) (u :: us)
                                   /\ fetched (Property.url p) = true
                                   /\ (length (Property.transactions p) <= 5)%nat)
                         (keep_found rs')).
  { eapply List.Forall_impl; [|exact IH]. intros p (Hin & Hf & Hlen).
    split; [right; exact Hin|]. split; assumption. }
  destruct r as [p|]; [|exact Hrest]. constructor; [|exact Hrest].
  destruct (children_of _ _ _ _ _ u p Hu)
    as (html & p0 & turls & _ & _ & _ & _ & Hlen).
  pose proof (scrape_property_Returns _ _ _ _ _ u (Some p) Hu) as [Hf Hp].
  rewrite Hp. split; [left; reflexivity|]. split; [exact Hf|].
  pose proof (length_take turls 5). lia.
Qed.

Lemma In_take {A} n (l : list A) x : In x (take n l) -> In x l.
Proof.
  revert n. induction l as [|a l IH]; intros [|n]; simpl;
    try (intros Hx; exact (False_ind _ Hx)).
  intros [Hx|Hx]; [left; exact Hx|right; exact (IH n Hx)].
Qed.

Lemma In_slice_to {A} k (l : list A) x : In x (slice_to k l) -> In x l.
Proof. unfold slice_to. destruct (0 <=? k); apply In_take. Qed.

(** X9.  The bounds of a crawl.  With [max_properties] not negative, the
    records that a complete run returns are at most [max_properties]; they
    have different addresses, each an address of the listing whose page
    was fetched; and each has at most five transactions. *)
Theorem crawl_is_bounded base_url max_pages max_properties listing s properties :
  0 <= max_properties ->
  scrape_property_listings base_url max_pages = Returns listing ->
  reachable (slice_to max_properties listing) s ->
  complete s ->
  gathered s = Some (Returns properties) ->
  Z.of_nat (length properties) <= max_properties
  /\ NoDup (List.map Property.url properties)
  /\ Forall (fun p =>
               In (Property.url p) listing
               /\ fetched (Property.url p) = true
               /\ (length (Property.transactions p) <= 5)%nat)
            properties.
Proof.
  intros Hk Hl Hr Hc Hg.
  pose proof (crawl_records_distinct _ _ _ _ _ _ _ _ _ _ _ Hl Hr Hc Hg) as Hnd.
  set (urls := slice_to _ _) in *.
  destruct (mapM scrape_property urls) as [rs|e] eqn:Hrs.
  2:{ destruct (gathered_raises _ _ _ _ _ urls s e Hr Hc Hrs) as (e' & _ & He' & _).
      congruence. }
  rewrite (gathered_returns _ _ _ _ _ urls s rs Hr Hc Hrs) in Hg.
  injection Hg as <-.
  pose proof (mapM_returns _ _ _ Hrs) as Hall.
  pose proof (keep_found_urls _ _ _ _ _ urls rs Hall) as Hurls.
  split; [|split; [exact Hnd|]].
  - rewrite <- (length_map Property.url), Hurls.
    pose proof (filter_split fetched urls).
    assert (length urls <= Z.to_nat max_properties)%nat.
    { unfold urls, slice_to. rewrite (proj2 (Z.leb_le 0 max_properties) Hk).
      rewrite length_take. lia. }
    lia.
  - eapply List.Forall_impl; [|exact (found_records urls rs Hall)].
    intros p (Hin & Hf & Hlen). split; [|split; assumption].
    eapply In_slice_to, Hin.
Qed.


Lemma add_urls_grow links urls :
  urls `prefix_of` List.fold_left add_url links urls.
Proof.
  revert urls. induction links as [|u links IH]; intros urls; [reflexivity|].
  simpl. etransitivity; [|apply IH]. unfold add_url.
  destruct (existsb _ urls); [reflexivity|]. apply prefix_app_r. reflexivity.
Qed.

(** X18.  More pages never disturb what fewer pages have found: when the
    listing over [m] pages returns, the listing over [n <= m] pages returns
    too, and its addresses are the first of the addresses of the listing
    over [m] pages, in the same order. *)
Theorem listing_grows base_url n m urls_m :
  0 <= n <= m ->
  scrape_property_listings base_url m = Returns urls_m ->
  exists urls_n,
    scrape_property_listings base_url n = Returns urls_n
    /\ urls_n `prefix_of` urls_m.
Proof.
  intros Hnm Hm.
  destruct (listing_returned _ _ _ _ _ _ _ Hm) as (linkss & Hall & ->).
  rewrite (range_app 1 (n + 1) (m + 1)) in Hall by lia.
  apply Forall2_app_inv_l in Hall as (first & rest & Hfirst & _ & ->).
  exists (List.fold_left add_url (List.concat first) []). split.
  - unfold PropertyScraper.scrape_property_listings,
      PropertyScraper.scrape_property_listings_traced.
    rewrite (listing_pages_returns _ _ _ _ _ _ _ _ _ Hfirst). reflexivity.
  - rewrite concat_app, fold_left_app. apply add_urls_grow.
Qed.

End CrawlMore.
(** ** More on the result sink *)

Section SinkMore.

(** X10.  The columns of the two tables.  Every row of the table of
    properties has the twenty-one fields of a property other than its
    transactions, in the order of the class; every row of the table of
    transactions has the fourteen fields of a transaction, each with the
    value the transaction has, then [property_id] and [property_url]: the
    two keys are added at the end and take the place of no field. *)
Theorem table_columns properties :
  Forall (fun row =>
            List.map fst row
            = ["url"; "property_id"; "location_breadcrumb"; "estate_name";
               "full_address"; "block_unit"; "floor_info"; "sell_price";
               "sell_price_millions"; "valuation"; "valuation_millions";
               "gross_area_sqft"; "gross_area_unit_price"; "saleable_area_sqft";
               "saleable_area_unit_price"; "building_age_years"; "bedrooms";
               "bathrooms"; "pri_school_net"; "sec_school_net"; "scraped_at"])
         (properties_data properties)
  /\ Forall (fun row =>
               List.map fst row
               = ["property_full_name"; "estate_name"; "flat_info"; "location";
                  "sold_price"; "sold_price_millions"; "registry_date";
                  "gross_area_sqft"; "saleable_area_sqft"; "building_unit_price";
                  "unit_price"; "bedrooms"; "transaction_format"; "url";
                  "property_id"; "property_url"])
            (transactions_data properties)
  /\ transactions_data properties
     = List.flat_map
         (fun prop =>
            List.map (fun trans =>
                        (asdict_transaction trans
                         ++ [("property_id", VStr (Property.property_id prop));
                             ("property_url", VStr (Property.url prop))])%list)
                     (Property.transactions prop))
         properties.
Proof.
  split; [|split].
  - unfold properties_data. apply List.Forall_forall. intros row Hrow.
    apply in_map_iff in Hrow as (p & <- & _). reflexivity.
  - apply List.Forall_forall. intros row Hrow.
    apply in_transactions_data in Hrow as (prop & trans & _ & _ & ->).
    reflexivity.
  - reflexivity.
Qed.

End SinkMore.

(** ** Facts about the country extraction *)

Section CountryFacts.
Import Country.
Variable upper : string -> string.
Variable ratio : string -> string -> float.
Variable countries_list : list string.

#[local] Abbreviation clean := (clean upper).
#[local] Abbreviation strategy4 := (strategy4 upper ratio countries_list).
#[local] Abbreviation extract_country_advanced :=
  (extract_country_advanced upper ratio countries_list).

Lemma first_of_none {A B} (f : A -> option B) l :
  (forall a, In a l -> f a = None) -> first_of f l = None.
Proof.
  induction l as [|a l IH]; intros Hf; [reflexivity|]. simpl.
  rewrite (Hf a) by (left; reflexivity). apply IH. intros b Hb.
  apply Hf. right. exact Hb.
Qed.

Lemma first_of_some {A B} (f : A -> option B) l b :
  first_of f l = Some b -> exists a, In a l /\ f a = Some b.
Proof.
  induction l as [|a l IH]; [discriminate|]. simpl.
  destruct (f a) as [b'|] eqn:Ha.
  - intros [= <-]. exists a. split; [left; reflexivity|exact Ha].
  - intros Hb. destruct (IH Hb) as (a' & Hin & Ha'). exists a'.
    split; [right; exact Hin|exact Ha'].
Qed.

Lemma mem_In x l : mem x l = true <-> In x l.
Proof.
  unfold mem. rewrite existsb_exists. split.
  - intros (y & Hy & ->%String.eqb_eq). exact Hy.
  - intros Hx. exists x. split; [exact Hx|apply String.eqb_refl].
Qed.

Lemma find_snd_In {A B} (f : A * B -> bool) (l : list (A * B)) b :
  snd <$> List.find f l = Some b -> exists a, In (a, b) l /\ f (a, b) = true.
Proof.
  destruct (List.find f l) as [[a b']|] eqn:Hf; [|discriminate].
  intros [= <-]. apply find_some in Hf. exists a. exact Hf.
Qed.

(** A word that is a key of the table is found by Strategy 1 already. *)
Lemma strategy1_none address_clean w :
  strategy1 address_clean = None -> In w (words address_clean) ->
  code_of w = None.
Proof.
  unfold strategy1, code_of. intros H1 Hw.
  destruct (List.find _ country_codes) as [kv|] eqn:Hfind in H1; [discriminate|].
  destruct (List.find (fun kv => String.eqb w (fst kv)) country_codes)
    as [kv|] eqn:Hcode; [|reflexivity].
  apply find_some in Hcode as [Hin Heq]. apply String.eqb_eq in Heq.
  pose proof (find_none _ _ Hfind _ Hin) as Hno. simpl in Hno.
  rewrite <- Heq in Hno. apply mem_In in Hw. congruence.
Qed.

Lemma In_drop {A} n (l : list A) x : In x (drop n l) -> In x l.
Proof.
  revert n. induction l as [|a l IH]; intros [|n]; simpl; auto.
  intros Hx. right. exact (IH n Hx).
Qed.

Lemma strategy3_none address_clean :
  strategy1 address_clean = None -> strategy3 address_clean = None.
Proof.
  intros H1. unfold strategy3. apply first_of_none. intros pattern _.
  destruct (contains pattern address_clean); [|reflexivity].
  destruct (0 <? _); [|reflexivity].
  destruct (words address_clean !! _) as [w|] eqn:Hw; [|reflexivity].
  apply (strategy1_none _ _ H1). apply list_elem_of_In.
  eapply list_elem_of_lookup_2, Hw.
Qed.

Lemma strategy5_none address_clean :
  strategy1 address_clean = None -> strategy5 address_clean = None.
Proof.
  intros H1. unfold strategy5, last_three. apply first_of_none. intros w Hw.
  apply (strategy1_none _ _ H1). eapply In_drop, Hw.
Qed.

(** X11.  Strategies 3 and 5 never decide the country: what they look for,
    a word of the address that is a key of the table, Strategy 1 has found
    before them.  The country is that of Strategy 1, else of Strategy 2,
    else of Strategy 4, else ["Unknown"]. *)
Theorem later_strategies_never_decide address :
  extract_country_advanced address =
  match strategy1 (clean address) with
  | Some country => country
  | None =>
      match strategy2 (clean address) with
      | Some country => country
      | None =>
          match strategy4 (clean address) with
          | Some country => country
          | None => "Unknown"
          end
      end
  end.
Proof.
  unfold Country.extract_country_advanced.
  destruct (strategy1 (clean address)) eqn:H1; [reflexivity|].
  destruct (strategy2 (clean address)); [reflexivity|].
  rewrite (strategy3_none _ H1), (strategy5_none _ H1). reflexivity.
Qed.


Lemma words_spec s :
  Forall (fun w => w <> EmptyString
                   /\ all_chars (fun c => negb (isspace c)) w = true) (words s).
Proof.
  induction s as [|c r IH]; [constructor|]. cbn [words].
  destruct (isspace c) eqn:Hc; [exact IH|].
  assert (Hone : String c EmptyString <> EmptyString
                 /\ all_chars (fun c => negb (isspace c)) (String c "") = true).
  { split; [discriminate|]. simpl. rewrite Hc. reflexivity. }
  destruct r as [|d r']; [repeat constructor; apply Hone|].
  destruct (isspace d); [constructor; [apply Hone|exact IH]|].
  destruct (words (String d r')) as [|w ws]; [repeat constructor; apply Hone|].
  inversion IH as [|? ? [_ Hw] Hws]; subst. constructor; [|exact Hws].
  split; [discriminate|]. simpl. rewrite Hc, Hw. reflexivity.
Qed.

Lemma contains_space_char code :
  contains " " code = true ->
  all_chars (fun c => negb (isspace c)) code = false.
Proof.
  induction code as [|c r IH]; [discriminate|].
  cbn [contains String.prefix all_chars].
  destruct (ascii_dec " " c) as [<-|_]; [reflexivity|].
  replace (String.prefix "" r) with true by (destruct r; reflexivity).
  simpl. intros H. rewrite (IH H). apply andb_false_r.
Qed.

(** X12.  No word of an address is empty or holds white space, so a key of
    two words is never a word of the address: Strategy 1 cannot find
    ["HONG KONG"], ["UNITED STATES"], ["UNITED KINGDOM"] or ["SOUTH KOREA"],
    the four keys of the table that hold a space. *)
Theorem two_word_keys_never_match address :
  Forall (fun w => w <> EmptyString
                   /\ all_chars (fun c => negb (isspace c)) w = true)
         (words (clean address))
  /\ (forall code, contains " " code = true ->
                   mem code (words (clean address)) = false)
  /\ List.filter (fun kv => contains " " (fst kv)) country_codes
     = [("HONG KONG", "Hong Kong"); ("UNITED STATES", "United States");
        ("UNITED KINGDOM", "United Kingdom"); ("SOUTH KOREA", "South Korea")].
Proof.
  split; [apply words_spec|]. split; [|vm_compute; reflexivity].
  intros code Hcode. destruct (mem code _) eqn:Hmem; [|reflexivity].
  apply mem_In in Hmem.
  pose proof (proj1 (List.Forall_forall _ _) (words_spec (clean address)) _ Hmem)
    as [_ Hw].
  rewrite (contains_space_char _ Hcode) in Hw. discriminate.
Qed.

Lemma find_ext {A} (f g : A -> bool) l :
  (forall a, In a l -> f a = g a) -> List.find f l = List.find g l.
Proof.
  induction l as [|a l IH]; intros Hfg; [reflexivity|]. simpl.
  rewrite (Hfg a) by (left; reflexivity). destruct (g a); [reflexivity|].
  apply IH. intros b Hb. apply Hfg. right. exact Hb.
Qed.

Lemma mem_ext x l l' : (forall w, In w l <-> In w l') -> mem x l = mem x l'.
Proof.
  intros H. destruct (mem x l) eqn:E, (mem x l') eqn:E'; try reflexivity.
  - apply mem_In, H, mem_In in E. congruence.
  - apply mem_In, H, mem_In in E'. congruence.
Qed.

Lemma strategy1_decides address c :
  strategy1 (clean address) = Some c -> extract_country_advanced address = c.
Proof.
  intros Hc. unfold Country.extract_country_advanced.
  destruct (strategy1 (clean address)) as [c'|]; [congruence|discriminate].
Qed.

Lemma strategy1_same s s' :
  (forall w, In w (words s) <-> In w (words s')) -> strategy1 s = strategy1 s'.
Proof.
  intros Hsame. unfold strategy1.
  rewrite (find_ext (fun kv => mem (fst kv) (words s))
                    (fun kv => mem (fst kv) (words s')) country_codes);
    [reflexivity|].
  intros kv _. apply mem_ext, Hsame.
Qed.

Lemma strategy1_finds s code country :
  In (code, country) country_codes -> In code (words s) ->
  exists c, strategy1 s = Some c.
Proof.
  intros Hin Hcode. unfold strategy1.
  destruct (List.find (fun kv => mem (fst kv) (words s)) country_codes)
    as [kv|] eqn:Hfind; [eexists; reflexivity|].
  pose proof (find_none _ _ Hfind (code, country) Hin) as Hno.
  apply mem_In in Hcode. cbn beta in Hno. cbn [fst] in Hno.
  rewrite Hcode in Hno. discriminate.
Qed.

(** X13.  When a word of the address is a key of the table, the country
    does not depend on where the words stand: two addresses with the same
    words get the same country, that of the first key, in the order of the
    table, that is among the words. *)
Theorem word_order_is_immaterial address address' :
  (forall w, In w (words (clean address)) <-> In w (words (clean address'))) ->
  (exists code country,
      In (code, country) country_codes /\ In code (words (clean address))) ->
  extract_country_advanced address = extract_country_advanced address'
  /\ strategy1 (clean address) = Some (extract_country_advanced address).
Proof.
  intros Hsame (code & country & Hin & Hcode).
  pose proof (strategy1_same _ _ Hsame) as H1.
  destruct (strategy1_finds _ _ _ Hin Hcode) as [c Hc].
  rewrite (strategy1_decides _ _ Hc).
  rewrite H1 in Hc. rewrite (strategy1_decides _ _ Hc).
  split; [reflexivity|rewrite H1; exact Hc].
Qed.

Lemma values_are_countries :
  forallb (fun kv => mem (snd kv) countries) country_codes = true
  /\ forallb (fun kv => mem (snd kv) countries) city_country_map = true.
Proof. split; vm_compute; reflexivity. Qed.

Lemma code_country code country :
  In (code, country) country_codes -> In country countries.
Proof.
  intros Hin. destruct values_are_countries as [Hc _].
  apply mem_In. exact (proj1 (forallb_forall _ _) Hc _ Hin).
Qed.

Lemma city_country city country :
  In (city, country) city_country_map -> In country countries.
Proof.
  intros Hin. destruct values_are_countries as [_ Hc].
  apply mem_In. exact (proj1 (forallb_forall _ _) Hc _ Hin).
Qed.

(** X14.  Whatever the address, the result is the name of one of the
    seventeen countries of the table or ["Unknown"], provided that the
    list of countries of Strategy 4 holds names of the table only, as the
    set of its values does in every order. *)
Theorem country_or_unknown address :
  Forall (fun country => In country countries) countries_list ->
  In (extract_country_advanced address) ("Unknown" :: countries).
Proof.
  intros Hlist. unfold Country.extract_country_advanced.
  destruct (strategy1 (clean address)) as [c|] eqn:H1.
  { right. unfold strategy1 in H1. apply find_snd_In in H1 as (code & Hin & _).
    eapply code_country, Hin. }
  destruct (strategy2 (clean address)) as [c|] eqn:H2.
  { right. unfold strategy2 in H2. apply find_snd_In in H2 as (city & Hin & _).
    eapply city_country, Hin. }
  rewrite (strategy3_none _ H1), (strategy5_none _ H1).
  destruct (strategy4 (clean address)) as [c|] eqn:H4; [|left; reflexivity].
  right. unfold Country.strategy4 in H4.
  apply first_of_some in H4 as (w & _ & Hfind). apply find_some in Hfind as [Hc _].
  exact (proj1 (List.Forall_forall _ _) Hlist _ Hc).
Qed.

(** X15.  An address of which nothing is left, once the white space around
    it and its punctuation are taken away, has the country ["Unknown"]; so
    has the empty address. *)
Theorem nothing_left_is_unknown address :
  clean address = EmptyString ->
  extract_country_advanced address = "Unknown".
Proof.
  intros Hclean. unfold Country.extract_country_advanced. rewrite Hclean.
  vm_compute. reflexivity.
Qed.

End CountryFacts.

(** ** The further facts on the site and at the desk *)

Section MoreOnTheSite.
Import Site.

Lemma text_after_the_number_witness :
  float_of_str "1" = Returns (float_of_int 1)
  /\ parse_price_to_millions (Some "1,500,000")
     = Returns (Some (fdiv (float_of_int 1) million)).
Proof.
  split; [vm_compute; reflexivity|].
  apply (text_after_the_number "1" (float_of_int 1) "," "500,000");
    (vm_compute; reflexivity) || discriminate.
Defined.

Lemma magnitude_by_first_letter_witness :
  float_of_str "5" = Returns (float_of_int 5)
  /\ parse_price_to_millions (Some "5 metres") = Returns (Some (float_of_int 5)).
Proof.
  split; [vm_compute; reflexivity|].
  apply (magnitude_by_first_letter "5" (float_of_int 5) " " "m" "etres");
    [vm_compute; reflexivity|reflexivity|right; reflexivity].
Defined.

Lemma never_below_zero_witness :
  parse_price_to_millions (Some "-5M") = Returns (Some (float_of_int 5))
  /\ SFltb (float_of_int 5) (float_of_int 0) = false.
Proof.
  assert (Hv : parse_price_to_millions (Some "-5M") = Returns (Some (float_of_int 5)))
    by (vm_compute; reflexivity).
  split; [exact Hv|]. exact (never_below_zero "-5M" (float_of_int 5) Hv).
Defined.

Lemma no_capacity_no_progress_witness :
  let self := settings 0 in
  max_concurrent self = 0 /\ addresses <> []
  /\ reachable urljoin now fetch_page fetch_page self addresses (start self addresses)
  /\ ~ complete (start self addresses)
  /\ gathered (start self addresses) = None.
Proof.
  assert (Hr : reachable urljoin now fetch_page fetch_page (settings 0) addresses
                 (start (settings 0) addresses)) by apply rtc_refl.
  split; [reflexivity|]. split; [discriminate|]. split; [exact Hr|].
  apply (no_capacity_no_progress urljoin now fetch_page fetch_page (settings 0)
           addresses (start (settings 0) addresses) eq_refl);
    [discriminate|exact Hr].
Defined.

Lemma one_failure_loses_all_witness :
  let self := settings 2 in
  let urls := [host ++ "/property-101"; host ++ "/property-104"] in
  let s := run urljoin now fetch_page fetch_page self
             (List.concat (List.repeat [0; 1]%nat 14)) (start self urls) in
  (exists p, scrape_property urljoin now fetch_page fetch_page self
               (host ++ "/property-101") = Returns (Some p))
  /\ scrape_property urljoin now fetch_page fetch_page self (host ++ "/property-104")
     = Raises (ValueError "could not convert string to float: '.'")
  /\ reachable urljoin now fetch_page fetch_page self urls s
  /\ complete s
  /\ exists e' url',
       gathered s = Some (Raises e')
       /\ In url' urls
       /\ scrape_property urljoin now fetch_page fetch_page self url' = Raises e'.
Proof.
  intros self urls s.
  assert (He : scrape_property urljoin now fetch_page fetch_page self
                 (host ++ "/property-104")
               = Raises (ValueError "could not convert string to float: '.'"))
    by (vm_compute; reflexivity).
  assert (Hr : reachable urljoin now fetch_page fetch_page self urls s)
    by apply run_reachable.
  assert (Hc : complete s).
  { apply Forall_forall. intros t Ht. vm_compute in Ht.
    repeat (apply elem_of_cons in Ht as [->|Ht]; [reflexivity|]).
    apply elem_of_nil in Ht. destruct Ht. }
  split; [eexists; vm_compute; reflexivity|]. split; [exact He|].
  split; [exact Hr|]. split; [exact Hc|].
  apply (one_failure_loses_all urljoin now fetch_page fetch_page self urls s
           (host ++ "/property-104") _ (or_intror (or_introl eq_refl)) He Hr Hc).
Defined.

Lemma crawl_is_bounded_witness :
  let self := settings 2 in
  let s := crawl_of 2 in_turn in
  let listing := [host ++ "/property-101"; host ++ "/property-102";
                  host ++ "/property-103"; host ++ "/property-104"] in
  scrape_property_listings urljoin fetch_page fetch_page self base_url 2
  = Returns listing
  /\ slice_to 3 listing = addresses
  /\ exists properties,
       gathered s = Some (Returns properties)
       /\ length properties = 2%nat
       /\ Z.of_nat (length properties) <= 3.
Proof.
  intros self s listing.
  assert (Hl : scrape_property_listings urljoin fetch_page fetch_page self base_url 2
               = Returns listing)
    by (vm_compute; reflexivity).
  assert (Hu : slice_to 3 listing = addresses) by reflexivity.
  split; [exact Hl|]. split; [exact Hu|].
  assert (Hg : exists properties,
             gathered s = Some (Returns properties) /\ length properties = 2%nat)
    by (eexists; split; vm_compute; reflexivity).
  destruct Hg as (properties & Hg & Hlen). exists properties.
  split; [exact Hg|]. split; [exact Hlen|].
  apply (crawl_is_bounded urljoin now fetch_page fetch_page self base_url 2 3
           listing s properties); [lia|exact Hl| | |exact Hg].
  - rewrite Hu. apply run_reachable.
  - apply Forall_forall. intros t Ht. vm_compute in Ht.
    repeat (apply elem_of_cons in Ht as [->|Ht]; [reflexivity|]).
    apply elem_of_nil in Ht. destruct Ht.
Defined.

(** The trace of the listing of the site: both pages come, and a pause
    follows each. *)
Example site_listing_example :
  snd (scrape_property_listings_traced urljoin fetch_page fetch_page (settings 2)
         base_url 2)
  = [EvFetch base_url; EvSleep (float_of_int 1);
     EvFetch (base_url ++ "?page=2"); EvSleep (float_of_int 1)].
Proof. vm_compute; reflexivity. Qed.

Lemma header_round_trip_witness :
  let t := extract_header (BeautifulSoup "<deal>") (new_transaction "") in
  Transaction.estate_name t = "City One Shatin"
  /\ Transaction.flat_info t = "Flat H, Low, Block 30"
  /\ Transaction.property_full_name t
     = Transaction.estate_name t ++ ", " ++ Transaction.flat_info t.
Proof.
  apply (header_round_trip (H := soup) (BeautifulSoup "<deal>")
           (Cell "City One Shatin, Flat H, Low, Block 30")
           (new_transaction "") "City One Shatin"
           ["Flat H"; "Low"; "Block 30"]).
  - reflexivity.
  - reflexivity.
  - discriminate.
  - repeat constructor.
  - repeat constructor.
Defined.

Lemma listing_grows_witness :
  scrape_property_listings urljoin fetch_page fetch_page (settings 2) rent_url 2
  = Returns [host ++ "/property-201"; host ++ "/property-202";
             host ++ "/property-203"]
  /\ scrape_property_listings urljoin fetch_page fetch_page (settings 2) rent_url 1
     = Returns [host ++ "/property-201"; host ++ "/property-202"]
  /\ exists urls_n,
       scrape_property_listings urljoin fetch_page fetch_page (settings 2) rent_url 1
       = Returns urls_n
       /\ urls_n `prefix_of` [host ++ "/property-201"; host ++ "/property-202";
                              host ++ "/property-203"].
Proof.
  assert (Hm : scrape_property_listings urljoin fetch_page fetch_page (settings 2)
                 rent_url 2
               = Returns [host ++ "/property-201"; host ++ "/property-202";
                          host ++ "/property-203"])
    by (vm_compute; reflexivity).
  split; [exact Hm|]. split; [vm_compute; reflexivity|].
  apply (listing_grows urljoin fetch_page fetch_page (settings 2) rent_url 1 2 _
           (conj (Z.le_0_1) (Zle_bool_imp_le 1 2 eq_refl)) Hm).
Defined.

Lemma unit_price_commas_witness :
  extract_area (H := soup) (H0 := Bench.regex) (Bench.page_of "@ ,") "Gross Area"
    Property.set_gross_area_sqft Property.set_gross_area_unit_price
    (new_property now (host ++ "/property-101") "101")
  = Raises (ValueError "invalid literal for int() with base 10: ''")
  /\ extract_area (H := soup) (H0 := Bench.regex) (Bench.page_of "@ 12,345")
       "Gross Area" Property.set_gross_area_sqft Property.set_gross_area_unit_price
       (new_property now (host ++ "/property-101") "101")
     = Returns (Property.set_gross_area_unit_price (Some 12345)
                  (new_property now (host ++ "/property-101") "101")).
Proof.
  split.
  - apply (unit_price_commas (H := soup) (H0 := Bench.regex) (Bench.page_of "@ ,")
             "Gross Area" Property.set_gross_area_sqft
             Property.set_gross_area_unit_price
             (new_property now (host ++ "/property-101") "101")
             (new_property now (host ++ "/property-101") "101") "@ ," ",");
      vm_compute; reflexivity.
  - apply (unit_price_commas (H := soup) (H0 := Bench.regex)
             (Bench.page_of "@ 12,345") "Gross Area" Property.set_gross_area_sqft
             Property.set_gross_area_unit_price
             (new_property now (host ++ "/property-101") "101")
             (new_property now (host ++ "/property-101") "101")
             "@ 12,345" "12,345");
      vm_compute; reflexivity.
Defined.


End MoreOnTheSite.

Section AtTheDesk.
Import Country.

Lemma word_order_is_immaterial_witness :
  Desk.extract_country_advanced "1 Financial Plaza, Singapore, HK"
  = Desk.extract_country_advanced "hk singapore: Plaza Financial 1"
  /\ Desk.extract_country_advanced "1 Financial Plaza, Singapore, HK" = "Hong Kong".
Proof.
  split; [|vm_compute; reflexivity].
  apply (word_order_is_immaterial Desk.upper Desk.ratio countries
           "1 Financial Plaza, Singapore, HK" "hk singapore: Plaza Financial 1").
  - intros w. vm_compute. tauto.
  - exists "HK", "Hong Kong". split; vm_compute; tauto.
Defined.

Lemma country_or_unknown_witness :
  In (Desk.extract_country_advanced "10 Harbor View, Singapor")
     ("Unknown" :: countries).
Proof.
  apply (country_or_unknown Desk.upper Desk.ratio countries).
  apply Forall_forall. intros country Hc. apply list_elem_of_In, Hc.
Defined.

Lemma nothing_left_is_unknown_witness :
  clean Desk.upper " (...) " = EmptyString
  /\ Desk.extract_country_advanced " (...) " = "Unknown".
Proof.
  split; [vm_compute; reflexivity|].
  apply (nothing_left_is_unknown Desk.upper Desk.ratio countries).
  vm_compute. reflexivity.
Defined.

(** A misspelt name is found by its likeness; the two names in full that
    are no key of the table, and are like no single word, are not found. *)
Example desk_examples :
  Desk.extract_country_advanced "10 Harbor View, Singapor" = "Singapore"
  /\ Desk.extract_country_advanced "5 High Road, United Kingdom" = "Unknown"
  /\ Desk.extract_country_advanced "77 Market Street, Taiwan, ROC" = "Taiwan".
Proof. vm_compute. auto. Qed.

Lemma two_word_keys_never_match_witness :
  contains " " "UNITED KINGDOM" = true
  /\ mem "UNITED KINGDOM" (words (clean Desk.upper "5 High Road, United Kingdom"))
     = false.
Proof.
  split; [reflexivity|].
  apply (proj1 (proj2 (two_word_keys_never_match Desk.upper
                         "5 High Road, United Kingdom"))).
  reflexivity.
Defined.

End AtTheDesk.
